(** * libvin.epa: conditional download of the EPA fuel-economy dataset

    A shallow embedding of [src/libvin/epa.py] ([ensure_latest] and
    [get_epa_updates]) together with the parts of the Python 2 standard
    library the two functions call: [os.path.join], [tempfile.mkstemp],
    [time.gmtime], [time.strftime], [datetime.utctimetuple] and the
    error dispatch of a [urllib2] opener. *)

From Stdlib Require Import ZArith Lia List Ascii String DecimalString.
From stdpp Require Import base gmap strings list.

Local Open Scope Z_scope.

(** ** Calendar arithmetic of Python's [datetime] module *)

Module Calendar.

Definition MINYEAR : Z := 1.
Definition MAXYEAR : Z := 9999.

(** [is_leap(year)]: year -> 1 if leap year, else 0. *)
Definition is_leap (year : Z) : bool :=
  (year mod 4 =? 0) && (negb (year mod 100 =? 0) || (year mod 400 =? 0)).

(** [days_before_year(year)]: number of days before January 1st of year. *)
Definition days_before_year (year : Z) : Z :=
  let y := year - 1 in
  y * 365 + y / 4 - y / 100 + y / 400.

Definition days_in_month (year month : Z) : Z :=
  if (month =? 2) && is_leap year then 29
  else nth (Z.to_nat month) [0; 31; 28; 31; 30; 31; 30; 31; 31; 30; 31; 30; 31] 0.

Definition days_before_month (year month : Z) : Z :=
  nth (Z.to_nat month) [0; 0; 31; 59; 90; 120; 151; 181; 212; 243; 273; 304; 334] 0
  + (if (2 <? month) && is_leap year then 1 else 0).

(** [ymd_to_ord]: ordinal of a date, considering 01-Jan-0001 as day 1. *)
Definition ymd_to_ord (year month day : Z) : Z :=
  days_before_year year + days_before_month year month + day.

Definition DI400Y : Z := 146097.
Definition DI100Y : Z := 36524.
Definition DI4Y : Z := 1461.

(** [ord_to_ymd]: ordinal -> (year, month, day). *)
Definition ord_to_ymd (ordinal : Z) : Z * Z * Z :=
  let n := ordinal - 1 in
  let n400 := n / DI400Y in
  let n := n mod DI400Y in
  let n100 := n / DI100Y in
  let n := n mod DI100Y in
  let n4 := n / DI4Y in
  let n := n mod DI4Y in
  let n1 := n / 365 in
  let n := n mod 365 in
  let year := n400 * 400 + 1 + n100 * 100 + n4 * 4 + n1 in
  if (n1 =? 4) || (n100 =? 4) then (year - 1, 12, 31)
  else
    let leapyear := (n1 =? 3) && (negb (n4 =? 24) || (n100 =? 3)) in
    let month := Z.shiftr (n + 50) 5 in
    let preceding :=
      nth (Z.to_nat month) [0; 0; 31; 59; 90; 120; 151; 181; 212; 243; 273; 304; 334] 0
      + (if (2 <? month) && leapyear then 1 else 0) in
    if n <? preceding then
      let month := month - 1 in
      let preceding :=
        preceding
        - (if (month =? 2) && leapyear then 29
           else nth (Z.to_nat month) [0; 31; 28; 31; 30; 31; 30; 31; 31; 30; 31; 30; 31] 0) in
      (year, month, n - preceding + 1)
    else (year, month, n - preceding + 1).

(** [weekday(y, m, d)]: day of week, 0 = Monday. *)
Definition weekday (y m d : Z) : Z := (ymd_to_ord y m d + 6) mod 7.

(** Ordinal of 1970-01-01, the epoch of [time.gmtime]. *)
Definition EPOCH_ORD : Z := 719163.

End Calendar.

(** ** Python 2 [time] and [datetime]: the calls of [get_epa_updates] *)

Module PyTime.
Import Calendar.

(** [time.struct_time]; [tm_mon] is 1..12, [tm_wday] has Monday = 0 and
    [tm_yday] is 1..366. *)
Record struct_time := {
  tm_year : Z; tm_mon : Z; tm_mday : Z;
  tm_hour : Z; tm_min : Z; tm_sec : Z;
  tm_wday : Z; tm_yday : Z; tm_isdst : Z }.

(** The conversion of C [gmtime]: seconds since 1970-01-01T00:00:00Z
    to the UTC broken-down time of the proleptic Gregorian calendar. *)
Definition gmtime (secs : Z) : struct_time :=
  let days := secs / 86400 in
  let rem := secs mod 86400 in
  let '(y, m, d) := ord_to_ymd (days + EPOCH_ORD) in
  {| tm_year := y; tm_mon := m; tm_mday := d;
     tm_hour := rem / 3600; tm_min := rem mod 3600 / 60; tm_sec := rem mod 60;
     tm_wday := (days + 3) mod 7;
     tm_yday := days + EPOCH_ORD - days_before_year y;
     tm_isdst := 0 |}.

(** C [gmtime(&t)]: it fails when the year does not fit the [int]
    field [tm_year] of [struct tm], which counts from 1900. *)
Definition c_gmtime (secs : Z) : option struct_time :=
  let t := gmtime secs in
  if (- 2 ^ 31 <=? tm_year t - 1900) && (tm_year t - 1900 <? 2 ^ 31) then Some t
  else None.

(** [PyFloat_AsDouble] of an [int] or a [long]: the nearest double,
    ties to even; [None] is the OverflowError of a [long] beyond the
    doubles.  From 2^53 on in magnitude every double is an integer. *)
Definition int_to_double (n : Z) : option Z :=
  let a := Z.abs n in
  if a <? 2 ^ 53 then Some n
  else
    let e := Z.log2 a - 52 in
    let q := a / 2 ^ e in
    let r := a mod 2 ^ e in
    let q := if (2 ^ (e - 1) <? r) || ((r =? 2 ^ (e - 1)) && Z.odd q) then q + 1 else q in
    if 2 ^ 1024 <=? q * 2 ^ e then None else Some (Z.sgn n * (q * 2 ^ e)).

(** [_PyTime_DoubleToTimet]: the whole seconds [secs] of a double are
    refused when they do not fit the [time_t] of the platform, whose
    largest value is [time_t_max]. *)
Definition double_to_time_t (time_t_max secs : Z) : option Z :=
  if (- time_t_max - 1 <=? secs) && (secs <=? time_t_max) then Some secs else None.

(** A finite Python [float]: the value [mantissa * 2 ^ exponent]. *)
Record pyfloat := { mantissa : Z; exponent : Z }.

(** [float(n)], exact for every integer below 2^53 in magnitude. *)
Definition float_of_Z (n : Z) : pyfloat := {| mantissa := n; exponent := 0 |}.

(** The whole seconds of a float, as the C cast to [time_t] takes
    them: truncated toward zero. *)
Definition float_to_time_t (x : pyfloat) : Z :=
  if 0 <=? exponent x then mantissa x * 2 ^ exponent x
  else Z.quot (mantissa x) (2 ^ (- exponent x)).

(** [datetime.datetime]; [tzinfo] holds the [utcoffset()] of the
    attached time zone in minutes, [None] for a naive value. *)
Record datetime := {
  year : Z; month : Z; day : Z;
  hour : Z; minute : Z; second : Z; microsecond : Z;
  tzinfo : option Z }.

(** [normalize_pair(hi, lo, factor)]: carry [lo] into [hi]. *)
Definition normalize_pair (hi lo factor : Z) : Z * Z :=
  if (lo <? 0) || (factor <=? lo) then (hi + lo / factor, lo mod factor)
  else (hi, lo).

Definition MAXORDINAL : Z := 3652059.

(** [normalize_y_m_d]: bring month and day back in range. *)
Definition normalize_y_m_d (y m d : Z) : Z * Z * Z :=
  let '(y, m) :=
    if (m <? 1) || (12 <? m) then
      let '(y, m) := normalize_pair y (m - 1) 12 in (y, m + 1)
    else (y, m) in
  let dim := days_in_month y m in
  if (d <? 1) || (dim <? d) then
    if d =? 0 then
      let m := m - 1 in
      if 0 <? m then (y, m, days_in_month y m) else (y - 1, 12, 31)
    else if d =? dim + 1 then
      let m := m + 1 in
      if 12 <? m then (y + 1, 1, 1) else (y, m, 1)
    else
      let ordinal := ymd_to_ord y m 1 + d - 1 in
      if (ordinal <? 1) || (MAXORDINAL <? ordinal) then (y, m, d)
      else ord_to_ymd ordinal
  else (y, m, d).

(** [build_struct_time(y, m, d, hh, mm, ss, dstflag)]. *)
Definition build_struct_time (y m d hh mm ss dstflag : Z) : struct_time :=
  {| tm_year := y; tm_mon := m; tm_mday := d;
     tm_hour := hh; tm_min := mm; tm_sec := ss;
     tm_wday := weekday y m d;
     tm_yday := days_before_month y m + d;
     tm_isdst := dstflag |}.

(** [datetime.utctimetuple()]: the UTC offset is subtracted from the
    minutes and the fields are normalized; microseconds are ignored. *)
Definition utctimetuple (self : datetime) : struct_time :=
  let offset := match tzinfo self with Some o => o | None => 0 end in
  if offset =? 0 then
    build_struct_time (year self) (month self) (day self)
      (hour self) (minute self) (second self) 0
  else
    let mm := minute self - offset in
    let '(ss, us) := normalize_pair (second self) 0 1000000 in
    let '(mm, ss) := normalize_pair mm ss 60 in
    let '(hh, mm) := normalize_pair (hour self) mm 60 in
    let '(d, hh) := normalize_pair (day self) hh 24 in
    let '(y, m, d) := normalize_y_m_d (year self) (month self) d in
    build_struct_time y m d hh mm ss 0.

(** The C [struct tm] handed to [strftime]: years since 1900, months
    0..11, [c_wday] with Sunday = 0. *)
Record tm := {
  c_year : Z; c_mon : Z; c_mday : Z;
  c_hour : Z; c_min : Z; c_sec : Z;
  c_wday : Z; c_yday : Z; c_isdst : Z }.

(** [gettmarg]: struct_time to [struct tm]; with [time.accept2dyear]
    at its default, a year below 1900 is a ValueError unless it is a
    two-digit year. *)
Definition gettmarg (t : struct_time) : option tm :=
  let y := tm_year t in
  let y' :=
    if y <? 1900 then
      if (69 <=? y) && (y <=? 99) then Some (y + 1900)
      else if (0 <=? y) && (y <=? 68) then Some (y + 2000)
      else None
    else Some y in
  match y' with
  | None => None
  | Some y =>
      Some {| c_year := y - 1900; c_mon := tm_mon t - 1; c_mday := tm_mday t;
              c_hour := tm_hour t; c_min := tm_min t; c_sec := tm_sec t;
              c_wday := Z.rem (tm_wday t + 1) 7; c_yday := tm_yday t - 1;
              c_isdst := tm_isdst t |}
  end.

(** The range checks of [time.strftime] before the C call; zero or -1
    in month, day and day-of-year are forced to the lowest valid value. *)
Definition checktm (buf : tm) : option tm :=
  let mon := if c_mon buf =? -1 then 0 else c_mon buf in
  let mday := if c_mday buf =? 0 then 1 else c_mday buf in
  let yday := if c_yday buf =? -1 then 0 else c_yday buf in
  if (mon <? 0) || (11 <? mon) then None
  else if (mday <? 0) || (31 <? mday) then None
  else if (c_hour buf <? 0) || (23 <? c_hour buf) then None
  else if (c_min buf <? 0) || (59 <? c_min buf) then None
  else if (c_sec buf <? 0) || (61 <? c_sec buf) then None
  else if c_wday buf <? 0 then None
  else if (yday <? 0) || (365 <? yday) then None
  else if (c_isdst buf <? -1) || (1 <? c_isdst buf) then None
  else Some {| c_year := c_year buf; c_mon := mon; c_mday := mday;
               c_hour := c_hour buf; c_min := c_min buf; c_sec := c_sec buf;
               c_wday := c_wday buf; c_yday := yday; c_isdst := c_isdst buf |}.

Definition digit (n : Z) : ascii := ascii_of_nat (48 + Z.to_nat n).

(** [%02d]. *)
Definition pad2 (n : Z) : string :=
  String (digit (n / 10 mod 10)) (String (digit (n mod 10)) EmptyString).

(** [%d] of a non-negative number. *)
Definition decimal (n : Z) : string := NilZero.string_of_uint (N.to_uint (Z.to_N n)).

Definition wday_abbr (w : Z) : string :=
  nth (Z.to_nat w) ["Sun"; "Mon"; "Tue"; "Wed"; "Thu"; "Fri"; "Sat"] "?".

Definition mon_abbr (m : Z) : string :=
  nth (Z.to_nat m)
    ["Jan"; "Feb"; "Mar"; "Apr"; "May"; "Jun"; "Jul"; "Aug"; "Sep"; "Oct"; "Nov"; "Dec"] "?".

(** One conversion specification of C [strftime] in the C locale. *)
Definition directive (c : ascii) (buf : tm) : string :=
  if Ascii.eqb c "a" then wday_abbr (c_wday buf)
  else if Ascii.eqb c "b" then mon_abbr (c_mon buf)
  else if Ascii.eqb c "d" then pad2 (c_mday buf)
  else if Ascii.eqb c "Y" then decimal (1900 + c_year buf)
  else if Ascii.eqb c "H" then pad2 (c_hour buf)
  else if Ascii.eqb c "M" then pad2 (c_min buf)
  else if Ascii.eqb c "S" then pad2 (c_sec buf)
  else if Ascii.eqb c "%" then "%"
  else String "%" (String c EmptyString).

(** C [strftime(fmt, buf)]. *)
Fixpoint c_strftime (fmt : string) (buf : tm) : string :=
  match fmt with
  | EmptyString => EmptyString
  | String c rest =>
      if Ascii.eqb c "%" then
        match rest with
        | String k rest' => directive k buf +:+ c_strftime rest' buf
        | EmptyString => String c EmptyString
        end
      else String c (c_strftime rest buf)
  end.

(** [time.strftime(format, t)]; [None] stands for the ValueError. *)
Definition strftime (format : string) (t : struct_time) : option string :=
  match gettmarg t with
  | None => None
  | Some buf =>
      match checktm buf with
      | None => None
      | Some buf => Some (c_strftime format buf)
      end
  end.

End PyTime.

(** ** [os.path] on POSIX *)

Module OsPath.

Definition starts_with_slash (s : string) : bool :=
  match s with
  | String c _ => Ascii.eqb c "/"
  | EmptyString => false
  end.

Fixpoint ends_with_slash (s : string) : bool :=
  match s with
  | EmptyString => false
  | String c EmptyString => Ascii.eqb c "/"
  | String _ s' => ends_with_slash s'
  end.

(** [os.path.join(a, b)]. *)
Definition join (a b : string) : string :=
  if starts_with_slash b then b
  else if String.eqb a "" || ends_with_slash a then a +:+ b
  else a +:+ "/" +:+ b.

(** [s.split('/')]. *)
Fixpoint split (s : string) : list string :=
  match s with
  | EmptyString => [EmptyString]
  | String c s' =>
      if Ascii.eqb c "/" then EmptyString :: split s'
      else match split s' with
           | x :: xs => String c x :: xs
           | [] => [String c EmptyString]
           end
  end.

(** [p] lies strictly below the directory [dir]. *)
Definition is_under (dir p : string) : bool := String.prefix (dir +:+ "/") p.

Fixpoint has_slash (s : string) : bool :=
  match s with
  | EmptyString => false
  | String c s' => Ascii.eqb c "/" || has_slash s'
  end.

(** [os.path.basename(s)]: what follows the last slash. *)
Fixpoint basename (s : string) : string :=
  match s with
  | EmptyString => EmptyString
  | String c s' =>
      if has_slash s' then basename s'
      else if Ascii.eqb c "/" then s' else s
  end.

(** [a] with the separator [join] puts after it. *)
Definition sep (a : string) : string :=
  if String.eqb a "" || ends_with_slash a then a else a +:+ "/".

End OsPath.

(** ** Exceptions, the file system and the outside world *)

Inductive exn :=
| IOError | OSError | KeyError | IndexError | ValueError
| BadZipfile | URLError | HTTPError (code : Z)
| KeyboardInterrupt | OtherError (name : string).

Definition is_IOError (e : exn) : bool := match e with IOError => true | _ => false end.
Definition is_OSError (e : exn) : bool := match e with OSError => true | _ => false end.

Inductive outcome (A : Type) :=
| Ret (a : A)
| Raise (e : exn).
Arguments Ret {A} a.
Arguments Raise {A} e.

(** What [urllib2] hands back: status code, header lines and the results
    of the successive [read()] calls (the empty string once exhausted). *)
Record response := {
  code : Z;
  info : list (string * string);
  reads : list (exn + string) }.

(** The calls that can fail for reasons outside the program. *)
Inductive op :=
| SysOpen (path : string)
| SysMkstemp
| SysFdWrite (n : nat)
| SysFdClose
| ZipOpen
| ZipExtract
| SysRename
| SysOpenW (path : string)
| SysWrite (path : string)
| SysRmtree
| SysUnlink.

(** The environment of one call: injected failures, the package
    resource resolver, the HTTP exchange behind [opener.open], the
    default temporary directory with the random draws of [mkstemp], the
    archive reader of [zipfile] ([None]: not a zip file), and the
    largest [time_t] of the platform. *)
Record env := {
  fails : op -> option exn;
  resource_filename : string -> string;
  http : list (string * string) -> exn + response;
  gettempdir : string;
  rng : nat -> nat;
  unzip : string -> option (list (string * string));
  time_t_max : Z }.

Inductive level := INFO | WARN | ERROR.

(** Effects on the file system and the network, in program order. *)
Inductive event :=
| Request (headers : list (string * string))
| Mkstemp (path : string)
| FdWrite (path data : string)
| Extract (path : string)
| Rename (src dst : string)
| OpenW (path : string)
| Write (path data : string)
| Rmtree (dir : string)
| Unlink (path : string).

(** Regular files by path name; directories are implicit.  A file is
    named by the spelling of its path: [.] and [..] components and
    symbolic links are not resolved. *)
Record state := {
  fs : gmap string string;
  trace : list event;
  log : list (level * string) }.

Definition M (A : Type) : Type := state -> outcome A * state.

Definition ret {A} (a : A) : M A := fun s => (Ret a, s).
Definition raise {A} (e : exn) : M A := fun s => (Raise e, s).

Definition bind {A B} (m : M A) (k : A -> M B) : M B :=
  fun s =>
    match m s with
    | (Ret a, s') => k a s'
    | (Raise e, s') => (Raise e, s')
    end.

Notation "'let*' x ':=' c1 'in' c2" := (bind c1 (fun x => c2))
  (at level 10, x pattern, c1 at level 100, c2 at level 200).
Notation "c1 '>>' c2" := (bind c1 (fun _ => c2))
  (at level 90, right associativity).

(** [try: body finally: fin]. *)
Definition try_finally {A} (body : M A) (fin : M unit) : M A :=
  fun s =>
    let '(r, s1) := body s in
    match fin s1 with
    | (Ret _, s2) => (r, s2)
    | (Raise e, s2) => (Raise e, s2)
    end.

(** [try: body except E: handler] for the exceptions selected by [sel]. *)
Definition try_except {A} (body : M A) (sel : exn -> bool) (handler : exn -> M A) : M A :=
  fun s =>
    match body s with
    | (Raise e, s1) => if sel e then handler e s1 else (Raise e, s1)
    | r => r
    end.

Definition logger (lvl : level) (msg : string) : M unit :=
  fun s => (Ret tt, {| fs := fs s; trace := trace s; log := log s ++ [(lvl, msg)] |}).

Definition emit (ev : event) (f : gmap string string -> gmap string string) : M unit :=
  fun s => (Ret tt, {| fs := f (fs s); trace := trace s ++ [ev]; log := log s |}).

Definition get_fs : M (gmap string string) := fun s => (Ret (fs s), s).

(** An outside failure of the call [o], if the environment injects one. *)
Definition sys (w : env) (o : op) : M unit :=
  match fails w o with
  | Some e => raise e
  | None => ret tt
  end.

(** [os.path.exists(path)] for a regular file. *)
Definition os_path_exists (path : string) : M bool :=
  let* m := get_fs in ret (bool_decide (is_Some (m !! path))).

(** [open(path)] for reading: the content of the file. *)
Definition open_ (w : env) (path : string) : M string :=
  sys w (SysOpen path) >>
  let* m := get_fs in
  match m !! path with
  | Some content => ret content
  | None => raise IOError
  end.

(** [f.read(size)]. *)
Definition read (content : string) (size : nat) : string := String.substring 0 size content.

(** [open(path, 'w')]: create or truncate. *)
Definition open_w (w : env) (path : string) : M unit :=
  sys w (SysOpenW path) >> emit (OpenW path) (insert path "").

(** [f.write(data)] on a file opened by [open_w]. *)
Definition write (w : env) (path data : string) : M unit :=
  sys w (SysWrite path) >>
  emit (Write path data) (fun m => <[path := default "" (m !! path) +:+ data]> m).

(** [os.rename(src, dst)]. *)
Definition os_rename (w : env) (src dst : string) : M unit :=
  sys w SysRename >>
  let* m := get_fs in
  match m !! src with
  | Some content => emit (Rename src dst) (fun m => <[dst := content]> (delete src m))
  | None => raise OSError
  end.

(** [os.unlink(path)]. *)
Definition os_unlink (w : env) (path : string) : M unit :=
  sys w SysUnlink >> emit (Unlink path) (delete path).

(** [shutil.rmtree(dir)]: every file below [dir] goes.  Directories
    are implicit, so a directory that was never created is one of the
    OSErrors the environment may inject. *)
Definition rmtree (w : env) (dir : string) : M unit :=
  sys w SysRmtree >>
  emit (Rmtree dir) (filter (fun kv => OsPath.is_under dir kv.1 = false)).

(** ** [tempfile.mkstemp()] *)

Module Tempfile.

Definition characters : string :=
  "abcdefghijklmnopqrstuvwxyzABCDEFGHIJKLMNOPQRSTUVWXYZ0123456789_".

(** [_RandomNameSequence.next]: six characters drawn from [characters]. *)
Definition random_name (rng : nat -> nat) : string :=
  string_of_list_ascii
    (map (fun i => nth (rng i mod 63) (list_ascii_of_string characters) "_"%char)
       (seq 0 6)).

(** [mkstemp()] with no arguments: a fresh file ["tmp" + name] in the
    default temporary directory; an existing candidate is refused. *)
Definition mkstemp (w : env) : M string :=
  let file := OsPath.join (gettempdir w) ("tmp" +:+ random_name (rng w)) in
  sys w SysMkstemp >>
  let* m := get_fs in
  match m !! file with
  | Some _ => raise IOError
  | None => emit (Mkstemp file) (insert file "") >> ret file
  end.

End Tempfile.

(** ** [zipfile] *)

Module Zipfile.

(** The member path of [ZipFile.extract]: empty, [.] and [..]
    components of the entry name are dropped. *)
Definition arcname (name : string) : string :=
  String.concat "/"
    (List.filter
       (fun x => negb (String.eqb x "" || String.eqb x "." || String.eqb x ".."))
       (OsPath.split name)).

(** [ZipFile(file_path)]: the entries (name, content) of the archive. *)
Definition ZipFile (w : env) (file_path : string) : M (list (string * string)) :=
  sys w ZipOpen >>
  let* m := get_fs in
  match m !! file_path with
  | None => raise IOError
  | Some bytes =>
      match unzip w bytes with
      | None => raise BadZipfile
      | Some entries => ret entries
      end
  end.

(** [zip_file.namelist()]: byte strings, as [zipfile] gives the names of
    entries without the UTF-8 flag. *)
Definition namelist (entries : list (string * string)) : list string := map fst entries.

Fixpoint getinfo (entries : list (string * string)) (name : string) : option string :=
  match entries with
  | [] => None
  | (n, c) :: rest =>
      match getinfo rest name with
      | Some c' => Some c'
      | None => if String.eqb n name then Some c else None
      end
  end.

(** [zip_file.extract(name, path)]: the content goes to the member path
    below [path]; a directory entry writes no file, and an entry whose
    member path is empty cannot be opened for writing. *)
Definition extract (w : env) (entries : list (string * string)) (name path : string) : M unit :=
  match getinfo entries name with
  | None => raise KeyError
  | Some content =>
      sys w ZipExtract >>
      if OsPath.ends_with_slash name then ret tt
      else
        let arc := arcname name in
        if String.eqb arc "" then raise IOError
        else emit (Extract (OsPath.join path arc)) (insert (OsPath.join path arc) content)
  end.

End Zipfile.

(** ** [urllib2]: headers and the opener *)

Definition lower_ascii (c : ascii) : ascii :=
  let n := nat_of_ascii c in
  if (65 <=? n)%nat && (n <=? 90)%nat then ascii_of_nat (n + 32) else c.

Fixpoint lower (s : string) : string :=
  match s with
  | EmptyString => EmptyString
  | String c s' => String (lower_ascii c) (lower s')
  end.

(** [response.info()[name]]: header names compare without case; a
    missing header is a KeyError. *)
Fixpoint getitem (headers : list (string * string)) (name : string) : M string :=
  match headers with
  | [] => raise KeyError
  | (k, v) :: rest => if String.eqb (lower k) (lower name) then ret v else getitem rest name
  end.

(** The handler class local to [get_epa_updates]. *)
Module NotFoundHandler.

(** [http_error_304]: the 304 reply is returned as a response object
    instead of being raised. *)
Definition http_error_304 (fp : response) (code_ : Z) : response :=
  {| code := code_; info := info fp; reads := reads fp |}.

End NotFoundHandler.

(** [build_opener(NotFoundHandler).open(request)]: a transport failure is
    raised; a 2xx reply is returned; any other status goes to the error
    handlers, of which only [http_error_304] returns, the default one
    raising [HTTPError].  Redirections are taken as followed: [http] is
    the exchange that ends them. *)
Definition opener_open (w : env) (headers : list (string * string)) : M response :=
  emit (Request headers) id >>
  match http w headers with
  | inl e => raise e
  | inr resp =>
      if (200 <=? code resp) && (code resp <? 300) then ret resp
      else if code resp =? 304 then ret (NotFoundHandler.http_error_304 resp (code resp))
      else raise (HTTPError (code resp))
  end.

(** ** [libvin.epa] *)

Definition EPA_URL : string := "http://www.fueleconomy.gov/feg/epadata/vehicles.csv.zip".
Definition IF_NONE_MATCH : string := "If-None-Match".
Definition IF_MODIFIED_SINCE : string := "If-Modified-Since".
Definition LAST_MODIFIED : string := "Last-Modified".
Definition ETAG : string := "ETag".
Definition USER_AGENT : string :=
  "Mozilla/5.0 compatible urllib on behalf of python-libvin: https://github.com/h3/python-libvin".

(** The values [get_epa_updates] accepts for [last_modified]. *)
Inductive pyobj :=
| PyNone
| PyStr (s : string)
| PyInt (n : Z)
| PyFloat (x : PyTime.pyfloat)
| PyDatetime (d : PyTime.datetime)
| PyStructTime (t : PyTime.struct_time)
| PyOther.

Definition RFC1123 : string := "%a, %d %b %Y %H:%M:%S GMT".

Definition OverflowError : exn := OtherError "OverflowError".

(** [time.gmtime(secs)] on a number: [secs] is taken as a double, of
    which [whole] are the whole seconds ([None]: no double holds it),
    cast to [time_t] and handed to C [gmtime]. *)
Definition time_gmtime (time_t_max : Z) (whole : option Z) : outcome PyTime.struct_time :=
  match whole with
  | None => Raise OverflowError
  | Some secs =>
      match PyTime.double_to_time_t time_t_max secs with
      | None => Raise ValueError
      | Some t =>
          match PyTime.c_gmtime t with
          | None => Raise ValueError
          | Some st => Ret st
          end
      end
  end.

(** Lines 182-200 of [get_epa_updates]: the headers of the request. *)
Definition request_headers (time_t_max : Z) (etag : option string) (last_modified : pyobj)
  : outcome (list (string * string)) :=
  let h1 :=
    match etag with
    | Some e => if String.eqb e "" then [] else [(IF_NONE_MATCH, e)]
    | None => []
    end in
  let is_set :=
    match last_modified with
    | PyNone => false
    | PyStr s => negb (String.eqb s "")
    | _ => true
    end in
  let h2 :=
    if is_set then
      let last_modified :=
        match last_modified with
        | PyDatetime d => Ret (PyStructTime (PyTime.utctimetuple d))
        | PyInt n =>
            match time_gmtime time_t_max (PyTime.int_to_double n) with
            | Ret t => Ret (PyStructTime t)
            | Raise e => Raise e
            end
        | PyFloat x =>
            match time_gmtime time_t_max (Some (PyTime.float_to_time_t x)) with
            | Ret t => Ret (PyStructTime t)
            | Raise e => Raise e
            end
        | o => Ret o
        end in
      let last_modified :=
        match last_modified with
        | Ret (PyStructTime t) =>
            match PyTime.strftime RFC1123 t with
            | Some s => Ret (PyStr s)
            | None => Raise ValueError
            end
        | o => o
        end in
      match last_modified with
      | Ret (PyStr s) => Ret [(IF_MODIFIED_SINCE, s)]
      | Ret _ => Ret []
      | Raise e => Raise e
      end
    else Ret [] in
  match h2 with
  | Ret h2 => Ret (h1 ++ h2 ++ [("User-Agent", USER_AGENT)])
  | Raise e => Raise e
  end.

Definition get_epa_updates (w : env) (etag : option string) (last_modified : pyobj)
  : M response :=
  match request_headers (time_t_max w) etag last_modified with
  | Raise e => raise e
  | Ret headers =>
      logger INFO "Building opener for request %s with headers %s" >>
      opener_open w headers
  end.

Definition open_resource_stream (w : env) (x : string) : M string :=
  let path := "epa/vehicles." +:+ x in
  let* ex := os_path_exists (OsPath.join "libvin" "path") in
  (if ex then logger INFO "Opening %s resource %s"
   else logger WARN "Opening non-existant %s resource %s") >>
  open_ w (resource_filename w path).

Definition make_stream_opener (w : env) (target_dir : string) (x : string) : M string :=
  let path := OsPath.join target_dir ("vehicles." +:+ x) in
  let* ex := os_path_exists path in
  (if ex then logger INFO "Opening file resource %s"
   else logger WARN "Opening non-existant file resource %s") >>
  open_ w path.

(** Lines 113-116: the body is copied to the temporary file read by read. *)
Fixpoint copy_body (w : env) (reads : list (exn + string)) (n : nat) (file_path : string)
  : M unit :=
  match reads with
  | [] => ret tt
  | inl e :: _ => raise e
  | inr somebytes :: rest =>
      if (0 <? String.length somebytes)%nat then
        sys w (SysFdWrite n) >>
        emit (FdWrite file_path somebytes)
          (fun m => <[file_path := default "" (m !! file_path) +:+ somebytes]> m) >>
        copy_body w rest (S n) file_path
      else ret tt
  end.

(** Lines 121-124: the entry of the archive that is extracted;
    ['vehicles.csv'.__eq__] on byte strings is [String.eqb]. *)
Definition select_name (namelist : list string) : M string :=
  let namelist :=
    if negb (length namelist =? 1)%nat
    then List.filter (String.eqb "vehicles.csv") namelist
    else namelist in
  match namelist with
  | name :: _ => ret name
  | [] => raise IndexError
  end.

Definition default_target_dir : string := OsPath.join "libvin" "epa".

(** Lines 83-89: the stored opaque tag, [None] when it cannot be read. *)
Definition load_etag (stream_opener : string -> M string) : M (option string) :=
  try_except
    (logger INFO "Opening etag" >>
     let* f := stream_opener "etag" in
     let etag := read f 2048 in
     logger INFO "ETag: %s" >> ret (Some etag))
    is_IOError
    (fun e => logger WARN "Problem reading etag %s" >> ret None).

(** Lines 91-97: the stored last-modified string. *)
Definition load_last_modified (stream_opener : string -> M string) : M pyobj :=
  try_except
    (logger INFO "Opening last_modified" >>
     let* f := stream_opener "last_modified" in
     let last_modified := read f 2048 in
     logger INFO "Last-Modified: %s" >> ret (PyStr last_modified))
    is_IOError
    (fun e => logger WARN "Problem reading last_modified %s" >> ret PyNone).

(** Lines 120-125: the [with zipfile.ZipFile(file_path)] block. *)
Definition extract_entry (w : env) (file_path extracted_dir : string) : M string :=
  let* zip_file := Zipfile.ZipFile w file_path in
  let* name := select_name (Zipfile.namelist zip_file) in
  Zipfile.extract w zip_file name extracted_dir >> ret name.

(** Lines 130-137: the two sidecar files are written. *)
Definition save_tokens (w : env) (target_dir new_etag new_last_modified : string) : M unit :=
  let etag_path := OsPath.join target_dir "vehicles.etag" in
  open_w w etag_path >>
  write w etag_path new_etag >>
  logger INFO "Successfully wrote out etag %s to %s" >>
  let last_modified_path := OsPath.join target_dir "vehicles.last_modified" in
  open_w w last_modified_path >>
  write w last_modified_path new_last_modified >>
  logger INFO "Successfullly wrote out last_modified %s to %s".

(** Lines 120-137: extract the selected entry, rename it over the
    dataset, then write the sidecar files. *)
Definition install (w : env) (target_dir extracted_dir file_path : string)
    (new_etag new_last_modified : string) : M unit :=
  let* name := extract_entry w file_path extracted_dir in
  let extracted_path := OsPath.join extracted_dir name in
  let target_path := OsPath.join target_dir "vehicles.csv" in
  os_rename w extracted_path target_path >>
  save_tokens w target_dir new_etag new_last_modified.

(** Lines 139-144: the inner [finally]. *)
Definition erase_extracted_dir (w : env) (extracted_dir : string) : M unit :=
  try_except
    (rmtree w extracted_dir >> logger INFO "Erased %s")
    is_OSError
    (fun _ => logger ERROR "Error erasing %s").

(** Lines 147-149: the outer [finally]. *)
Definition cleanup_stray_file (w : env) (file_path : string) : M unit :=
  let* ex := os_path_exists file_path in
  if ex then os_unlink w file_path >> logger WARN "Cleaned up stray file at %s"
  else ret tt.

(** Lines 101-150: the branch taken when the status is not 304. *)
Definition fetch_new_data (w : env) (target_dir : string) (response : response) : M bool :=
  logger INFO "Response code says we have new data" >>
  let* new_etag := getitem (info response) "ETag" in
  let* new_last_modified := getitem (info response) LAST_MODIFIED in
  let* file_path := Tempfile.mkstemp w in
  try_finally
    (try_finally (copy_body w (reads response) 0 file_path) (sys w SysFdClose) >>
     let extracted_dir := OsPath.join target_dir "tmp" in
     try_finally
       (install w target_dir extracted_dir file_path new_etag new_last_modified)
       (erase_extracted_dir w extracted_dir))
    (cleanup_stray_file w file_path) >>
  ret true.

Definition ensure_latest (w : env) (target_dir : option string) : M bool :=
  let '(target_dir, stream_opener) :=
    match target_dir with
    | None => (default_target_dir, open_resource_stream w)
    | Some d => (d, make_stream_opener w d)
    end in
  let* etag := load_etag stream_opener in
  let* last_modified := load_last_modified stream_opener in
  let* response := get_epa_updates w etag last_modified in
  if negb (code response =? 304) then fetch_new_data w target_dir response
  else
    logger INFO "get_epa_updates(etag=%s, last_modified=%s) got some new data" >>
    ret false.

Local Close Scope Z_scope.

(** * Vocabulary of the statements *)

(** ** Calendar dates and instants *)

Module Instant.
Import Calendar PyTime.
Local Open Scope Z_scope.

(** Days in a month and before a month, by leap flag. *)
Definition dim_l (leap : bool) (month : Z) : Z :=
  if (month =? 2) && leap then 29
  else nth (Z.to_nat month) [0; 31; 28; 31; 30; 31; 30; 31; 31; 30; 31; 30; 31] 0.

Definition dbm_l (leap : bool) (month : Z) : Z :=
  nth (Z.to_nat month) [0; 0; 31; 59; 90; 120; 151; 181; 212; 243; 273; 304; 334] 0
  + (if (2 <? month) && leap then 1 else 0).

(** The month and day [ord_to_ymd] finds for the day [n] of a year. *)
Definition month_day_of (leapyear : bool) (n : Z) : Z * Z :=
  let month := Z.shiftr (n + 50) 5 in
  let preceding := dbm_l leapyear month in
  if n <? preceding then
    let month := month - 1 in
    let preceding := preceding - dim_l leapyear month in
    (month, n - preceding + 1)
  else (month, n - preceding + 1).

(** [month_day_of] inverts the day count on every date of a year. *)
Definition md_table_ok (leap : bool) : bool :=
  forallb (fun m => forallb (fun d =>
     if d <=? dim_l leap m then
       let r := month_day_of leap (dbm_l leap m + d - 1) in
       (fst r =? m) && (snd r =? d) && (dbm_l leap m + d - 1 <=? (if leap then 365 else 364))
     else true) (seqZ 1 31)) (seqZ 1 12).

(** [y - 1] split into 400-, 100-, 4- and 1-year cycles. *)
Record year_parts (y a b c e : Z) : Prop := {
  yp_eq : y - 1 = 400 * a + 100 * b + 4 * c + e;
  yp_b : 0 <= b <= 3;
  yp_c : 0 <= c <= 24;
  yp_e : 0 <= e <= 3 }.

Definition valid_date (y m d : Z) : Prop :=
  1 <= m <= 12 /\ 1 <= d <= days_in_month y m.

(** A well-formed [datetime]: fields in range, and a UTC offset of less
    than a day, as [tzinfo.utcoffset] must return. *)
Definition valid_datetime (dt : datetime) : Prop :=
  valid_date (year dt) (month dt) (day dt)
  /\ 0 <= hour dt < 24 /\ 0 <= minute dt < 60 /\ 0 <= second dt < 60
  /\ match tzinfo dt with Some o => -1440 < o < 1440 | None => True end.

Definition utcoffset (dt : datetime) : Z :=
  match tzinfo dt with Some o => o | None => 0 end.

(** The instant a calendar time denotes, in whole seconds since the
    epoch; a naive value is read as UTC. *)
Definition instant (dt : datetime) : Z :=
  (ymd_to_ord (year dt) (month dt) (day dt) - EPOCH_ORD) * 86400
  + hour dt * 3600 + minute dt * 60 + second dt - 60 * utcoffset dt.

End Instant.

(** The [If-None-Match] part of the request. *)
Definition if_none_match (etag : option string) : list (string * string) :=
  match etag with
  | Some e => if String.eqb e "" then [] else [(IF_NONE_MATCH, e)]
  | None => []
  end.

(** The layout [Day, DD Mon YYYY HH:MM:SS GMT]. *)
Definition rfc1123_layout (day dd mon yyyy hh mm ss : string) : string :=
  day +:+ ", " +:+ dd +:+ " " +:+ mon +:+ " " +:+ yyyy +:+ " "
  +:+ hh +:+ ":" +:+ mm +:+ ":" +:+ ss +:+ " GMT".

(** ** Assertions on the file system and the trace *)

(** [maps P Q m]: started where [P] holds of the file system and the
    trace, [m] ends, whatever its outcome, where [Q] holds. *)
Definition maps {A} (P Q : gmap string string -> list event -> Prop) (m : M A) : Prop :=
  forall s, P (fs s) (trace s) -> Q (fs (m s).2) (trace (m s).2).

Abbreviation preserves J := (maps J J).

(** The same with a postcondition that sees the outcome. *)
Definition triple {A} (P : gmap string string -> list event -> Prop) (m : M A)
    (R : outcome A -> gmap string string -> list event -> Prop) : Prop :=
  forall s, P (fs s) (trace s) -> R (m s).1 (fs (m s).2) (trace (m s).2).

(** ** One call of [ensure_latest] *)

(** The state a call starts from: the files [m0], nothing done yet. *)
Definition start (m0 : gmap string string) : state := {| fs := m0; trace := []; log := [] |}.

Definition with_log (s : state) (l : list (level * string)) : state :=
  {| fs := fs s; trace := trace s; log := log s ++ l |}.

Definition target_dir_of (target_dir : option string) : string :=
  match target_dir with Some d => d | None => default_target_dir end.

Definition target_path (td : option string) : string :=
  OsPath.join (target_dir_of td) "vehicles.csv".
Definition etag_path (td : option string) : string :=
  OsPath.join (target_dir_of td) "vehicles.etag".
Definition last_modified_path (td : option string) : string :=
  OsPath.join (target_dir_of td) "vehicles.last_modified".

(** The three file names [ensure_latest] keeps in the target directory. *)
Definition kept_name (x : string) : Prop :=
  x = "vehicles.csv" \/ x = "vehicles.etag" \/ x = "vehicles.last_modified".

(** The temporary file of [mkstemp] in the environment [w]. *)
Definition temp_path (w : env) : string :=
  OsPath.join (gettempdir w) ("tmp" +:+ Tempfile.random_name (rng w)).

(** Where [ensure_latest] looks for a stored token. *)
Definition stored_path (w : env) (target_dir : option string) (x : string) : string :=
  match target_dir with
  | Some d => OsPath.join d ("vehicles." +:+ x)
  | None => resource_filename w ("epa/vehicles." +:+ x)
  end.

Definition stream_opener_of (w : env) (target_dir : option string) : string -> M string :=
  match target_dir with
  | Some d => make_stream_opener w d
  | None => open_resource_stream w
  end.

(** The outcome of reading one stored token. *)
Definition stored (w : env) (m : gmap string string) (path : string) : outcome (option string) :=
  match fails w (SysOpen path) with
  | Some e => if is_IOError e then Ret None else Raise e
  | None =>
      match m !! path with
      | Some c => Ret (Some (read c 2048))
      | None => Ret None
      end
  end.

Definition lm_obj (o : option string) : pyobj :=
  match o with Some s => PyStr s | None => PyNone end.

(** The headers sent for stored tokens: an empty or missing token sends
    no precondition. *)
Definition token_headers (etag last_modified : option string) : list (string * string) :=
  match etag with
  | Some e => if String.eqb e "" then [] else [(IF_NONE_MATCH, e)]
  | None => []
  end ++
  match last_modified with
  | Some s => if String.eqb s "" then [] else [(IF_MODIFIED_SINCE, s)]
  | None => []
  end ++ [("User-Agent", USER_AGENT)].

(** What the opener makes of the reply to the request [headers]. *)
Definition reply (w : env) (headers : list (string * string)) : outcome response :=
  match http w headers with
  | inl e => Raise e
  | inr resp =>
      if (200 <=? code resp)%Z && (code resp <? 300)%Z then Ret resp
      else if (code resp =? 304)%Z then Ret (NotFoundHandler.http_error_304 resp (code resp))
      else Raise (HTTPError (code resp))
  end.

Definition requested (s : state) (headers : list (string * string))
    (l : list (level * string)) : state :=
  {| fs := fs s; trace := trace s ++ [Request headers]; log := log s ++ l |}.

Definition NOT_MODIFIED_MSG : string :=
  "get_epa_updates(etag=%s, last_modified=%s) got some new data".

(** The extracted file has been renamed over the dataset. *)
Definition is_install (tdir : string) (e : event) : bool :=
  match e with
  | Rename _ dst => String.eqb dst (OsPath.join tdir "vehicles.csv")
  | _ => false
  end.

Definition installed (tdir : string) (tr : list event) : bool := existsb (is_install tdir) tr.

Definition is_request (e : event) : bool :=
  match e with Request _ => true | _ => false end.

(** The outcome of lines 130-137: the first failure among the four
    writes, if any. *)
Definition token_outcome (w : env) (tdir : string) : outcome unit :=
  match fails w (SysOpenW (OsPath.join tdir "vehicles.etag")) with
  | Some e => Raise e
  | None =>
  match fails w (SysWrite (OsPath.join tdir "vehicles.etag")) with
  | Some e => Raise e
  | None =>
  match fails w (SysOpenW (OsPath.join tdir "vehicles.last_modified")) with
  | Some e => Raise e
  | None =>
  match fails w (SysWrite (OsPath.join tdir "vehicles.last_modified")) with
  | Some e => Raise e
  | None => Ret tt
  end end end end.

Definition fetch_goal (w : env) (tdir : string) : outcome bool :=
  match token_outcome w tdir with Ret _ => Ret true | Raise e => Raise e end.

(** Before the rename nothing is promised; after it the outcome is [goal]. *)
Definition settled (tdir : string) {A} (goal : outcome A) (r : outcome A)
    (m : gmap string string) (tr : list event) : Prop :=
  installed tdir tr = true -> r = goal.

Definition pending (tdir : string) (m : gmap string string) (tr : list event) : Prop :=
  installed tdir tr = false.





(** Nothing is left below the staging directory, nor the temporary file. *)
Definition no_residue (w : env) (tdir : string)
    (m : gmap string string) (tr : list event) : Prop :=
  (forall p, OsPath.is_under (OsPath.join tdir "tmp") p = true -> m !! p = None)
  /\ m !! temp_path w = None.

(** Nothing below the staging directory but, possibly, the temporary file. *)
Definition staged_only_temp (w : env) (tdir : string)
    (m : gmap string string) (tr : list event) : Prop :=
  forall p, OsPath.is_under (OsPath.join tdir "tmp") p = true -> p <> temp_path w ->
    m !! p = None.

(** No entry of the archive has been extracted. *)
Definition nothing_extracted (tr : list event) : Prop := forall p, ~ In (Extract p) tr.

(** ** Scenarios *)

Module Scenario.

Definition EPOCH : string := "Thu, 01 Jan 1970 00:00:00 GMT".

(** A target directory holding a dataset and its opaque tag. *)
Definition files : gmap string string :=
  <["/data/vehicles.csv" := "old"]> (<["/data/vehicles.etag" := "abc"]> ∅).

Definition answer (status : Z) : response :=
  {| code := status;
     info := [("ETag", "xyz"); ("Last-Modified", EPOCH)];
     reads := [inr "archive"] |}.

(** The largest [time_t] of a platform where it has 64 bits. *)
Definition TIME_T_MAX : Z := (2 ^ 63 - 1)%Z.

(** A server answering [status] with an archive of the given entries. *)
Definition world (failing : op -> option exn) (status : Z)
    (entries : option (list (string * string))) (draw : nat -> nat) : env :=
  {| fails := failing;
     resource_filename := fun p => "/pkg/libvin/" +:+ p;
     http := fun _ => inr (answer status);
     gettempdir := "/tmp";
     rng := draw;
     unzip := fun _ => entries;
     time_t_max := TIME_T_MAX |}.

Definition no_failure (o : op) : option exn := None.

Definition one_entry : option (list (string * string)) := Some [("anything.csv", "new")].

Definition modified : env := world no_failure 200 one_entry id.
Definition not_modified : env := world no_failure 304 one_entry id.
Definition partial_content : env := world no_failure 206 one_entry id.
Definition not_found : env := world no_failure 404 one_entry id.
Definition not_a_zip : env := world no_failure 200 None id.

(** The same directory with a stored opaque tag of 3000 characters. *)
Definition long_etag : string := string_of_list_ascii (repeat "a"%char 3000).
Definition files_long_etag : gmap string string :=
  <["/data/vehicles.etag" := long_etag]> files.

Definition etag_unwritable : env :=
  world (fun o => match o with SysOpenW _ => Some IOError | _ => None end) 200 one_entry id.
Definition rmtree_fails : env :=
  world (fun o => match o with SysRmtree => Some OSError | _ => None end) 200 one_entry id.
Definition unlink_fails : env :=
  world (fun o => match o with SysUnlink => Some OSError | _ => None end) 200 one_entry id.

(** 1969-12-31 16:00:00 at UTC-8, and 1970-01-01 00:00:00 naive. *)
Definition epoch_pacific : PyTime.datetime :=
  {| PyTime.year := 1969; PyTime.month := 12; PyTime.day := 31;
     PyTime.hour := 16; PyTime.minute := 0; PyTime.second := 0;
     PyTime.microsecond := 0; PyTime.tzinfo := Some (-480)%Z |}.

Definition epoch_naive : PyTime.datetime :=
  {| PyTime.year := 1970; PyTime.month := 1; PyTime.day := 1;
     PyTime.hour := 0; PyTime.minute := 0; PyTime.second := 0;
     PyTime.microsecond := 0; PyTime.tzinfo := None |}.

(** 1899-12-31 23:59:59 naive, the last second before 1900. *)
Definition last_of_1899 : PyTime.datetime :=
  {| PyTime.year := 1899; PyTime.month := 12; PyTime.day := 31;
     PyTime.hour := 23; PyTime.minute := 59; PyTime.second := 59;
     PyTime.microsecond := 0; PyTime.tzinfo := None |}.

Definition LAST_OF_1899 : string := "Sun, 31 Dec 1899 23:59:59 GMT".

(** 2038-01-19 03:14:08 naive, the first second that a [time_t] of 32
    bits does not hold. *)
Definition past_int32 : PyTime.datetime :=
  {| PyTime.year := 2038; PyTime.month := 1; PyTime.day := 19;
     PyTime.hour := 3; PyTime.minute := 14; PyTime.second := 8;
     PyTime.microsecond := 0; PyTime.tzinfo := None |}.

Definition PAST_INT32 : string := "Tue, 19 Jan 2038 03:14:08 GMT".

End Scenario.

(** ** Runs on a known file system *)

(** [runs_to m F r F']: started on the files [F], [m] ends with the
    outcome [r] on the files [F']. *)
Definition runs_to {A} (m : M A) (F : gmap string string) (r : outcome A)
    (F' : gmap string string) : Prop :=
  forall s, fs s = F -> (m s).1 = r /\ fs (m s).2 = F'.

(** The value [response.info()[name]] finds, if any. *)
Fixpoint lookup_header (headers : list (string * string)) (name : string) : option string :=
  match headers with
  | [] => None
  | (k, v) :: rest =>
      if String.eqb (lower k) (lower name) then Some v else lookup_header rest name
  end.

(** What the loop of lines 113-116 has written when it ends: the chunks
    read before the first empty one. *)
Fixpoint received (reads : list (exn + string)) : outcome string :=
  match reads with
  | [] => Ret ""
  | inl e :: _ => Raise e
  | inr somebytes :: rest =>
      if (0 <? String.length somebytes)%nat then
        match received rest with
        | Ret more => Ret (somebytes +:+ more)
        | Raise e => Raise e
        end
      else Ret ""
  end.

(** The name lines 121-124 select, if any. *)
Definition selected (namelist : list string) : option string :=
  head (if negb (length namelist =? 1)%nat
        then List.filter (String.eqb "vehicles.csv") namelist
        else namelist).

(** No call fails for an outside reason. *)
Definition no_failures (w : env) : Prop := forall o, fails w o = None.

(** The environment [w] with an [rmtree] that does not fail. *)
Definition rmtree_succeeds (w : env) : env :=
  {| fails := fun o => match o with SysRmtree => None | _ => fails w o end;
     resource_filename := resource_filename w;
     http := http w;
     gettempdir := gettempdir w;
     rng := rng w;
     unzip := unzip w;
     time_t_max := time_t_max w |}.

(** The body of every reply can be read to its end and written to the
    temporary file. *)
Definition download_succeeds (w : env) : Prop :=
  (forall n, fails w (SysFdWrite n) = None)
  /\ fails w SysFdClose = None
  /\ forall headers resp, http w headers = inr resp ->
       exists body, received (reads resp) = Ret body.


(** The files after a successful update that renamed [src], holding
    [content], over the dataset and stored the tokens [new_etag] and
    [new_last_modified]. *)
Definition updated (w : env) (tdir src content new_etag new_last_modified : string)
    (m0 : gmap string string) (p : string) : option string :=
  if decide (p = temp_path w) then None
  else if OsPath.is_under (OsPath.join tdir "tmp") p then None
  else if decide (p = OsPath.join tdir "vehicles.last_modified") then Some new_last_modified
  else if decide (p = OsPath.join tdir "vehicles.etag") then Some new_etag
  else if decide (p = OsPath.join tdir "vehicles.csv") then Some content
  else if decide (p = src) then None
  else m0 !! p.

(** ** Further scenarios *)

Module Cases.

(** An archive whose only entry has an absolute name, and a file there. *)
Definition absolute_entry : env :=
  Scenario.world Scenario.no_failure 200 (Some [("/etc/motd", "entry")]) id.

Definition files_with_motd : gmap string string :=
  <["/etc/motd" := "outside"]> Scenario.files.

(** The download is not a zip file, and [rmtree] finds no staging
    directory to remove. *)
Definition not_a_zip_no_staging : env :=
  Scenario.world (fun o => match o with SysRmtree => Some OSError | _ => None end)
    200 None id.

(** A server that sends no [ETag] header. *)
Definition no_etag : env :=
  {| fails := Scenario.no_failure;
     resource_filename := fun p => "/pkg/libvin/" +:+ p;
     http := fun _ => inr {| code := 200;
                             info := [("Last-Modified", Scenario.EPOCH)];
                             reads := [inr "archive"] |};
     gettempdir := "/tmp";
     rng := id;
     unzip := fun _ => Scenario.one_entry;
     time_t_max := Scenario.TIME_T_MAX |}.

End Cases.

(** ** [epa_mmy_lookup] and the table of the module *)

Module Lookup.

Definition StopIteration : exn := OtherError "StopIteration".
Definition TypeError : exn := OtherError "TypeError".
Definition AttributeError : exn := OtherError "AttributeError".

(** [str.isdigit] and [str.isalnum] on one character, in the C locale. *)
Definition isdigit (c : ascii) : bool :=
  let n := nat_of_ascii c in (48 <=? n)%nat && (n <=? 57)%nat.

Definition isalnum (c : ascii) : bool :=
  let n := nat_of_ascii c in
  ((65 <=? n)%nat && (n <=? 90)%nat) || ((97 <=? n)%nat && (n <=? 122)%nat) || isdigit c.

(** [keyword.kwlist] of Python 2.7. *)
Definition kwlist : list string :=
  ["and"; "as"; "assert"; "break"; "class"; "continue"; "def"; "del"; "elif"; "else";
   "except"; "exec"; "finally"; "for"; "from"; "global"; "if"; "import"; "in"; "is";
   "lambda"; "not"; "or"; "pass"; "print"; "raise"; "return"; "try"; "while"; "with";
   "yield"].

Definition iskeyword (name : string) : bool := existsb (String.eqb name) kwlist.

(** The first loop of [namedtuple]: a name is made of alphanumeric
    characters and underscores, is no keyword and does not start with a
    digit; [name[0]] of an empty name is an IndexError. *)
Definition check_name (name : string) : outcome unit :=
  if negb (forallb (fun c => isalnum c || Ascii.eqb c "_") (list_ascii_of_string name))
  then Raise ValueError
  else if iskeyword name then Raise ValueError
  else match name with
       | EmptyString => Raise IndexError
       | String c _ => if isdigit c then Raise ValueError else Ret tt
       end.

Fixpoint check_names (names : list string) : outcome unit :=
  match names with
  | [] => Ret tt
  | name :: rest =>
      match check_name name with
      | Ret _ => check_names rest
      | Raise e => Raise e
      end
  end.

(** The second loop: no field starts with an underscore or comes twice. *)
Fixpoint check_fields (seen names : list string) : outcome unit :=
  match names with
  | [] => Ret tt
  | name :: rest =>
      if match name with String c _ => Ascii.eqb c "_" | EmptyString => false end
      then Raise ValueError
      else if existsb (String.eqb name) seen then Raise ValueError
      else check_fields (name :: seen) rest
  end.

(** [namedtuple(typename, field_names)] for a list of [str] names: the
    checks on the names; the class itself is the list of its fields.
    Limits of the interpreter on the number of fields are not modelled. *)
Definition namedtuple (typename : string) (field_names : list string) : outcome (list string) :=
  match check_names (typename :: field_names) with
  | Raise e => Raise e
  | Ret _ =>
      match check_fields [] field_names with
      | Raise e => Raise e
      | Ret _ => Ret field_names
      end
  end.

(** An instance of the [Row] class: its fields with their values. *)
Definition Row : Type := list (string * string).

(** [Row] called on the values of a line: as many values as fields, or
    a TypeError. *)
Definition new_row (field_names line : list string) : outcome Row :=
  if (length line =? length field_names)%nat then Ret (combine field_names line)
  else Raise TypeError.

(** [row.name]. *)
Fixpoint getattr (row : Row) (name : string) : outcome string :=
  match row with
  | [] => Raise AttributeError
  | (k, v) :: rest => if String.eqb k name then Ret v else getattr rest name
  end.

(** [str(n)] for an [int]. *)
Definition str_int (n : Z) : string :=
  if (n <? 0)%Z then "-" +:+ PyTime.decimal (- n) else PyTime.decimal n.

(** The [year] argument: an [int] or a [str]. *)
Inductive year_arg :=
| YearInt (n : Z)
| YearStr (s : string).

Definition str (year : year_arg) : string :=
  match year with YearInt n => str_int n | YearStr s => s end.

(** The globals [epa_loaded] and [epa_table], and what was printed. *)
Record globals := {
  epa_loaded : bool;
  epa_table : gmap string Row;
  stdout : list string }.

(** Lines 41-44: one line of the file. *)
Definition load_line (field_names line : list string) (g : globals) : outcome unit * globals :=
  match new_row field_names line with
  | Raise e => (Raise e, g)
  | Ret row =>
      match getattr row "make", getattr row "model", getattr row "year" with
      | Ret make, Ret model, Ret year =>
          let mmy := make +:+ "_" +:+ model +:+ "_" +:+ year in
          match getattr row "UCity", getattr row "UHighway", getattr row "co2TailpipeGpm" with
          | Ret UCity, Ret UHighway, Ret co2TailpipeGpm =>
              (Ret tt,
               {| epa_loaded := epa_loaded g;
                  epa_table := <[mmy := row]> (epa_table g);
                  stdout := stdout g ++ [mmy +:+ ": city " +:+ UCity +:+ ", hwy " +:+ UHighway
                                         +:+ ", co2/mi " +:+ co2TailpipeGpm] |})
          | _, _, _ => (Raise AttributeError, g)
          end
      | _, _, _ => (Raise AttributeError, g)
      end
  end.

(** Lines 40-44: the loop over the reader; [inl e] is an error of the
    reader on that line. *)
Fixpoint load_lines (field_names : list string) (lines : list (exn + list string))
    (g : globals) : outcome unit * globals :=
  match lines with
  | [] => (Ret tt, g)
  | inl e :: _ => (Raise e, g)
  | inr line :: rest =>
      match load_line field_names line g with
      | (Ret _, g') => load_lines field_names rest g'
      | (Raise e, g') => (Raise e, g')
      end
  end.

(** Lines 35-45: the table is loaded on the first call. [csv_reader]
    gives the lines [csv.reader] yields for the content of the file. *)
Definition load_table (w : env) (csv_reader : string -> list (exn + list string))
    (files : gmap string string) (g : globals) : outcome unit * globals :=
  let path := resource_filename w "epa/vehicles.csv" in
  match fails w (SysOpen path) with
  | Some e => (Raise e, g)
  | None =>
      match files !! path with
      | None => (Raise IOError, g)
      | Some f =>
          match csv_reader f with
          | [] => (Raise StopIteration, g)
          | inl e :: _ => (Raise e, g)
          | inr headers :: lines =>
              match namedtuple "Row" headers with
              | Raise e => (Raise e, g)
              | Ret field_names =>
                  match load_lines field_names lines g with
                  | (Ret _, g') =>
                      (Ret tt, {| epa_loaded := true; epa_table := epa_table g';
                                  stdout := stdout g' |})
                  | (Raise e, g') => (Raise e, g')
                  end
              end
          end
      end
  end.

Definition epa_mmy_lookup (w : env) (csv_reader : string -> list (exn + list string))
    (files : gmap string string) (make model : string) (year : year_arg) (g : globals)
  : outcome Row * globals :=
  let '(r, g) := if epa_loaded g then (Ret tt, g) else load_table w csv_reader files g in
  match r with
  | Raise e => (Raise e, g)
  | Ret _ =>
      match epa_table g !! (make +:+ "_" +:+ model +:+ "_" +:+ str year) with
      | Some row => (Ret row, g)
      | None => (Raise KeyError, g)
      end
  end.

(** The module as imported: nothing loaded. *)
Definition fresh : globals := {| epa_loaded := false; epa_table := ∅; stdout := [] |}.

(** The key of a line of the file, when the line can be loaded. *)
Definition line_key (field_names line : list string) : option string :=
  match new_row field_names line with
  | Ret row =>
      match getattr row "make", getattr row "model", getattr row "year",
            getattr row "UCity", getattr row "UHighway", getattr row "co2TailpipeGpm" with
      | Ret make, Ret model, Ret year, Ret _, Ret _, Ret _ =>
          Some (make +:+ "_" +:+ model +:+ "_" +:+ year)
      | _, _, _, _, _, _ => None
      end
  | Raise _ => None
  end.

(** The row of the last of [lines] with the key [k], [acc] if there is none. *)
Fixpoint last_with_key (field_names : list string) (k : string) (lines : list (list string))
    (acc : option Row) : option Row :=
  match lines with
  | [] => acc
  | line :: rest =>
      last_with_key field_names k rest
        (if decide (line_key field_names line = Some k)
         then Some (combine field_names line) else acc)
  end.

End Lookup.

(** A table of two lines for the same car, and one with a blank line. *)
Module Table.

Definition headers : list string :=
  ["make"; "model"; "year"; "UCity"; "UHighway"; "co2TailpipeGpm"].

Definition civic_a : list string := ["Honda"; "Civic"; "2016"; "40"; "50"; "200"].
Definition civic_b : list string := ["Honda"; "Civic"; "2016"; "41"; "51"; "201"].

Definition files : gmap string string := {[ "/pkg/libvin/epa/vehicles.csv" := "table" ]}.

Definition reader (f : string) : list (exn + list string) :=
  [inr headers; inr civic_a; inr civic_b].

Definition reader_blank (f : string) : list (exn + list string) :=
  [inr headers; inr civic_a; inr []; inr civic_b].

Definition reader_repeated (f : string) : list (exn + list string) :=
  [inr ("make" :: headers); inr ("Honda" :: civic_a)].

End Table.

(** * Facts *)

Example ord_epoch : Calendar.ymd_to_ord 1970 1 1 = Calendar.EPOCH_ORD.
Proof. reflexivity. Qed.

Example ymd_epoch : Calendar.ord_to_ymd Calendar.EPOCH_ORD = (1970, 1, 1)%Z.
Proof. reflexivity. Qed.

Example ymd_leapday :
  Calendar.ord_to_ymd (Calendar.ymd_to_ord 2016 2 29) = (2016, 2, 29)%Z.
Proof. reflexivity. Qed.

Example ymd_dec31 :
  Calendar.ord_to_ymd (Calendar.ymd_to_ord 2000 12 31) = (2000, 12, 31)%Z.
Proof. reflexivity. Qed.

Example strftime_epoch :
  PyTime.strftime RFC1123 (PyTime.gmtime 0) = Some Scenario.EPOCH.
Proof. reflexivity. Qed.

Example strftime_2016 :
  PyTime.strftime RFC1123 (PyTime.gmtime 1456790399)
  = Some "Mon, 29 Feb 2016 23:59:59 GMT".
Proof. reflexivity. Qed.

Example strftime_1899 :
  PyTime.strftime RFC1123 (PyTime.gmtime (-2208988801)) = None.
Proof. reflexivity. Qed.

Example utctimetuple_aware :
  PyTime.utctimetuple Scenario.epoch_pacific = PyTime.gmtime 0.
Proof. reflexivity. Qed.

(** ** The calendar: [utctimetuple] and [gmtime] agree *)

Module CalendarFacts.
Import Calendar PyTime Instant.
Local Open Scope Z_scope.

Ltac zlia := Z.div_mod_to_equations; lia.

Lemma md_table_ok_true leap : md_table_ok leap = true.
Proof. destruct leap; vm_compute; reflexivity. Qed.

Lemma dim_l_le31 leap m : dim_l leap m <= 31.
Proof.
  unfold dim_l. destruct ((m =? 2) && leap); [lia|].
  destruct (Z.to_nat m) as [|[|[|[|[|[|[|[|[|[|[|[|[|[|k]]]]]]]]]]]]]]; simpl; lia.
Qed.

Lemma month_day_of_spec leap m d :
  1 <= m <= 12 -> 1 <= d <= dim_l leap m ->
  month_day_of leap (dbm_l leap m + d - 1) = (m, d)
  /\ 0 <= dbm_l leap m + d - 1 <= (if leap then 365 else 364).
Proof.
  intros Hm Hd.
  pose proof (md_table_ok_true leap) as H. unfold md_table_ok in H.
  rewrite forallb_forall in H.
  assert (Hin : In m (seqZ 1 12)) by (apply list_elem_of_In, elem_of_seqZ; lia).
  specialize (H m Hin). rewrite forallb_forall in H.
  pose proof (dim_l_le31 leap m).
  assert (Hin' : In d (seqZ 1 31)) by (apply list_elem_of_In, elem_of_seqZ; lia).
  specialize (H d Hin').
  destruct (Z.leb_spec d (dim_l leap m)); [|lia].
  apply andb_prop in H as [H Hc]. apply andb_prop in H as [Ha Hb].
  apply Z.eqb_eq in Ha, Hb. apply Z.leb_le in Hc.
  split.
  - destruct (month_day_of leap _); simpl in *; congruence.
  - split; [|lia].
    assert (0 <= dbm_l leap m); [|lia].
    unfold dbm_l.
    assert (0 <= nth (Z.to_nat m) [0; 0; 31; 59; 90; 120; 151; 181; 212; 243; 273; 304; 334] 0).
    { destruct (Z.to_nat m) as [|[|[|[|[|[|[|[|[|[|[|[|[|[|k]]]]]]]]]]]]]]; simpl; lia. }
    destruct ((2 <? m) && leap); lia.
Qed.

Lemma divmod_eq d q r n : n = d * q + r -> 0 <= r < d -> n / d = q /\ n mod d = r.
Proof.
  intros Hn Hr. split.
  - symmetry. apply (Z.div_unique_pos n d q r); lia.
  - symmetry. apply (Z.mod_unique_pos n d q r); lia.
Qed.

Lemma year_parts_exist y : exists a b c e, year_parts y a b c e.
Proof.
  exists ((y - 1) / 400), ((y - 1) mod 400 / 100), (((y - 1) mod 400) mod 100 / 4),
    (((y - 1) mod 400) mod 100 mod 4).
  split; zlia.
Qed.

Lemma is_leap_parts y a b c e :
  year_parts y a b c e -> is_leap y = (e =? 3) && (negb (c =? 24) || (b =? 3)).
Proof.
  intros [H Hb Hc He]. unfold is_leap.
  assert (H4 : y mod 4 = 0 <-> e = 3) by zlia.
  assert (H100 : y mod 100 = 0 <-> (e = 3 /\ c = 24)) by zlia.
  assert (H400 : y mod 400 = 0 <-> (e = 3 /\ c = 24 /\ b = 3)) by zlia.
  destruct (Z.eqb_spec (y mod 4) 0), (Z.eqb_spec (y mod 100) 0), (Z.eqb_spec (y mod 400) 0),
    (Z.eqb_spec e 3), (Z.eqb_spec c 24), (Z.eqb_spec b 3);
    simpl; try reflexivity; exfalso; tauto.
Qed.

Lemma days_before_year_parts y a b c e :
  year_parts y a b c e ->
  days_before_year y = 146097 * a + 36524 * b + 1461 * c + 365 * e.
Proof.
  intros [H Hb Hc He]. unfold days_before_year. cbv zeta.
  assert (H4 : (y - 1) / 4 = 100 * a + 25 * b + c) by zlia.
  assert (H100 : (y - 1) / 100 = 4 * a + b) by zlia.
  assert (H400 : (y - 1) / 400 = a) by zlia.
  rewrite H4, H100, H400. lia.
Qed.

Lemma ord_to_ymd_parts a b c e doy :
  0 <= b <= 3 -> 0 <= c <= 24 -> 0 <= e <= 3 -> 0 <= doy <= 364 ->
  ord_to_ymd (146097 * a + 36524 * b + 1461 * c + 365 * e + doy + 1) =
    (400 * a + 100 * b + 4 * c + e + 1,
     fst (month_day_of ((e =? 3) && (negb (c =? 24) || (b =? 3))) doy),
     snd (month_day_of ((e =? 3) && (negb (c =? 24) || (b =? 3))) doy)).
Proof.
  intros Hb Hc He Hd. unfold ord_to_ymd, DI400Y, DI100Y, DI4Y. cbv zeta.
  replace (146097 * a + 36524 * b + 1461 * c + 365 * e + doy + 1 - 1)
    with (146097 * a + (36524 * b + 1461 * c + 365 * e + doy)) by lia.
  destruct (divmod_eq 146097 a (36524 * b + 1461 * c + 365 * e + doy)
              (146097 * a + (36524 * b + 1461 * c + 365 * e + doy))) as [-> ->]; [lia | lia |].
  destruct (divmod_eq 36524 b (1461 * c + 365 * e + doy)
              (36524 * b + 1461 * c + 365 * e + doy)) as [-> ->]; [lia | lia |].
  destruct (divmod_eq 1461 c (365 * e + doy) (1461 * c + 365 * e + doy)) as [-> ->]; [lia | lia |].
  destruct (divmod_eq 365 e doy (365 * e + doy)) as [-> ->]; [lia | lia |].
  replace (e =? 4) with false by (symmetry; apply Z.eqb_neq; lia).
  replace (b =? 4) with false by (symmetry; apply Z.eqb_neq; lia).
  simpl orb. cbv iota.
  unfold month_day_of, dbm_l, dim_l. cbv zeta.
  match goal with |- context [if ?c then (_, _, _) else _] => destruct c end;
    simpl fst; simpl snd; f_equal; f_equal; lia.
Qed.

Lemma ord_to_ymd_leap_end a b c :
  0 <= b <= 3 -> 0 <= c <= 24 -> (c <> 24 \/ b = 3) ->
  ord_to_ymd (146097 * a + 36524 * b + 1461 * c + 365 * 3 + 365 + 1) =
    (400 * a + 100 * b + 4 * c + 3 + 1, 12, 31).
Proof.
  intros Hb Hc Hl. unfold ord_to_ymd, DI400Y, DI100Y, DI4Y. cbv zeta.
  replace (146097 * a + 36524 * b + 1461 * c + 365 * 3 + 365 + 1 - 1)
    with (146097 * a + (36524 * b + 1461 * c + 1460)) by lia.
  destruct (divmod_eq 146097 a (36524 * b + 1461 * c + 1460)
              (146097 * a + (36524 * b + 1461 * c + 1460))) as [-> ->]; [lia | lia |].
  destruct (Z.eq_dec c 24) as [-> | Hc24].
  - assert (b = 3) as -> by lia.
    vm_compute ((36524 * 3 + 1461 * 24 + 1460) / 36524).
    vm_compute ((36524 * 3 + 1461 * 24 + 1460) mod 36524).
    simpl. f_equal. f_equal. zlia.
  - destruct (divmod_eq 36524 b (1461 * c + 1460) (36524 * b + 1461 * c + 1460))
      as [-> ->]; [lia | lia |].
    destruct (divmod_eq 1461 c 1460 (1461 * c + 1460)) as [-> ->]; [lia | lia |].
    vm_compute (1460 / 365). simpl. f_equal. f_equal. lia.
Qed.

(** The ordinal of a valid date leads back to the date. *)
Lemma ord_to_ymd_ymd_to_ord y m d :
  valid_date y m d -> ord_to_ymd (ymd_to_ord y m d) = (y, m, d).
Proof.
  intros [Hm Hd].
  destruct (year_parts_exist y) as (a & b & c & e & Hy).
  pose proof (is_leap_parts _ _ _ _ _ Hy) as Hleap.
  pose proof (days_before_year_parts _ _ _ _ _ Hy) as Hdby.
  destruct Hy as [Hy Hb Hc He].
  unfold ymd_to_ord. rewrite Hdby.
  change (days_before_month y m) with (dbm_l (is_leap y) m).
  change (days_in_month y m) with (dim_l (is_leap y) m) in Hd.
  destruct (month_day_of_spec (is_leap y) m d Hm Hd) as [Hmd Hdoy].
  set (doy := dbm_l (is_leap y) m + d - 1) in *.
  replace (146097 * a + 36524 * b + 1461 * c + 365 * e + dbm_l (is_leap y) m + d)
    with (146097 * a + 36524 * b + 1461 * c + 365 * e + doy + 1) by (subst doy; lia).
  destruct (Z_le_gt_dec doy 364) as [Hle | Hgt].
  - rewrite ord_to_ymd_parts by lia. rewrite <- Hleap, Hmd. simpl. f_equal. f_equal. lia.
  - destruct (is_leap y) eqn:El; [|lia].
    assert (doy = 365) as Hdoy' by lia. rewrite Hdoy' in *.
    vm_compute in Hmd. injection Hmd as <- <-.
    symmetry in Hleap. apply andb_prop in Hleap as [He3 Hcb].
    apply Z.eqb_eq in He3. subst e.
    rewrite ord_to_ymd_leap_end; [f_equal; f_equal; lia | lia | lia |].
    apply orb_prop in Hcb as [Hcb | Hcb].
    + left. apply negb_true_iff, Z.eqb_neq in Hcb. exact Hcb.
    + right. apply Z.eqb_eq in Hcb. exact Hcb.
Qed.

Lemma days_before_year_succ y :
  days_before_year (y + 1) = days_before_year y + 365 + (if is_leap y then 1 else 0).
Proof.
  destruct (year_parts_exist y) as (a & b & c & e & Hy).
  rewrite (is_leap_parts _ _ _ _ _ Hy).
  unfold days_before_year. cbv zeta.
  destruct Hy as [Hy Hb Hc He].
  replace (y + 1 - 1) with y by lia.
  assert (H4 : (y - 1) / 4 = 100 * a + 25 * b + c) by zlia.
  assert (H100 : (y - 1) / 100 = 4 * a + b) by zlia.
  assert (H400 : (y - 1) / 400 = a) by zlia.
  rewrite H4, H100, H400.
  assert (G4 : y / 4 = 100 * a + 25 * b + c + (if e =? 3 then 1 else 0)).
  { destruct (Z.eqb_spec e 3); zlia. }
  assert (G100 : y / 100 = 4 * a + b + (if (e =? 3) && (c =? 24) then 1 else 0)).
  { destruct (Z.eqb_spec e 3), (Z.eqb_spec c 24); simpl; zlia. }
  assert (G400 : y / 400 = a + (if (e =? 3) && (c =? 24) && (b =? 3) then 1 else 0)).
  { destruct (Z.eqb_spec e 3), (Z.eqb_spec c 24), (Z.eqb_spec b 3); simpl; zlia. }
  rewrite G4, G100, G400.
  destruct (Z.eqb_spec e 3), (Z.eqb_spec c 24), (Z.eqb_spec b 3); simpl; lia.
Qed.

Lemma dbm_succ leap m :
  1 <= m <= 11 -> dbm_l leap (m + 1) = dbm_l leap m + dim_l leap m.
Proof.
  intros Hm.
  assert (Hc : m = 1 \/ m = 2 \/ m = 3 \/ m = 4 \/ m = 5 \/ m = 6 \/ m = 7 \/ m = 8
               \/ m = 9 \/ m = 10 \/ m = 11) by lia.
  destruct leap; repeat (destruct Hc as [-> | Hc]; [reflexivity |]); subst; reflexivity.
Qed.

Lemma dim_l_pos leap m : 1 <= m <= 12 -> 28 <= dim_l leap m.
Proof.
  intros Hm.
  assert (Hc : m = 1 \/ m = 2 \/ m = 3 \/ m = 4 \/ m = 5 \/ m = 6 \/ m = 7 \/ m = 8
               \/ m = 9 \/ m = 10 \/ m = 11 \/ m = 12) by lia.
  destruct leap; repeat (destruct Hc as [-> | Hc]; [vm_compute; discriminate |]);
    subst; vm_compute; discriminate.
Qed.

(** Moving a valid date by at most one day: the result is a valid date
    whose ordinal moved by that much. *)
Lemma normalize_y_m_d_shift y m d k :
  valid_date y m d -> -1 <= k <= 1 ->
  exists y' m' d',
    normalize_y_m_d y m (d + k) = (y', m', d')
    /\ valid_date y' m' d'
    /\ ymd_to_ord y' m' d' = ymd_to_ord y m d + k.
Proof.
  intros [Hm Hd] Hk. unfold normalize_y_m_d.
  replace ((m <? 1) || (12 <? m)) with false
    by (symmetry; apply orb_false_iff; split; [apply Z.ltb_ge | apply Z.ltb_ge]; lia).
  cbv zeta.
  change (days_in_month y m) with (dim_l (is_leap y) m) in *.
  pose proof (dim_l_pos (is_leap y) m Hm) as Hdim.
  destruct (Z.ltb_spec (d + k) 1) as [Hlo | Hlo]; simpl orb.
  - (* one day back from the first of the month *)
    assert (d = 1 /\ k = -1) as [-> ->] by lia. simpl (1 + -1 =? 0).
    destruct (Z.ltb_spec 0 (m - 1)) as [Hm1 | Hm1].
    + exists y, (m - 1), (days_in_month y (m - 1)).
      change (days_in_month y (m - 1)) with (dim_l (is_leap y) (m - 1)).
      pose proof (dim_l_pos (is_leap y) (m - 1)).
      split; [reflexivity|]. split; [split; [lia|]; change (days_in_month y (m - 1)) with (dim_l (is_leap y) (m - 1)); lia|].
      unfold ymd_to_ord.
      change (days_before_month y m) with (dbm_l (is_leap y) m).
      change (days_before_month y (m - 1)) with (dbm_l (is_leap y) (m - 1)).
      pose proof (dbm_succ (is_leap y) (m - 1)) as Hs.
      replace (m - 1 + 1) with m in Hs by lia. rewrite Hs by lia. lia.
    + assert (m = 1) as -> by lia.
      exists (y - 1), 12, 31. split; [reflexivity|].
      split; [split; [lia | vm_compute; split; discriminate]|].
      unfold ymd_to_ord.
      pose proof (days_before_year_succ (y - 1)) as Hs.
      replace (y - 1 + 1) with y in Hs by lia. rewrite Hs.
      change (days_before_month (y - 1) 12) with (dbm_l (is_leap (y - 1)) 12).
      change (days_before_month y 1) with (dbm_l (is_leap y) 1).
      destruct (is_leap (y - 1)), (is_leap y); vm_compute (dbm_l _ _); lia.
  - destruct (Z.ltb_spec (dim_l (is_leap y) m) (d + k)) as [Hhi | Hhi].
    + (* one day forward from the last of the month *)
      assert (d = dim_l (is_leap y) m /\ k = 1) as [Hdd ->] by lia.
      replace (d + 1 =? 0) with false by (symmetry; apply Z.eqb_neq; lia).
      replace (d + 1 =? dim_l (is_leap y) m + 1) with true by (symmetry; apply Z.eqb_eq; lia).
      destruct (Z.ltb_spec 12 (m + 1)) as [Hm1 | Hm1].
      * assert (m = 12) as -> by lia.
        exists (y + 1), 1, 1. split; [reflexivity|].
        split; [split; [lia | vm_compute; split; discriminate]|].
        unfold ymd_to_ord. rewrite days_before_year_succ.
        change (days_before_month (y + 1) 1) with (dbm_l (is_leap (y + 1)) 1).
        change (days_before_month y 12) with (dbm_l (is_leap y) 12).
        rewrite Hdd.
        destruct (is_leap (y + 1)), (is_leap y); vm_compute (dbm_l _ _); vm_compute (dim_l _ _); lia.
      * exists y, (m + 1), 1. split; [reflexivity|].
        pose proof (dim_l_pos (is_leap y) (m + 1)).
        split; [split; [lia|]; change (days_in_month y (m + 1)) with (dim_l (is_leap y) (m + 1)); lia|].
        unfold ymd_to_ord.
        change (days_before_month y m) with (dbm_l (is_leap y) m).
        change (days_before_month y (m + 1)) with (dbm_l (is_leap y) (m + 1)).
        rewrite dbm_succ by lia. lia.
    + exists y, m, (d + k). split; [reflexivity|].
      split; [split; [lia|]; change (days_in_month y m) with (dim_l (is_leap y) m); lia|].
      unfold ymd_to_ord. lia.
Qed.

Lemma gmtime_fields y m d hh mm ss :
  valid_date y m d -> 0 <= hh < 24 -> 0 <= mm < 60 -> 0 <= ss < 60 ->
  gmtime ((ymd_to_ord y m d - EPOCH_ORD) * 86400 + hh * 3600 + mm * 60 + ss)
  = build_struct_time y m d hh mm ss 0.
Proof.
  intros Hv Hh Hm Hs. unfold gmtime. cbv zeta.
  destruct (divmod_eq 86400 (ymd_to_ord y m d - EPOCH_ORD) (hh * 3600 + mm * 60 + ss)
              ((ymd_to_ord y m d - EPOCH_ORD) * 86400 + hh * 3600 + mm * 60 + ss))
    as [-> ->]; [lia | lia |].
  replace (ymd_to_ord y m d - EPOCH_ORD + EPOCH_ORD) with (ymd_to_ord y m d) by lia.
  rewrite (ord_to_ymd_ymd_to_ord _ _ _ Hv).
  unfold build_struct_time, weekday.
  destruct (divmod_eq 60 (hh * 60 + mm) ss (hh * 3600 + mm * 60 + ss)) as [_ ->]; [lia | lia |].
  destruct (divmod_eq 3600 hh (mm * 60 + ss) (hh * 3600 + mm * 60 + ss)) as [-> ->]; [lia | lia |].
  destruct (divmod_eq 60 mm ss (mm * 60 + ss)) as [-> _]; [lia | lia |].
  f_equal.
  - unfold EPOCH_ORD. zlia.
  - unfold ymd_to_ord. lia.
Qed.

Lemma normalize_pair_eq hi lo f :
  0 < f -> normalize_pair hi lo f = (hi + lo / f, lo mod f).
Proof.
  intros Hf. unfold normalize_pair.
  destruct (Z.ltb_spec lo 0); simpl; [reflexivity|].
  destruct (Z.leb_spec f lo); [reflexivity|].
  rewrite Z.div_small, Z.mod_small by lia. f_equal. lia.
Qed.

Theorem utctimetuple_gmtime dt :
  valid_datetime dt -> utctimetuple dt = gmtime (instant dt).
Proof.
  intros (Hd & Hh & Hm & Hs & Ho). unfold utctimetuple, instant, utcoffset.
  set (off := match tzinfo dt with Some o => o | None => 0 end) in *.
  assert (Hoff : -1440 < off < 1440) by (subst off; destruct (tzinfo dt); lia).
  cbv zeta.
  destruct (Z.eqb_spec off 0) as [-> | Hne].
  - rewrite <- gmtime_fields by assumption. f_equal. lia.
  - rewrite !normalize_pair_eq by lia.
    change (0 / 1000000) with 0. rewrite (Z.add_0_r (second dt)).
    rewrite (Z.div_small (second dt)), (Z.mod_small (second dt)) by lia.
    rewrite (Z.add_0_r (minute dt - off)).
    set (q1 := (minute dt - off) / 60).
    set (r1 := (minute dt - off) mod 60).
    set (k := (hour dt + q1) / 24).
    set (r2 := (hour dt + q1) mod 24).
    assert (Hq1 : minute dt - off = 60 * q1 + r1 /\ 0 <= r1 < 60) by (subst q1 r1; zlia).
    assert (Hk : hour dt + q1 = 24 * k + r2 /\ 0 <= r2 < 24) by (subst k r2; zlia).
    assert (Hkr : -1 <= k <= 1) by lia.
    destruct (normalize_y_m_d_shift _ _ _ k Hd Hkr) as (y' & m' & d' & -> & Hv' & Hord).
    rewrite <- gmtime_fields by (try assumption; lia).
    f_equal. rewrite Hord. lia.
Qed.

(** [time.strftime] accepts the broken-down time of every date from 1900
    on, and renders its fields. *)
Lemma strftime_build_struct_time y m d hh mm ss :
  valid_date y m d -> 0 <= hh < 24 -> 0 <= mm < 60 -> 0 <= ss < 60 -> 1900 <= y ->
  strftime RFC1123 (build_struct_time y m d hh mm ss 0)
  = Some (rfc1123_layout (wday_abbr (Z.rem (weekday y m d + 1) 7)) (pad2 d)
            (mon_abbr (m - 1)) (decimal y) (pad2 hh) (pad2 mm) (pad2 ss)).
Proof.
  intros [Hm Hd] Hh Hmi Hs Hy.
  change (days_in_month y m) with (dim_l (is_leap y) m) in Hd.
  pose proof (dim_l_le31 (is_leap y) m) as H31.
  destruct (month_day_of_spec (is_leap y) m d Hm Hd) as [_ Hyd].
  assert (Hyd' : 0 <= days_before_month y m + d - 1 <= 365).
  { change (days_before_month y m) with (dbm_l (is_leap y) m). destruct (is_leap y); lia. }
  assert (Hw : 0 <= Z.rem (weekday y m d + 1) 7).
  { apply Z.rem_nonneg; [lia|]. unfold weekday. zlia. }
  unfold strftime, gettmarg, build_struct_time. cbn [tm_year tm_mon tm_mday tm_hour tm_min
    tm_sec tm_wday tm_yday tm_isdst].
  replace (y <? 1900) with false by (symmetry; apply Z.ltb_ge; lia).
  unfold checktm. cbn [c_year c_mon c_mday c_hour c_min c_sec c_wday c_yday c_isdst].
  replace (m - 1 =? -1) with false by (symmetry; apply Z.eqb_neq; lia).
  replace (d =? 0) with false by (symmetry; apply Z.eqb_neq; lia).
  replace (days_before_month y m + d - 1 =? -1) with false by (symmetry; apply Z.eqb_neq; lia).
  replace (m - 1 <? 0) with false by (symmetry; apply Z.ltb_ge; lia).
  replace (11 <? m - 1) with false by (symmetry; apply Z.ltb_ge; lia).
  replace (d <? 0) with false by (symmetry; apply Z.ltb_ge; lia).
  replace (31 <? d) with false by (symmetry; apply Z.ltb_ge; lia).
  replace (hh <? 0) with false by (symmetry; apply Z.ltb_ge; lia).
  replace (23 <? hh) with false by (symmetry; apply Z.ltb_ge; lia).
  replace (mm <? 0) with false by (symmetry; apply Z.ltb_ge; lia).
  replace (59 <? mm) with false by (symmetry; apply Z.ltb_ge; lia).
  replace (ss <? 0) with false by (symmetry; apply Z.ltb_ge; lia).
  replace (61 <? ss) with false by (symmetry; apply Z.ltb_ge; lia).
  replace (Z.rem (weekday y m d + 1) 7 <? 0) with false by (symmetry; apply Z.ltb_ge; lia).
  replace (days_before_month y m + d - 1 <? 0) with false by (symmetry; apply Z.ltb_ge; lia).
  replace (365 <? days_before_month y m + d - 1) with false by (symmetry; apply Z.ltb_ge; lia).
  cbn [orb]. change (0 <? -1) with false. change (1 <? 0) with false. cbn [orb].
  f_equal. unfold RFC1123, rfc1123_layout. cbn [c_strftime Ascii.eqb Bool.eqb directive
    c_year c_mon c_mday c_hour c_min c_sec c_wday c_yday c_isdst].
  replace (1900 + (y - 1900)) with y by lia. reflexivity.
Qed.

End CalendarFacts.

(** ** The [If-Modified-Since] header *)

Lemma strftime_layout t s :
  PyTime.strftime RFC1123 t = Some s ->
  exists buf,
    s = rfc1123_layout (PyTime.wday_abbr (PyTime.c_wday buf)) (PyTime.pad2 (PyTime.c_mday buf))
          (PyTime.mon_abbr (PyTime.c_mon buf)) (PyTime.decimal (1900 + PyTime.c_year buf))
          (PyTime.pad2 (PyTime.c_hour buf)) (PyTime.pad2 (PyTime.c_min buf))
          (PyTime.pad2 (PyTime.c_sec buf)).
Proof.
  unfold PyTime.strftime. destruct (PyTime.gettmarg t) as [buf0|]; [|discriminate].
  destruct (PyTime.checktm buf0) as [buf|]; [|discriminate].
  intros [= <-]. exists buf. reflexivity.
Qed.

Lemma strftime_nonempty t s : PyTime.strftime RFC1123 t = Some s -> s <> "".
Proof.
  intros H. destruct (strftime_layout t s H) as [buf ->]. unfold rfc1123_layout.
  destruct (PyTime.wday_abbr (PyTime.c_wday buf)); discriminate.
Qed.

Lemma request_headers_struct_time time_t_max etag t s :
  PyTime.strftime RFC1123 t = Some s ->
  request_headers time_t_max etag (PyStructTime t)
  = Ret (if_none_match etag ++ [(IF_MODIFIED_SINCE, s)] ++ [("User-Agent", USER_AGENT)]).
Proof. intros H. unfold request_headers. rewrite H. reflexivity. Qed.

(** Integers below 2^53 in magnitude are doubles. *)
Lemma int_to_double_exact n : (Z.abs n < 2 ^ 53)%Z -> PyTime.int_to_double n = Some n.
Proof.
  intros H. unfold PyTime.int_to_double. cbv zeta.
  by replace (Z.abs n <? 2 ^ 53)%Z with true by (symmetry; by apply Z.ltb_lt).
Qed.

Example int_to_double_rounds :
  PyTime.int_to_double (2 ^ 53 + 1) = Some (2 ^ 53)%Z
  /\ PyTime.int_to_double (2 ^ 53 + 3) = Some (2 ^ 53 + 4)%Z
  /\ PyTime.int_to_double (- (2 ^ 63)) = Some (- (2 ^ 63))%Z
  /\ PyTime.int_to_double (2 ^ 1024) = None.
Proof. vm_compute. repeat split. Qed.

(** Beyond the [time_t] of the platform [time.gmtime] raises. *)
Example time_gmtime_out_of_range :
  time_gmtime Scenario.TIME_T_MAX (PyTime.int_to_double (2 ^ 63)) = Raise ValueError
  /\ time_gmtime (2 ^ 31 - 1) (PyTime.int_to_double (2 ^ 31)) = Raise ValueError
  /\ time_gmtime Scenario.TIME_T_MAX (PyTime.int_to_double (2 ^ 62)) = Raise ValueError
  /\ time_gmtime Scenario.TIME_T_MAX (PyTime.int_to_double (2 ^ 1024)) = Raise OverflowError.
Proof. vm_compute. repeat split. Qed.

(** The seconds of a calendar time from 1900 to 9999. *)
Lemma instant_bounds dt :
  Instant.valid_datetime dt -> PyTime.tzinfo dt = None ->
  (1900 <= PyTime.year dt <= 9999)%Z ->
  (-2208988800 <= Instant.instant dt < 253402387200)%Z.
Proof.
  intros (Hd & Hh & Hm & Hs & _) Hn Hy.
  unfold Instant.instant, Instant.utcoffset. rewrite Hn.
  destruct Hd as [Hmo Hda].
  assert (Hdim : (Calendar.days_in_month (PyTime.year dt) (PyTime.month dt) <= 31)%Z).
  { unfold Calendar.days_in_month. destruct (_ && _); [lia|].
    destruct (Z.to_nat (PyTime.month dt))
      as [|[|[|[|[|[|[|[|[|[|[|[|[|[|k]]]]]]]]]]]]]]; simpl; lia. }
  assert (Hdbm : (0 <= Calendar.days_before_month (PyTime.year dt) (PyTime.month dt) <= 335)%Z).
  { unfold Calendar.days_before_month.
    assert (Hb : (0 <= (if (2 <? PyTime.month dt)%Z && Calendar.is_leap (PyTime.year dt)
                        then 1 else 0) <= 1)%Z) by (destruct (_ && _); lia).
    destruct (Z.to_nat (PyTime.month dt))
      as [|[|[|[|[|[|[|[|[|[|[|[|[|[|k]]]]]]]]]]]]]]; simpl; lia. }
  assert (Hdby : (693595 <= Calendar.days_before_year (PyTime.year dt) <= 3651694)%Z).
  { unfold Calendar.days_before_year. cbv zeta. CalendarFacts.zlia. }
  unfold Calendar.ymd_to_ord, Calendar.EPOCH_ORD. lia.
Qed.

(** [time.gmtime] of the seconds of such a calendar time. *)
Lemma time_gmtime_instant time_t_max dt :
  Instant.valid_datetime dt -> PyTime.tzinfo dt = None ->
  (1900 <= PyTime.year dt <= 9999)%Z ->
  (- time_t_max - 1 <= Instant.instant dt <= time_t_max)%Z ->
  time_gmtime time_t_max (Some (Instant.instant dt)) = Ret (PyTime.gmtime (Instant.instant dt)).
Proof.
  intros Hv Hn Hy Ht. unfold time_gmtime, PyTime.double_to_time_t, PyTime.c_gmtime.
  replace (- time_t_max - 1 <=? Instant.instant dt)%Z with true
    by (symmetry; apply Z.leb_le; lia).
  replace (Instant.instant dt <=? time_t_max)%Z with true by (symmetry; apply Z.leb_le; lia).
  cbn [andb]. cbv zeta.
  rewrite <- (CalendarFacts.utctimetuple_gmtime dt Hv).
  unfold PyTime.utctimetuple. rewrite Hn. cbv iota. change (0 =? 0)%Z with true. cbv iota.
  cbn [PyTime.tm_year PyTime.build_struct_time].
  replace (- 2 ^ 31 <=? PyTime.year dt - 1900)%Z with true by (symmetry; apply Z.leb_le; lia).
  replace (PyTime.year dt - 1900 <? 2 ^ 31)%Z with true by (symmetry; apply Z.ltb_lt; lia).
  reflexivity.
Qed.

(** The last second of 1899: its protocol string is sent as given,
    while [time.strftime] refuses the year of the integer, of the float
    and of the calendar time, which raise ValueError.  And where
    [time_t] has 32 bits, the first second it does not hold: the
    calendar time is rendered, while [time.gmtime] refuses the integer
    and the float. *)
Lemma before_1900_counterexample :
  Instant.valid_datetime Scenario.last_of_1899
  /\ Instant.instant Scenario.last_of_1899 = (-2208988801)%Z
  /\ request_headers Scenario.TIME_T_MAX None (PyStr Scenario.LAST_OF_1899)
     = Ret [(IF_MODIFIED_SINCE, Scenario.LAST_OF_1899); ("User-Agent", USER_AGENT)]
  /\ request_headers Scenario.TIME_T_MAX None (PyInt (-2208988801)) = Raise ValueError
  /\ request_headers Scenario.TIME_T_MAX None (PyFloat (PyTime.float_of_Z (-2208988801)))
     = Raise ValueError
  /\ request_headers Scenario.TIME_T_MAX None (PyDatetime Scenario.last_of_1899)
     = Raise ValueError
  /\ Instant.valid_datetime Scenario.past_int32
  /\ Instant.instant Scenario.past_int32 = (2 ^ 31)%Z
  /\ request_headers (2 ^ 31 - 1) None (PyDatetime Scenario.past_int32)
     = Ret [(IF_MODIFIED_SINCE, Scenario.PAST_INT32); ("User-Agent", USER_AGENT)]
  /\ request_headers (2 ^ 31 - 1) None (PyInt (2 ^ 31)) = Raise ValueError
  /\ request_headers (2 ^ 31 - 1) None (PyFloat (PyTime.float_of_Z (2 ^ 31)))
     = Raise ValueError.
Proof.
  split.
  { unfold Instant.valid_datetime, Instant.valid_date. simpl.
    change (Calendar.days_in_month 1899 12) with 31%Z. lia. }
  do 5 (split; [vm_compute; reflexivity|]).
  split.
  { unfold Instant.valid_datetime, Instant.valid_date. simpl.
    change (Calendar.days_in_month 2038 1) with 31%Z. lia. }
  vm_compute. repeat split.
Qed.

(** C7, amended. Take an instant of the years 1900 to 9999 that the
    platform's [time_t] holds, given by its UTC calendar time [utc], and
    let [s] be its protocol string, laid out as
    [Day, DD Mon YYYY HH:MM:SS GMT] from the fields of [utc]. Passing
    [last_modified] as [s], as the integer seconds [t] of the instant,
    as a float whose whole seconds are [t], as the naive calendar time
    [utc] or as any well-formed calendar time [local] of the same
    instant in a time zone sends one and the same [If-Modified-Since]
    header, [s]; [None] and the empty string send no such header. *)
Theorem last_modified_normalization (time_t_max : Z) (utc local : PyTime.datetime) (t : Z)
    (x : PyTime.pyfloat) (etag : option string) :
  Instant.valid_datetime utc -> PyTime.tzinfo utc = None ->
  (1900 <= PyTime.year utc <= Calendar.MAXYEAR)%Z ->
  Instant.instant utc = t ->
  (- time_t_max - 1 <= t <= time_t_max)%Z ->
  Instant.valid_datetime local ->
  (Calendar.MINYEAR <= PyTime.year local <= Calendar.MAXYEAR)%Z ->
  Instant.instant local = t ->
  PyTime.float_to_time_t x = t ->
  let s :=
    rfc1123_layout
      (PyTime.wday_abbr
         (Z.rem (Calendar.weekday (PyTime.year utc) (PyTime.month utc) (PyTime.day utc) + 1) 7))
      (PyTime.pad2 (PyTime.day utc)) (PyTime.mon_abbr (PyTime.month utc - 1))
      (PyTime.decimal (PyTime.year utc)) (PyTime.pad2 (PyTime.hour utc))
      (PyTime.pad2 (PyTime.minute utc)) (PyTime.pad2 (PyTime.second utc)) in
  request_headers time_t_max etag (PyStr s)
  = Ret (if_none_match etag ++ [(IF_MODIFIED_SINCE, s)] ++ [("User-Agent", USER_AGENT)])
  /\ request_headers time_t_max etag (PyInt t) = request_headers time_t_max etag (PyStr s)
  /\ request_headers time_t_max etag (PyFloat x) = request_headers time_t_max etag (PyStr s)
  /\ request_headers time_t_max etag (PyDatetime utc)
     = request_headers time_t_max etag (PyStr s)
  /\ request_headers time_t_max etag (PyDatetime local)
     = request_headers time_t_max etag (PyStr s)
  /\ request_headers time_t_max etag PyNone
     = Ret (if_none_match etag ++ [("User-Agent", USER_AGENT)])
  /\ request_headers time_t_max etag (PyStr "")
     = Ret (if_none_match etag ++ [("User-Agent", USER_AGENT)]).
Proof.
  intros Hu Hn Hy Hi Ht Hl Hyl Hil Hx s. unfold Calendar.MAXYEAR in Hy.
  assert (Hs : PyTime.strftime RFC1123 (PyTime.gmtime t) = Some s).
  { rewrite <- Hi, <- (CalendarFacts.utctimetuple_gmtime utc Hu).
    unfold PyTime.utctimetuple. rewrite Hn. cbv iota. change (0 =? 0)%Z with true. cbv iota.
    destruct Hu as (Hd & Hh & Hm & Hsec & _).
    apply CalendarFacts.strftime_build_struct_time; [done.. | lia]. }
  pose proof (request_headers_struct_time time_t_max etag (PyTime.gmtime t) s Hs) as Hst.
  assert (Hg : time_gmtime time_t_max (Some t) = Ret (PyTime.gmtime t)).
  { rewrite <- Hi. apply time_gmtime_instant; [done | done | done | by rewrite Hi]. }
  assert (Hd : PyTime.int_to_double t = Some t).
  { apply int_to_double_exact. pose proof (instant_bounds utc Hu Hn Hy) as Hb.
    rewrite Hi in Hb. change (2 ^ 53)%Z with 9007199254740992%Z. lia. }
  assert (Hstr : request_headers time_t_max etag (PyStr s)
    = Ret (if_none_match etag ++ [(IF_MODIFIED_SINCE, s)] ++ [("User-Agent", USER_AGENT)])).
  { unfold request_headers.
    replace (String.eqb s "") with false
      by (symmetry; apply String.eqb_neq; by apply (strftime_nonempty (PyTime.gmtime t))).
    reflexivity. }
  rewrite Hstr. repeat split.
  - unfold request_headers in *. rewrite Hd, Hg. exact Hst.
  - unfold request_headers in *. rewrite Hx, Hg. exact Hst.
  - unfold request_headers in *. rewrite (CalendarFacts.utctimetuple_gmtime utc Hu), Hi.
    exact Hst.
  - unfold request_headers in *. rewrite (CalendarFacts.utctimetuple_gmtime local Hl), Hil.
    exact Hst.
Qed.

Lemma valid_epoch_pacific : Instant.valid_datetime Scenario.epoch_pacific.
Proof.
  unfold Instant.valid_datetime, Instant.valid_date. simpl.
  change (Calendar.days_in_month 1969 12) with 31%Z. lia.
Qed.

Lemma valid_epoch_naive : Instant.valid_datetime Scenario.epoch_naive.
Proof.
  unfold Instant.valid_datetime, Instant.valid_date. simpl.
  change (Calendar.days_in_month 1970 1) with 31%Z. lia.
Qed.

(** The epoch as a string, as [0], as [0.0], as midnight naive and as
    16:00 of the day before at UTC-8, where [time_t] has 64 bits. *)
Lemma last_modified_normalization_witness :
  let headers := request_headers Scenario.TIME_T_MAX None in
  headers (PyStr Scenario.EPOCH)
  = Ret [(IF_MODIFIED_SINCE, Scenario.EPOCH); ("User-Agent", USER_AGENT)]
  /\ headers (PyInt 0) = headers (PyStr Scenario.EPOCH)
  /\ headers (PyFloat (PyTime.float_of_Z 0)) = headers (PyStr Scenario.EPOCH)
  /\ headers (PyDatetime Scenario.epoch_naive) = headers (PyStr Scenario.EPOCH)
  /\ headers (PyDatetime Scenario.epoch_pacific) = headers (PyStr Scenario.EPOCH).
Proof.
  intros headers.
  assert (Hy : (1900 <= PyTime.year Scenario.epoch_naive <= Calendar.MAXYEAR)%Z)
    by (vm_compute; split; discriminate).
  assert (Ht : (- Scenario.TIME_T_MAX - 1 <= 0 <= Scenario.TIME_T_MAX)%Z)
    by (vm_compute; split; discriminate).
  assert (Hyl : (Calendar.MINYEAR <= PyTime.year Scenario.epoch_pacific <= Calendar.MAXYEAR)%Z)
    by (vm_compute; split; discriminate).
  pose proof (last_modified_normalization Scenario.TIME_T_MAX Scenario.epoch_naive
                Scenario.epoch_pacific 0 (PyTime.float_of_Z 0) None valid_epoch_naive
                eq_refl Hy eq_refl Ht valid_epoch_pacific Hyl eq_refl eq_refl)
    as (H0 & H1 & H2 & H3 & H4 & _).
  exact (conj H0 (conj H1 (conj H2 (conj H3 H4)))).
Defined.

(** ** Path names *)

Module PathFacts.
Import OsPath.
Local Arguments String.append : simpl nomatch.

Lemma app_assoc (a b c : string) : (a +:+ b) +:+ c = a +:+ (b +:+ c).
Proof. induction a as [|x a IH]; simpl; [reflexivity | f_equal; exact IH]. Qed.

Lemma app_inv_l (x y z : string) : x +:+ y = x +:+ z -> y = z.
Proof. induction x as [|c x IH]; simpl; [done | intros [= H]; auto]. Qed.

Lemma join_sep a b : starts_with_slash b = false -> join a b = sep a +:+ b.
Proof.
  intros Hb. unfold join, sep. rewrite Hb.
  destruct (String.eqb a "" || ends_with_slash a); [reflexivity|].
  by rewrite app_assoc.
Qed.

Lemma prefix_app (x y z : string) : String.prefix (x +:+ y) (x +:+ z) = String.prefix y z.
Proof.
  induction x as [|c x IH]; simpl; [reflexivity|].
  destruct (ascii_dec c c); [exact IH | congruence].
Qed.

Lemma prefix_refl_app (x z : string) : String.prefix x (x +:+ z) = true.
Proof.
  induction x as [|c x IH]; simpl; [by destruct z|].
  destruct (ascii_dec c c); [exact IH | congruence].
Qed.

Lemma ends_with_slash_app (x y : string) :
  y <> "" -> ends_with_slash (x +:+ y) = ends_with_slash y.
Proof.
  intros Hy. induction x as [|c x IH]; simpl; [reflexivity|].
  rewrite IH. destruct (x +:+ y) eqn:E; [|reflexivity].
  destruct x; simpl in E; [congruence | discriminate].
Qed.

Lemma app_not_empty (x y : string) : y <> "" -> x +:+ y <> "".
Proof. destruct x; simpl; [auto | discriminate]. Qed.

(** Below the staging directory: [join (join td "tmp") arc]. *)
Lemma join_tmp td arc :
  starts_with_slash arc = false ->
  join (join td "tmp") arc = sep td +:+ "tmp/" +:+ arc.
Proof.
  intros Ha. rewrite (join_sep td "tmp") by reflexivity.
  unfold join. rewrite Ha.
  rewrite ends_with_slash_app by discriminate. simpl ends_with_slash.
  destruct (String.eqb_spec (sep td +:+ "tmp") "") as [E | _].
  - exfalso. revert E. apply app_not_empty. discriminate.
  - simpl. by rewrite !app_assoc.
Qed.

Lemma is_under_tmp td b :
  starts_with_slash b = false -> String.prefix "tmp/" b = false ->
  is_under (join td "tmp") (join td b) = false.
Proof.
  intros Hs Hb. unfold is_under.
  rewrite (join_sep td "tmp") by reflexivity. rewrite (join_sep td b) by exact Hs.
  rewrite app_assoc, prefix_app. exact Hb.
Qed.

Lemma is_under_tmp_member td arc :
  starts_with_slash arc = false ->
  is_under (join td "tmp") (join (join td "tmp") arc) = true.
Proof.
  intros Ha. unfold is_under. rewrite join_tmp by exact Ha.
  rewrite (join_sep td "tmp") by reflexivity.
  rewrite !app_assoc, !prefix_app. simpl. 
  destruct arc; reflexivity.
Qed.

Lemma join_tmp_ne td arc b :
  starts_with_slash arc = false ->
  starts_with_slash b = false -> String.prefix "tmp/" b = false ->
  join (join td "tmp") arc <> join td b.
Proof.
  intros Ha Hs Hb E.
  pose proof (is_under_tmp_member td arc Ha) as H1.
  rewrite E, is_under_tmp in H1 by assumption. discriminate.
Qed.

Lemma has_slash_app x y : has_slash (x +:+ y) = has_slash x || has_slash y.
Proof. induction x as [|c x IH]; simpl; [reflexivity|]. rewrite IH. by rewrite orb_assoc. Qed.

Lemma basename_no_slash b : has_slash b = false -> basename b = b.
Proof.
  destruct b as [|c b]; simpl; [reflexivity|].
  intros H. apply orb_false_iff in H as [-> ->]. reflexivity.
Qed.

Lemma basename_app_slash x b :
  has_slash b = false -> ends_with_slash x = true -> basename (x +:+ b) = b.
Proof.
  intros Hb. induction x as [|c x IH]; simpl; [discriminate|].
  rewrite has_slash_app, Hb, orb_false_r.
  destruct x as [|c' x'].
  - simpl. intros ->. reflexivity.
  - intros Hx. specialize (IH Hx).
    destruct (has_slash (String c' x')) eqn:E; [exact IH|].
    exfalso. clear -E Hx. revert c' E Hx. induction x' as [|c'' x'' IH']; intros c' E Hx.
    + simpl in *. rewrite Hx in E. discriminate.
    + simpl in E. apply orb_false_iff in E as [_ E]. apply (IH' c''); [exact E | exact Hx].
Qed.

Lemma basename_join a b : has_slash b = false -> basename (join a b) = b.
Proof.
  intros Hb.
  assert (Hs : starts_with_slash b = false).
  { destruct b; simpl in *; [reflexivity|]. by apply orb_false_iff in Hb as [-> _]. }
  unfold join. rewrite Hs.
  destruct (String.eqb_spec a "") as [-> | Ha]; simpl orb.
  - simpl. by apply basename_no_slash.
  - destruct (ends_with_slash a) eqn:E.
    + by apply basename_app_slash.
    + rewrite <- app_assoc. apply basename_app_slash; [exact Hb|].
      rewrite ends_with_slash_app by discriminate. reflexivity.
Qed.

Lemma join_basename_ne a b a' b' :
  has_slash b = false -> has_slash b' = false -> b <> b' -> join a b <> join a' b'.
Proof.
  intros Hb Hb' Hne E. apply Hne.
  rewrite <- (basename_join a b Hb), <- (basename_join a' b' Hb'). by rewrite E.
Qed.

End PathFacts.

(** ** Rules for [maps] and [triple] *)

Section Maps.
Context (P Q R : gmap string string -> list event -> Prop).

Lemma maps_weaken {A} (m : M A) :
  maps P R m -> (forall f tr, R f tr -> Q f tr) -> maps P Q m.
Proof. intros Hm HRQ s H. apply HRQ. by apply Hm. Qed.

Lemma maps_bind {A B} (m : M A) (k : A -> M B) :
  maps P R m -> (forall f tr, R f tr -> Q f tr) -> (forall a, maps R Q (k a)) ->
  maps P Q (bind m k).
Proof.
  intros Hm HRQ Hk s H. unfold bind. specialize (Hm s H).
  destruct (m s) as [[a | e] s1]; simpl in *; [by apply Hk | by apply HRQ].
Qed.

Lemma maps_try_finally {A} (body : M A) (fin : M unit) :
  maps P R body -> maps R Q fin -> maps P Q (try_finally body fin).
Proof.
  intros Hb Hf s H. unfold try_finally. specialize (Hb s H).
  destruct (body s) as [r s1]. simpl in Hb. specialize (Hf s1 Hb).
  destruct (fin s1) as [[u | e] s2]; exact Hf.
Qed.
End Maps.


Lemma maps_bind_triple {A B} (P Q : gmap string string -> list event -> Prop)
    (R : outcome A -> gmap string string -> list event -> Prop)
    (m : M A) (k : A -> M B) :
  triple P m R -> (forall e f tr, R (Raise e) f tr -> Q f tr) ->
  (forall a, maps (R (Ret a)) Q (k a)) -> maps P Q (bind m k).
Proof.
  intros Hm HRQ Hk s H. unfold bind. specialize (Hm s H).
  destruct (m s) as [[a | e] s1]; simpl in *; [by apply Hk | by apply (HRQ e)].
Qed.

Section Preserves.
Context (J : gmap string string -> list event -> Prop).

Lemma preserves_ret {A} (a : A) : preserves J (ret a).
Proof. intros s H. exact H. Qed.

Lemma preserves_raise {A} e : preserves J (@raise A e).
Proof. intros s H. exact H. Qed.

Lemma preserves_bind {A B} (m : M A) (k : A -> M B) :
  preserves J m -> (forall a, preserves J (k a)) -> preserves J (bind m k).
Proof. intros Hm Hk. by apply (maps_bind J J J). Qed.

Lemma preserves_try_finally {A} (body : M A) (fin : M unit) :
  preserves J body -> preserves J fin -> preserves J (try_finally body fin).
Proof. apply maps_try_finally. Qed.

Lemma preserves_try_except {A} (body : M A) sel (handler : exn -> M A) :
  preserves J body -> (forall e, preserves J (handler e)) ->
  preserves J (try_except body sel handler).
Proof.
  intros Hb Hh s H. unfold try_except. specialize (Hb s H).
  destruct (body s) as [[a | e] s1]; simpl in *; [exact Hb|].
  destruct (sel e); [by apply Hh | exact Hb].
Qed.

Lemma preserves_logger lvl msg : preserves J (logger lvl msg).
Proof. intros s H. exact H. Qed.

Lemma preserves_sys w o : preserves J (sys w o).
Proof. intros s H. unfold sys. destruct (fails w o); exact H. Qed.

Lemma preserves_get_fs : preserves J get_fs.
Proof. intros s H. exact H. Qed.

Lemma preserves_emit ev f :
  (forall m tr, J m tr -> J (f m) (tr ++ [ev])) -> preserves J (emit ev f).
Proof. intros Hf s H. by apply Hf. Qed.

Lemma preserves_getitem hs name : preserves J (getitem hs name).
Proof.
  induction hs as [|[k v] hs IH]; simpl; [apply preserves_raise|].
  destruct (String.eqb _ _); [apply preserves_ret | exact IH].
Qed.

Lemma preserves_select_name l : preserves J (select_name l).
Proof.
  unfold select_name. destruct (if negb _ then _ else _);
    [apply preserves_raise | apply preserves_ret].
Qed.
End Preserves.

Ltac pstep :=
  lazymatch goal with
  | |- maps ?J ?J (bind _ _) => apply preserves_bind; [|intros ?]
  | |- maps ?J ?J (try_finally _ _) => apply preserves_try_finally
  | |- maps ?J ?J (try_except _ _ _) => apply preserves_try_except; [|intros ?]
  | |- maps ?J ?J (ret _) => apply preserves_ret
  | |- maps ?J ?J (raise _) => apply preserves_raise
  | |- maps ?J ?J (logger _ _) => apply preserves_logger
  | |- maps ?J ?J (sys _ _) => apply preserves_sys
  | |- maps ?J ?J get_fs => apply preserves_get_fs
  | |- maps ?J ?J (getitem _ _) => apply preserves_getitem
  | |- maps ?J ?J (select_name _) => apply preserves_select_name
  | |- maps ?J ?J (emit _ _) => apply preserves_emit
  | |- maps ?J ?J (match ?x with _ => _ end) => destruct x
  end.


Lemma arcname_no_leading_slash name :
  OsPath.starts_with_slash (Zipfile.arcname name) = false.
Proof.
  unfold Zipfile.arcname.
  assert (Hc : Forall (fun x => OsPath.starts_with_slash x = false) (OsPath.split name)).
  { induction name as [|c s IH]; simpl; [by constructor|].
    destruct (Ascii.eqb_spec c "/") as [-> | Hc].
    - constructor; [reflexivity | exact IH].
    - destruct (OsPath.split s) as [|x xs].
      + constructor; [|constructor]. simpl. by apply Ascii.eqb_neq.
      + inversion IH; subst. constructor; [|assumption]. simpl. by apply Ascii.eqb_neq. }
  induction Hc as [|x xs Hx Hxs IH]; simpl; [reflexivity|].
  destruct (String.eqb_spec x "") as [-> | Hne]; simpl; [exact IH|].
  destruct (String.eqb x "." || String.eqb x ".."); simpl; [exact IH|].
  destruct (List.filter _ xs); [exact Hx|].
  destruct x as [|c x]; [done|]. exact Hx.
Qed.

Lemma maps_bind_mkstemp {B} w (P Q : gmap string string -> list event -> Prop)
    (k : string -> M B) :
  (forall f tr, P f tr -> Q f tr) ->
  maps (fun f tr => exists f0 tr0, P f0 tr0 /\ f0 !! temp_path w = None
                     /\ f = <[temp_path w := ""]> f0 /\ tr = tr0 ++ [Mkstemp (temp_path w)])
       Q (k (temp_path w)) ->
  maps P Q (bind (Tempfile.mkstemp w) k).
Proof.
  intros HPQ Hk s H. unfold bind, Tempfile.mkstemp, bind, sys, get_fs, ret, raise, emit.
  cbv zeta. fold (temp_path w).
  destruct (fails w SysMkstemp); [by apply HPQ|].
  destruct (fs s !! temp_path w) eqn:E; [by apply HPQ|].
  apply Hk. simpl. eauto 10.
Qed.

Section Triple.
Context {A : Type}.
Implicit Types P : gmap string string -> list event -> Prop.

Lemma triple_conseq P P' (m : M A) R R' :
  triple P' m R' -> (forall f tr, P f tr -> P' f tr) ->
  (forall r f tr, R' r f tr -> R r f tr) -> triple P m R.
Proof. intros Hm HP HR s H. apply HR, Hm, HP, H. Qed.

Lemma triple_ret P (a : A) R :
  (forall f tr, P f tr -> R (Ret a) f tr) -> triple P (ret a) R.
Proof. intros HR s H. by apply HR. Qed.

Lemma triple_raise P e (R : outcome A -> _) :
  (forall f tr, P f tr -> R (Raise e) f tr) -> triple P (raise e) R.
Proof. intros HR s H. by apply HR. Qed.

Lemma triple_bind {B} P (m : M B) (k : B -> M A) R' R :
  triple P m R' -> (forall e f tr, R' (Raise e) f tr -> R (Raise e) f tr) ->
  (forall b, triple (R' (Ret b)) (k b) R) -> triple P (bind m k) R.
Proof.
  intros Hm HR Hk s H. unfold bind. specialize (Hm s H).
  destruct (m s) as [[b | e] s1]; simpl in *; [by apply Hk | by apply HR].
Qed.

Lemma triple_try_finally P (body : M A) (fin : M unit) R' R :
  triple P body R' ->
  (forall r, triple (R' r) fin
     (fun rf f tr => R (match rf with Ret _ => r | Raise e => Raise e end) f tr)) ->
  triple P (try_finally body fin) R.
Proof.
  intros Hb Hf s H. unfold try_finally. specialize (Hb s H).
  destruct (body s) as [r s1]. simpl in Hb. specialize (Hf r s1 Hb).
  destruct (fin s1) as [[u | e] s2]; exact Hf.
Qed.

Lemma triple_of_maps P Q (m : M A) : maps P Q m -> triple P m (fun _ => Q).
Proof. intros Hm s H. by apply Hm. Qed.
End Triple.

Lemma triple_bind_mkstemp {B} w (P : gmap string string -> list event -> Prop)
    (R : outcome B -> gmap string string -> list event -> Prop) (k : string -> M B) :
  (forall e f tr, P f tr -> R (Raise e) f tr) ->
  triple (fun f tr => exists f0 tr0, P f0 tr0 /\ f0 !! temp_path w = None
                       /\ f = <[temp_path w := ""]> f0 /\ tr = tr0 ++ [Mkstemp (temp_path w)])
         (k (temp_path w)) R ->
  triple P (bind (Tempfile.mkstemp w) k) R.
Proof.
  intros HPR Hk s H. unfold bind, Tempfile.mkstemp, bind, sys, get_fs, ret, raise, emit.
  cbv zeta. fold (temp_path w).
  destruct (fails w SysMkstemp); [by apply HPR|].
  destruct (fs s !! temp_path w) eqn:E; [by apply HPR|].
  apply Hk. simpl. eauto 10.
Qed.

(** ** Two phases: before and after the rename *)

Section TwoPhase.
Context (w : env) (tdir : string).
Context (J K : gmap string string -> list event -> Prop).

Local Abbreviation tp := (temp_path w).
Local Abbreviation xd := (OsPath.join tdir "tmp").
Local Abbreviation tgt := (OsPath.join tdir "vehicles.csv").
Local Abbreviation I := (fun m tr => J m tr \/ K m tr).

Hypothesis J_mkstemp : forall m tr,
  m !! tp = None -> J m tr -> J (<[tp := ""]> m) (tr ++ [Mkstemp tp]).
Hypothesis J_fdwrite : forall m tr d,
  J m tr -> J (<[tp := default "" (m !! tp) +:+ d]> m) (tr ++ [FdWrite tp d]).
Hypothesis J_extract : forall m tr arc c,
  OsPath.starts_with_slash arc = false ->
  J m tr -> J (<[OsPath.join xd arc := c]> m) (tr ++ [Extract (OsPath.join xd arc)]).
Hypothesis J_rmtree : forall m tr,
  J m tr -> J (filter (fun kv => OsPath.is_under xd kv.1 = false) m) (tr ++ [Rmtree xd]).
Hypothesis J_unlink : forall m tr,
  J m tr -> J (delete tp m) (tr ++ [Unlink tp]).
Hypothesis K_rmtree : forall m tr,
  K m tr -> K (filter (fun kv => OsPath.is_under xd kv.1 = false) m) (tr ++ [Rmtree xd]).
Hypothesis K_unlink : forall m tr,
  K m tr -> K (delete tp m) (tr ++ [Unlink tp]).
Hypothesis K_rename : forall m tr src c,
  J m tr -> m !! src = Some c ->
  K (<[tgt := c]> (delete src m)) (tr ++ [Rename src tgt]).
Hypothesis K_open : forall m tr x,
  x = "vehicles.etag" \/ x = "vehicles.last_modified" ->
  K m tr -> K (<[OsPath.join tdir x := ""]> m) (tr ++ [OpenW (OsPath.join tdir x)]).
Hypothesis K_write : forall m tr x d,
  x = "vehicles.etag" \/ x = "vehicles.last_modified" ->
  K m tr ->
  K (<[OsPath.join tdir x := default "" (m !! OsPath.join tdir x) +:+ d]> m)
    (tr ++ [Write (OsPath.join tdir x) d]).

Hypothesis J_request : forall m tr headers, J m tr -> J m (tr ++ [Request headers]).

Lemma J_I m tr : J m tr -> I m tr.
Proof. by left. Qed.

Lemma preserves_copy_body reads n : preserves J (copy_body w reads n tp).
Proof.
  revert n. induction reads as [|[e | chunk] reads IH]; intros n; simpl.
  - apply preserves_ret.
  - apply preserves_raise.
  - destruct (0 <? String.length chunk)%nat; [|apply preserves_ret].
    repeat pstep; [|apply IH]. intros m tr. apply J_fdwrite.
Qed.

Lemma preserves_extract_entry : preserves J (extract_entry w tp xd).
Proof.
  unfold extract_entry, Zipfile.ZipFile, Zipfile.extract. repeat pstep.
  intros m tr. apply J_extract, arcname_no_leading_slash.
Qed.

Lemma preserves_save_tokens ne nl : preserves K (save_tokens w tdir ne nl).
Proof.
  unfold save_tokens, open_w, write. cbv zeta. repeat pstep.
  - intros m tr. apply (K_open m tr "vehicles.etag"). by left.
  - intros m tr. apply (K_write m tr "vehicles.etag"). by left.
  - intros m tr. apply (K_open m tr "vehicles.last_modified"). by right.
  - intros m tr. apply (K_write m tr "vehicles.last_modified"). by right.
Qed.

Lemma triple_os_rename src :
  triple J (os_rename w src tgt)
    (fun r f tr => match r with Ret _ => K f tr | Raise _ => J f tr end).
Proof.
  intros s H. unfold os_rename, bind, sys, get_fs, ret, raise, emit.
  destruct (fails w SysRename); [exact H|].
  destruct (fs s !! src) as [c|] eqn:Ec; [|exact H].
  simpl. by apply K_rename.
Qed.

Lemma maps_install ne nl : maps J I (install w tdir xd tp ne nl).
Proof.
  unfold install.
  apply (maps_bind J I J); [apply preserves_extract_entry | exact J_I | intros name].
  cbv zeta.
  eapply maps_bind_triple; [apply triple_os_rename | intros e f tr H; by left | intros u].
  cbv beta iota.
  apply (maps_weaken _ I K); [apply preserves_save_tokens | intros f tr H; by right].
Qed.

Lemma preserves_erase : preserves I (erase_extracted_dir w xd).
Proof.
  unfold erase_extracted_dir, rmtree. repeat pstep.
  intros m tr [H | H]; [left | right]; auto.
Qed.

Lemma preserves_cleanup : preserves I (cleanup_stray_file w tp).
Proof.
  unfold cleanup_stray_file, os_path_exists, os_unlink. repeat pstep.
  intros m tr [H | H]; [left | right]; auto.
Qed.

Lemma maps_fetch_new_data resp : maps J I (fetch_new_data w tdir resp).
Proof.
  unfold fetch_new_data.
  apply (maps_bind J I J); [apply preserves_logger | exact J_I | intros _].
  apply (maps_bind J I J); [apply preserves_getitem | exact J_I | intros ne].
  apply (maps_bind J I J); [apply preserves_getitem | exact J_I | intros nl].
  apply maps_bind_mkstemp; [exact J_I|].
  apply (maps_bind _ I I); [| auto | intros _; apply preserves_ret].
  apply (maps_try_finally _ I I); [|apply preserves_cleanup].
  apply (maps_bind _ I J); [| exact J_I |].
  - apply (maps_try_finally _ J J); [|apply preserves_sys].
    intros s (f0 & tr0 & H0 & Hfresh & Hf & Ht).
    apply preserves_copy_body. rewrite Hf, Ht. by apply J_mkstemp.
  - intros _. apply (maps_try_finally _ I I); [apply maps_install | apply preserves_erase].
Qed.
Lemma preserves_stream_opener td x :
  preserves J (match td with
               | Some d => make_stream_opener w d
               | None => open_resource_stream w
               end x).
Proof.
  destruct td; unfold make_stream_opener, open_resource_stream, os_path_exists, open_;
    cbv zeta; repeat pstep.
Qed.

Lemma preserves_get_epa_updates etag lm : preserves J (get_epa_updates w etag lm).
Proof.
  unfold get_epa_updates, opener_open. repeat pstep.
  intros m tr. apply J_request.
Qed.

Lemma maps_ensure_latest td :
  tdir = target_dir_of td -> maps J I (ensure_latest w td).
Proof.
  intros Htd.
  assert (E : ensure_latest w td =
    (let* etag := load_etag (match td with
                             | Some d => make_stream_opener w d
                             | None => open_resource_stream w
                             end) in
     let* last_modified := load_last_modified (match td with
                             | Some d => make_stream_opener w d
                             | None => open_resource_stream w
                             end) in
     let* response := get_epa_updates w etag last_modified in
     if negb (code response =? 304)%Z then fetch_new_data w tdir response
     else logger INFO "get_epa_updates(etag=%s, last_modified=%s) got some new data"
          >> ret false)).
  { rewrite Htd. destruct td; reflexivity. }
  rewrite E. clear E.
  apply (maps_bind J I J); [| exact J_I | intros etag].
  { unfold load_etag. pstep; [|repeat pstep].
    pstep; [pstep|]. pstep; [apply preserves_stream_opener | repeat pstep]. }
  apply (maps_bind J I J); [| exact J_I | intros lm].
  { unfold load_last_modified. pstep; [|repeat pstep].
    pstep; [pstep|]. pstep; [apply preserves_stream_opener | repeat pstep]. }
  apply (maps_bind J I J); [apply preserves_get_epa_updates | exact J_I | intros resp].
  destruct (negb _); [apply maps_fetch_new_data|].
  apply (maps_weaken _ I J); [repeat pstep | exact J_I].
Qed.
End TwoPhase.

(** ** The run of [ensure_latest] up to the status test *)

Lemma stream_opener_run w td x s :
  exists l,
    stream_opener_of w td x s =
      (match fails w (SysOpen (stored_path w td x)) with
       | Some e => Raise e
       | None => match fs s !! stored_path w td x with
                 | Some c => Ret c
                 | None => Raise IOError
                 end
       end, with_log s l).
Proof.
  destruct td as [d|]; unfold stream_opener_of, stored_path, make_stream_opener,
    open_resource_stream, open_, os_path_exists, sys, bind, get_fs, ret, raise, logger, with_log;
    cbn [fs trace log].
  - destruct (bool_decide _); cbn [fs trace log];
      destruct (fails w _); cbn [fs trace log]; try (eexists; reflexivity);
      destruct (fs s !! _); eexists; reflexivity.
  - destruct (bool_decide _); cbn [fs trace log];
      destruct (fails w _); cbn [fs trace log]; try (eexists; reflexivity);
      destruct (fs s !! _); eexists; reflexivity.
Qed.

Lemma load_etag_run w td s :
  exists l,
    load_etag (stream_opener_of w td) s =
      (stored w (fs s) (stored_path w td "etag"), with_log s l).
Proof.
  unfold load_etag, try_except, bind, logger.
  destruct (stream_opener_run w td "etag"
              {| fs := fs s; trace := trace s; log := log s ++ [(INFO, "Opening etag")] |})
    as [l ->].
  unfold stored, with_log, ret. cbn [fs trace log].
  destruct (fails w _) as [e|].
  - destruct e; cbn [is_IOError fs trace log]; rewrite <- ?app_assoc; eexists; reflexivity.
  - destruct (fs s !! _); cbn [is_IOError fs trace log]; rewrite <- ?app_assoc;
      eexists; reflexivity.
Qed.

Lemma load_last_modified_run w td s :
  exists l,
    load_last_modified (stream_opener_of w td) s =
      (match stored w (fs s) (stored_path w td "last_modified") with
       | Ret o => Ret (lm_obj o)
       | Raise e => Raise e
       end, with_log s l).
Proof.
  unfold load_last_modified, try_except, bind, logger.
  destruct (stream_opener_run w td "last_modified"
              {| fs := fs s; trace := trace s; log := log s ++ [(INFO, "Opening last_modified")] |})
    as [l ->].
  unfold stored, with_log, ret. cbn [fs trace log].
  destruct (fails w _) as [e|].
  - destruct e; cbn [is_IOError fs trace log]; rewrite <- ?app_assoc; eexists; reflexivity.
  - destruct (fs s !! _); cbn [is_IOError fs trace log lm_obj]; rewrite <- ?app_assoc;
      eexists; reflexivity.
Qed.

Lemma request_headers_tokens time_t_max etag lm :
  request_headers time_t_max etag (lm_obj lm) = Ret (token_headers etag lm).
Proof.
  unfold request_headers, token_headers.
  destruct lm as [s|]; cbn [lm_obj]; [|reflexivity].
  destruct (String.eqb s ""); reflexivity.
Qed.

Lemma get_epa_updates_run w etag lm s :
  exists l,
    get_epa_updates w etag (lm_obj lm) s =
      (reply w (token_headers etag lm), requested s (token_headers etag lm) l).
Proof.
  unfold get_epa_updates. rewrite request_headers_tokens.
  unfold opener_open, bind, logger, emit, reply, requested, ret, raise. cbn [fs trace log].
  destruct (http w _) as [e | resp]; [eexists; reflexivity|].
  destruct ((200 <=? code resp)%Z && (code resp <? 300)%Z); [eexists; reflexivity|].
  destruct (code resp =? 304)%Z; eexists; reflexivity.
Qed.

(** [ensure_latest] up to the test of the status code. *)
Lemma ensure_latest_run w td s :
  exists l,
    ensure_latest w td s =
      match stored w (fs s) (stored_path w td "etag") with
      | Raise e => (Raise e, with_log s l)
      | Ret etag =>
          match stored w (fs s) (stored_path w td "last_modified") with
          | Raise e => (Raise e, with_log s l)
          | Ret lm =>
              let headers := token_headers etag lm in
              match reply w headers with
              | Raise e => (Raise e, requested s headers l)
              | Ret resp =>
                  if negb (code resp =? 304)%Z
                  then fetch_new_data w (target_dir_of td) resp (requested s headers l)
                  else (Ret false, with_log (requested s headers l) [(INFO, NOT_MODIFIED_MSG)])
              end
          end
      end.
Proof.
  assert (E : ensure_latest w td =
    (let* etag := load_etag (stream_opener_of w td) in
     let* last_modified := load_last_modified (stream_opener_of w td) in
     let* response := get_epa_updates w etag last_modified in
     if negb (code response =? 304)%Z then fetch_new_data w (target_dir_of td) response
     else logger INFO NOT_MODIFIED_MSG >> ret false)).
  { destruct td; reflexivity. }
  rewrite E. clear E. unfold bind at 1.
  destruct (load_etag_run w td s) as [l1 ->].
  destruct (stored w (fs s) _) as [etag | e]; [|eexists; reflexivity].
  unfold bind at 1.
  destruct (load_last_modified_run w td (with_log s l1)) as [l2 ->].
  cbn [with_log fs].
  destruct (stored w (fs s) _) as [lm | e].
  2:{ exists (l1 ++ l2). unfold with_log. cbn [fs trace log]. by rewrite <- app_assoc. }
  unfold bind at 1.
  destruct (get_epa_updates_run w etag lm (with_log (with_log s l1) l2)) as [l3 ->].
  exists (l1 ++ l2 ++ l3).
  assert (Es : requested (with_log (with_log s l1) l2) (token_headers etag lm) l3
               = requested s (token_headers etag lm) (l1 ++ l2 ++ l3)).
  { unfold requested, with_log. cbn [fs trace log]. by rewrite <- !app_assoc. }
  rewrite Es. cbv zeta.
  destruct (reply w _) as [resp | e]; [|reflexivity].
  destruct (negb _); reflexivity.
Qed.

(** ** The files kept in the target directory *)

Import PathFacts.

Lemma characters_no_slash n :
  Ascii.eqb (nth (n mod 63) (list_ascii_of_string Tempfile.characters) "_"%char) "/" = false.
Proof.
  assert (H : forallb (fun k => negb (Ascii.eqb
             (nth k (list_ascii_of_string Tempfile.characters) "_"%char) "/")) (seq 0 63) = true)
    by (vm_compute; reflexivity).
  rewrite forallb_forall in H.
  apply negb_true_iff, H, in_seq. split; [lia|].
  rewrite Nat.add_0_l. apply Nat.mod_upper_bound. discriminate.
Qed.

Lemma has_slash_of_list {A} (g : A -> ascii) (l : list A) :
  (forall i, Ascii.eqb (g i) "/" = false) ->
  OsPath.has_slash (string_of_list_ascii (map g l)) = false.
Proof.
  intros Hg. induction l as [|i l IH]; simpl; [reflexivity|]. by rewrite Hg, IH.
Qed.

Lemma temp_name_no_slash rng :
  OsPath.has_slash ("tmp" +:+ Tempfile.random_name rng) = false.
Proof.
  rewrite has_slash_app. unfold Tempfile.random_name.
  rewrite has_slash_of_list; [reflexivity|].
  intros i. apply characters_no_slash.
Qed.

Lemma temp_path_not_kept w tdir x : kept_name x -> temp_path w <> OsPath.join tdir x.
Proof.
  intros Hx. unfold temp_path. apply join_basename_ne.
  - apply temp_name_no_slash.
  - destruct Hx as [-> | [-> | ->]]; reflexivity.
  - destruct Hx as [-> | [-> | ->]]; discriminate.
Qed.

Lemma staged_not_kept tdir arc x :
  OsPath.starts_with_slash arc = false -> kept_name x ->
  OsPath.join (OsPath.join tdir "tmp") arc <> OsPath.join tdir x.
Proof.
  intros Ha Hx. apply join_tmp_ne; [exact Ha | |];
    destruct Hx as [-> | [-> | ->]]; reflexivity.
Qed.

Lemma kept_not_under_tmp tdir x :
  kept_name x -> OsPath.is_under (OsPath.join tdir "tmp") (OsPath.join tdir x) = false.
Proof.
  intros Hx. apply is_under_tmp; destruct Hx as [-> | [-> | ->]]; reflexivity.
Qed.

Lemma kept_distinct tdir x y : kept_name x -> kept_name y -> x <> y ->
  OsPath.join tdir x <> OsPath.join tdir y.
Proof.
  intros Hx Hy Hne. apply join_basename_ne; [| | exact Hne].
  - destruct Hx as [-> | [-> | ->]]; reflexivity.
  - destruct Hy as [-> | [-> | ->]]; reflexivity.
Qed.

Lemma installed_snoc tdir tr e :
  installed tdir (tr ++ [e]) = installed tdir tr || is_install tdir e.
Proof. unfold installed. rewrite existsb_app. simpl. by rewrite orb_false_r. Qed.

Lemma lookup_rmtree (m : gmap string string) dir p :
  OsPath.is_under dir p = false ->
  filter (fun kv => OsPath.is_under dir kv.1 = false) m !! p = m !! p.
Proof.
  intros Hp. destruct (m !! p) as [c|] eqn:E.
  - apply map_lookup_filter_Some. split; [exact E | exact Hp].
  - apply map_lookup_filter_None. left. exact E.
Qed.

(** ** Failures before the rename *)

(** C1. A call of [ensure_latest] that raises without having renamed
    the extracted file over the dataset (it failed while loading the
    tokens, in the request, the download, the selection of the entry,
    the extraction or the rename itself) leaves [vehicles.csv],
    [vehicles.etag] and [vehicles.last_modified] of the target
    directory exactly as they were before the call. *)
Theorem failure_before_rename_leaves_files w td m0 e s' :
  ensure_latest w td (start m0) = (Raise e, s') ->
  installed (target_dir_of td) (trace s') = false ->
  fs s' !! target_path td = m0 !! target_path td
  /\ fs s' !! etag_path td = m0 !! etag_path td
  /\ fs s' !! last_modified_path td = m0 !! last_modified_path td.
Proof.
  intros Hrun Hren.
  set (tdir := target_dir_of td) in *.
  pose (J := fun (m : gmap string string) (tr : list event) =>
    forall x, kept_name x -> m !! OsPath.join tdir x = m0 !! OsPath.join tdir x).
  pose (K := fun (m : gmap string string) (tr : list event) => installed tdir tr = true).
  assert (H : J (fs s') (trace s') \/ K (fs s') (trace s')).
  { pose proof (maps_ensure_latest w tdir J K) as Hm.
    change s' with ((Raise e : outcome bool, s').2). rewrite <- Hrun.
    apply Hm; try reflexivity; unfold J, K; clear.
    - intros m tr _ H x Hx. rewrite lookup_insert_ne by (by apply temp_path_not_kept). auto.
    - intros m tr d H x Hx. rewrite lookup_insert_ne by (by apply temp_path_not_kept). auto.
    - intros m tr arc c Ha H x Hx. rewrite lookup_insert_ne by (by apply staged_not_kept). auto.
    - intros m tr H x Hx. rewrite lookup_rmtree by (by apply kept_not_under_tmp). auto.
    - intros m tr H x Hx. rewrite lookup_delete_ne by (by apply temp_path_not_kept). auto.
    - intros m tr H. rewrite installed_snoc, H. reflexivity.
    - intros m tr H. rewrite installed_snoc, H. reflexivity.
    - intros m tr src c _ _. rewrite installed_snoc. simpl.
      by rewrite String.eqb_refl, orb_true_r.
    - intros m tr x _ H. rewrite installed_snoc, H. reflexivity.
    - intros m tr x d _ H. rewrite installed_snoc, H. reflexivity.
    - intros m tr h H. exact H.
    - intros x Hx. reflexivity. }
  destruct H as [H | H]; [|unfold K in H; congruence].
  unfold target_path, etag_path, last_modified_path.
  repeat split; apply H; unfold kept_name; auto.
Qed.

(** The download is not a zip file: [BadZipfile] is raised and the
    dataset and its tag are those of [Scenario.files]. *)
Lemma failure_before_rename_leaves_files_witness :
  let s' := (ensure_latest Scenario.not_a_zip (Some "/data") (start Scenario.files)).2 in
  fs s' !! target_path (Some "/data") = Scenario.files !! target_path (Some "/data")
  /\ fs s' !! etag_path (Some "/data") = Scenario.files !! etag_path (Some "/data")
  /\ fs s' !! last_modified_path (Some "/data")
     = Scenario.files !! last_modified_path (Some "/data").
Proof.
  intros s'.
  apply (failure_before_rename_leaves_files Scenario.not_a_zip (Some "/data")
           Scenario.files BadZipfile s'); vm_compute; reflexivity.
Defined.

(** ** After the rename *)

Lemma save_tokens_outcome w tdir ne nl s :
  (save_tokens w tdir ne nl s).1 = token_outcome w tdir.
Proof.
  unfold save_tokens, token_outcome, open_w, write, bind, sys, emit, logger, ret, raise.
  cbv zeta.
  repeat (destruct (fails w _); [reflexivity|]). reflexivity.
Qed.

Lemma pending_settled tdir {A} (goal r : outcome A) m tr :
  pending tdir m tr -> settled tdir goal r m tr.
Proof. unfold pending, settled. congruence. Qed.

Lemma pending_snoc tdir m m' tr e :
  is_install tdir e = false -> pending tdir m tr -> pending tdir m' (tr ++ [e]).
Proof. unfold pending. intros He H. by rewrite installed_snoc, H, He. Qed.

Section AfterRename.
Context (w : env) (tdir : string).
Local Abbreviation tp := (temp_path w).
Local Abbreviation xd := (OsPath.join tdir "tmp").

Hypothesis rmtree_quiet :
  fails w SysRmtree = None \/ fails w SysRmtree = Some OSError.
Hypothesis unlink_ok : fails w SysUnlink = None.

Lemma erase_quiet {A} (goal r : outcome A) :
  triple (settled tdir goal r) (erase_extracted_dir w xd)
    (fun rf f tr =>
       settled tdir goal (match rf with Ret _ => r | Raise e => Raise e end) f tr).
Proof.
  intros s H. unfold erase_extracted_dir, try_except, rmtree, bind, sys, emit, logger, ret, raise.
  destruct rmtree_quiet as [-> | ->]; simpl.
  - intros Hi. apply H. by rewrite installed_snoc, orb_false_r in Hi.
  - exact H.
Qed.

Lemma cleanup_quiet {A} (goal r : outcome A) :
  triple (settled tdir goal r) (cleanup_stray_file w tp)
    (fun rf f tr =>
       settled tdir goal (match rf with Ret _ => r | Raise e => Raise e end) f tr).
Proof.
  intros s H.
  unfold cleanup_stray_file, os_path_exists, os_unlink, bind, get_fs, sys, emit, logger,
    ret, raise.
  destruct (bool_decide _); simpl; [|exact H].
  rewrite unlink_ok. simpl. intros Hi. apply H. by rewrite installed_snoc, orb_false_r in Hi.
Qed.

Lemma install_settled ne nl :
  triple (pending tdir) (install w tdir xd tp ne nl) (settled tdir (token_outcome w tdir)).
Proof.
  unfold install.
  eapply (triple_bind (pending tdir) _ _ (fun _ => pending tdir)).
  { apply triple_of_maps.
    unfold extract_entry, Zipfile.ZipFile, Zipfile.extract. repeat pstep.
    intros m tr. by apply pending_snoc. }
  { intros e f tr. apply pending_settled. }
  intros name. cbv zeta.
  intros s H. unfold bind at 1. unfold os_rename, bind, sys, get_fs, ret, raise, emit.
  destruct (fails w SysRename); [by apply pending_settled|].
  destruct (fs s !! _) as [c|]; [|by apply pending_settled].
  intros _. apply save_tokens_outcome.
Qed.

Lemma fetch_settled resp :
  triple (pending tdir) (fetch_new_data w tdir resp) (settled tdir (fetch_goal w tdir)).
Proof.
  unfold fetch_new_data.
  eapply (triple_bind (pending tdir) _ _ (fun _ => pending tdir));
    [apply triple_of_maps, preserves_logger
    | intros e f tr; apply pending_settled | intros _].
  eapply (triple_bind (pending tdir) _ _ (fun _ => pending tdir));
    [apply triple_of_maps, preserves_getitem
    | intros e f tr; apply pending_settled | intros ne].
  eapply (triple_bind (pending tdir) _ _ (fun _ => pending tdir));
    [apply triple_of_maps, preserves_getitem
    | intros e f tr; apply pending_settled | intros nl].
  apply triple_bind_mkstemp; [intros e f tr; apply pending_settled|].
  eapply (triple_bind _ _ _ (settled tdir (token_outcome w tdir))).
  2:{ intros e f tr H Hi. specialize (H Hi). unfold fetch_goal. by rewrite <- H. }
  2:{ intros u. apply triple_ret. intros f tr H Hi. specialize (H Hi).
      unfold fetch_goal. by rewrite <- H. }
  eapply triple_try_finally; [|intros r; apply cleanup_quiet].
  eapply (triple_bind _ _ _ (fun _ => pending tdir)).
  - apply triple_of_maps.
    apply (maps_try_finally _ (pending tdir) (pending tdir)); [|apply preserves_sys].
    intros s (f0 & tr0 & H0 & _ & Hf & Ht).
    apply (preserves_copy_body w (pending tdir)).
    + intros m tr d. by apply pending_snoc.
    + rewrite Ht. by apply (pending_snoc tdir f0).
  - intros e f tr. apply pending_settled.
  - intros _. eapply triple_try_finally; [apply install_settled | intros r; apply erase_quiet].
Qed.
End AfterRename.

(** ** The order of the writes *)








(** ** Where data is staged *)







(** ** What the cleanup leaves *)

Section Residue.
Context (w : env) (tdir : string).
Local Abbreviation tp := (temp_path w).
Local Abbreviation xd := (OsPath.join tdir "tmp").

Hypothesis rmtree_ok : fails w SysRmtree = None.
Hypothesis unlink_ok : fails w SysUnlink = None.

Lemma no_residue_staged m tr : no_residue w tdir m tr -> staged_only_temp w tdir m tr.
Proof. intros [H _] p Hp _. by apply H. Qed.

Lemma maps_erase_clean (P : gmap string string -> list event -> Prop) :
  maps P (staged_only_temp w tdir) (erase_extracted_dir w xd).
Proof.
  intros s _. unfold erase_extracted_dir, try_except, rmtree, bind, sys, emit, logger, ret.
  rewrite rmtree_ok. simpl. intros p Hp _.
  apply map_lookup_filter_None. right. intros c _. simpl. rewrite Hp. discriminate.
Qed.

Lemma maps_cleanup_clean :
  maps (staged_only_temp w tdir) (no_residue w tdir) (cleanup_stray_file w tp).
Proof.
  intros s H.
  unfold cleanup_stray_file, os_path_exists, os_unlink, bind, get_fs, sys, emit, logger, ret.
  destruct (bool_decide (is_Some (fs s !! tp))) eqn:E; simpl.
  - rewrite unlink_ok. simpl. split; [|apply lookup_delete_eq].
    intros p Hp. destruct (decide (p = tp)) as [-> | Hne]; [apply lookup_delete_eq|].
    rewrite lookup_delete_ne by done. by apply H.
  - apply bool_decide_eq_false in E.
    assert (Hn : fs s !! tp = None) by (destruct (fs s !! tp); [exfalso; eauto | done]).
    split; [|exact Hn].
    intros p Hp. destruct (decide (p = tp)) as [-> | Hne]; [exact Hn | by apply H].
Qed.

Lemma staged_only_temp_write m tr c : staged_only_temp w tdir m tr ->
  forall tr', staged_only_temp w tdir (<[tp := c]> m) tr'.
Proof. intros H tr' p Hp Hne. rewrite lookup_insert_ne by done. by apply H. Qed.

Lemma maps_fetch_no_residue resp :
  preserves (no_residue w tdir) (fetch_new_data w tdir resp).
Proof.
  unfold fetch_new_data.
  pstep; [pstep|]. pstep; [pstep|]. pstep; [pstep|].
  apply maps_bind_mkstemp; [auto|].
  apply (maps_bind _ _ (no_residue w tdir)); [| auto | intros _; apply preserves_ret].
  apply (maps_try_finally _ _ (staged_only_temp w tdir)); [|apply maps_cleanup_clean].
  apply (maps_bind _ _ (staged_only_temp w tdir)); [| auto |].
  - apply (maps_try_finally _ _ (staged_only_temp w tdir)); [|apply preserves_sys].
    intros s (f0 & tr0 & H0 & _ & Hf & Ht).
    apply (preserves_copy_body w (staged_only_temp w tdir)).
    + intros m tr d H. by apply staged_only_temp_write with (tr := tr).
    + rewrite Hf. apply staged_only_temp_write with (tr := tr0).
      by apply no_residue_staged.
  - intros _. apply (maps_try_finally _ _ (fun _ _ => True)); [done|].
    apply maps_erase_clean.
Qed.
End Residue.

(** The inner [finally]: an OSError of [rmtree] is logged and swallowed. *)
Lemma erase_extracted_dir_OSError w dir s :
  fails w SysRmtree = Some OSError ->
  erase_extracted_dir w dir s = (Ret tt, with_log s [(ERROR, "Error erasing %s")]).
Proof.
  intros H. unfold erase_extracted_dir, try_except, rmtree, bind, sys, raise, logger.
  rewrite H. reflexivity.
Qed.

(** ** The outcome of a call *)

(** How a call of [ensure_latest] on the file system [m0] can go. *)
Lemma ensure_latest_cases w td m0 r s' :
  ensure_latest w td (start m0) = (r, s') ->
  (exists e, r = Raise e /\ fs s' = m0 /\ trace s' = [])
  \/ exists etag lm l,
       stored w m0 (stored_path w td "etag") = Ret etag
       /\ stored w m0 (stored_path w td "last_modified") = Ret lm
       /\ let headers := token_headers etag lm in
          let s1 := {| fs := m0; trace := [Request headers]; log := l |} in
          match reply w headers with
          | Raise e => r = Raise e /\ fs s' = m0 /\ trace s' = [Request headers]
          | Ret resp =>
              if (code resp =? 304)%Z
              then r = Ret false /\ fs s' = m0 /\ trace s' = [Request headers]
              else (r, s') = fetch_new_data w (target_dir_of td) resp s1
          end.
Proof.
  intros Hrun. destruct (ensure_latest_run w td (start m0)) as [l Hl].
  rewrite Hrun in Hl. simpl fs in Hl.
  destruct (stored w m0 (stored_path w td "etag")) as [etag | e] eqn:E1.
  2:{ left. exists e. by injection Hl as -> ->. }
  destruct (stored w m0 (stored_path w td "last_modified")) as [lm | e] eqn:E2.
  2:{ left. exists e. by injection Hl as -> ->. }
  right. exists etag, lm, l. split; [reflexivity|]. split; [reflexivity|].
  cbv zeta in *.
  destruct (reply w (token_headers etag lm)) as [resp | e].
  - destruct (code resp =? 304)%Z; simpl in Hl.
    + by injection Hl as -> ->.
    + exact Hl.
  - by injection Hl as -> ->.
Qed.

Lemma ensure_latest_settled w td m0 r s' :
  ensure_latest w td (start m0) = (r, s') ->
  installed (target_dir_of td) (trace s') = true ->
  fails w SysRmtree = None \/ fails w SysRmtree = Some OSError ->
  fails w SysUnlink = None ->
  r = fetch_goal w (target_dir_of td).
Proof.
  intros Hrun Hi Hrm Hul.
  destruct (ensure_latest_cases w td m0 r s' Hrun)
    as [(e & _ & _ & Ht) | (etag & lm & l & _ & _ & H)].
  { rewrite Ht in Hi. discriminate. }
  cbv zeta in H. destruct (reply w _) as [resp | e].
  2:{ destruct H as (_ & _ & Ht). rewrite Ht in Hi. discriminate. }
  destruct (code resp =? 304)%Z.
  { destruct H as (_ & _ & Ht). rewrite Ht in Hi. discriminate. }
  pose proof (fetch_settled w (target_dir_of td) Hrm Hul resp
                {| fs := m0; trace := [Request (token_headers etag lm)]; log := l |}) as Hs.
  rewrite <- H in Hs. simpl in Hs. apply Hs; [reflexivity | exact Hi].
Qed.

(** The new dataset is in place, [vehicles.etag] cannot be opened for
    writing: the call raises [IOError] instead of returning True. *)
Lemma success_after_rename_counterexample :
  let '(r, s') :=
    ensure_latest Scenario.etag_unwritable (Some "/data") (start Scenario.files) in
  r = Raise IOError
  /\ trace s' !! 4 = Some (Rename "/data/tmp/anything.csv" "/data/vehicles.csv")
  /\ fs s' !! "/data/vehicles.csv" = Some "new"
  /\ fs s' !! "/data/vehicles.etag" = Some "abc".
Proof. vm_compute. repeat split. Qed.

(** C4, amended. Once the extracted file has been renamed over the
    dataset, and provided the cleanup does not raise ([rmtree] succeeds
    or fails with an OSError, which is logged; [os.unlink] succeeds),
    the call returns True exactly when the four writes of the two token
    files succeed; otherwise the first of them to fail is raised to the
    caller. *)
Theorem outcome_after_rename w td m0 r s' :
  ensure_latest w td (start m0) = (r, s') ->
  installed (target_dir_of td) (trace s') = true ->
  fails w SysRmtree = None \/ fails w SysRmtree = Some OSError ->
  fails w SysUnlink = None ->
  r = match token_outcome w (target_dir_of td) with
      | Ret _ => Ret true
      | Raise e => Raise e
      end.
Proof. apply ensure_latest_settled. Qed.

(** [rmtree] fails with an OSError after the rename: True is returned. *)
Lemma outcome_after_rename_witness :
  (ensure_latest Scenario.rmtree_fails (Some "/data") (start Scenario.files)).1 = Ret true.
Proof.
  apply (outcome_after_rename Scenario.rmtree_fails (Some "/data") Scenario.files _
           (ensure_latest Scenario.rmtree_fails (Some "/data") (start Scenario.files)).2).
  - vm_compute; reflexivity.
  - vm_compute; reflexivity.
  - right. reflexivity.
  - reflexivity.
Defined.

(** ** The two [finally] blocks *)

(** Everything has succeeded, tokens included, and [os.unlink] of the
    temporary file fails: the OSError is raised to the caller, no
    message is logged for it, and the temporary file stays. *)
Lemma cleanup_failure_counterexample :
  let '(r, s') :=
    ensure_latest Scenario.unlink_fails (Some "/data") (start Scenario.files) in
  r = Raise OSError
  /\ fs s' !! "/data/vehicles.csv" = Some "new"
  /\ fs s' !! "/data/vehicles.etag" = Some "xyz"
  /\ fs s' !! "/data/vehicles.last_modified" = Some Scenario.EPOCH
  /\ fs s' !! "/tmp/tmpabcdef" = Some "archive"
  /\ last (log s') = Some (INFO, "Erased %s").
Proof. vm_compute. repeat split. Qed.

Lemma files_no_residue w : no_residue w "/data" Scenario.files [].
Proof.
  assert (Hk : forall p, OsPath.is_under (OsPath.join "/data" "tmp") p = true \/ p = temp_path w ->
                 p <> "/data/vehicles.csv" /\ p <> "/data/vehicles.etag").
  { intros p [Hp | ->].
    - split; intros ->; vm_compute in Hp; discriminate.
    - split; [apply (temp_path_not_kept w "/data" "vehicles.csv")
             | apply (temp_path_not_kept w "/data" "vehicles.etag")]; unfold kept_name; auto. }
  assert (Hl : forall p, p <> "/data/vehicles.csv" /\ p <> "/data/vehicles.etag" ->
                 Scenario.files !! p = None).
  { intros p [H1 H2]. unfold Scenario.files.
    rewrite lookup_insert_ne by done. rewrite lookup_insert_ne by done. apply lookup_empty. }
  split; [intros p Hp|]; apply Hl, Hk; auto.
Qed.

Lemma getitem_run hs name s :
  getitem hs name s
  = (match lookup_header hs name with Some v => Ret v | None => Raise KeyError end, s).
Proof.
  induction hs as [|[k v] hs IH]; simpl; [reflexivity|].
  destruct (String.eqb _ _); [reflexivity | exact IH].
Qed.

(** ** Outcomes under a silent [finally] *)

Lemma bind_same_prefix {A B} (m : M A) (k1 k2 : A -> M B) s :
  (forall a s1, (k1 a s1).1 = (k2 a s1).1) -> (bind m k1 s).1 = (bind m k2 s).1.
Proof. intros H. unfold bind. destruct (m s) as [[a | e] s1]; [apply H | reflexivity]. Qed.

Lemma bind_ret_outcome {A B} (m : M A) (b : B) s :
  (bind m (fun _ => ret b) s).1
  = match (m s).1 with Ret _ => Ret b | Raise e => Raise e end.
Proof. unfold bind. by destruct (m s) as [[a | e] s1]. Qed.

Lemma try_finally_quiet {A} (body : M A) (fin : M unit) s :
  (forall s1, (fin s1).1 = Ret tt) -> (try_finally body fin s).1 = (body s).1.
Proof.
  intros H. unfold try_finally. destruct (body s) as [r s1]. specialize (H s1).
  destruct (fin s1) as [[u | e] s2]; [reflexivity | discriminate].
Qed.

Lemma cleanup_stray_file_quiet w path s :
  fails w SysUnlink = None -> (cleanup_stray_file w path s).1 = Ret tt.
Proof.
  intros H. unfold cleanup_stray_file, os_path_exists, os_unlink, bind, get_fs, sys, emit,
    logger, ret.
  destruct (bool_decide _); [rewrite H|]; reflexivity.
Qed.

Lemma erase_extracted_dir_quiet w dir s :
  fails w SysRmtree = None \/ fails w SysRmtree = Some OSError ->
  (erase_extracted_dir w dir s).1 = Ret tt.
Proof.
  intros [H | H]; unfold erase_extracted_dir, try_except, rmtree, bind, sys, emit, logger,
    ret, raise; rewrite H; reflexivity.
Qed.

(** ** An [rmtree] that fails with an OSError *)

Lemma copy_body_rmtree_succeeds w reads n path :
  copy_body (rmtree_succeeds w) reads n path = copy_body w reads n path.
Proof.
  revert n. induction reads as [|[e | chunk] reads IH]; intros n; simpl; [done.. |].
  by rewrite IH.
Qed.

Lemma bind_mkstemp_same {B} w (k1 k2 : string -> M B) s :
  (forall s1, (k1 (temp_path w) s1).1 = (k2 (temp_path w) s1).1) ->
  (bind (Tempfile.mkstemp w) k1 s).1 = (bind (Tempfile.mkstemp w) k2 s).1.
Proof.
  intros H. unfold bind, Tempfile.mkstemp, bind, sys, get_fs, ret, raise, emit.
  cbv zeta. fold (temp_path w).
  destruct (fails w SysMkstemp); [reflexivity|].
  destruct (fs s !! temp_path w); [reflexivity | apply H].
Qed.

Lemma try_finally_same_outcome {A} (b1 b2 : M A) (fin : M unit) s :
  (b1 s).1 = (b2 s).1 -> (fin (b1 s).2).1 = (fin (b2 s).2).1 ->
  (try_finally b1 fin s).1 = (try_finally b2 fin s).1.
Proof.
  unfold try_finally. destruct (b1 s) as [r1 s1], (b2 s) as [r2 s2]. simpl.
  intros -> Hf. destruct (fin s1) as [[u1 | e1] t1], (fin s2) as [[u2 | e2] t2];
    simpl in *; congruence.
Qed.

Lemma cleanup_stray_file_outcome w path s1 s2 :
  fs s1 !! path = fs s2 !! path ->
  (cleanup_stray_file w path s1).1 = (cleanup_stray_file w path s2).1.
Proof.
  intros H. unfold cleanup_stray_file, os_path_exists, os_unlink, bind, get_fs, sys, emit,
    logger, ret, raise.
  rewrite H. destruct (bool_decide _); [|reflexivity].
  destruct (fails w SysUnlink); reflexivity.
Qed.

Lemma fetch_new_data_rmtree_quiet w tdir resp s :
  fails w SysRmtree = Some OSError ->
  fails w SysUnlink = None
  \/ OsPath.is_under (OsPath.join tdir "tmp") (temp_path w) = false ->
  (fetch_new_data w tdir resp s).1 = (fetch_new_data (rmtree_succeeds w) tdir resp s).1.
Proof.
  intros Hrm Hul. unfold fetch_new_data. cbv zeta.
  apply bind_same_prefix. intros _ s1.
  apply bind_same_prefix. intros ne s2.
  apply bind_same_prefix. intros nl s3.
  change (Tempfile.mkstemp (rmtree_succeeds w)) with (Tempfile.mkstemp w).
  apply bind_mkstemp_same. intros s4.
  rewrite !bind_ret_outcome.
  rewrite copy_body_rmtree_succeeds.
  change (sys (rmtree_succeeds w) SysFdClose) with (sys w SysFdClose).
  change (install (rmtree_succeeds w)) with (install w).
  change (cleanup_stray_file (rmtree_succeeds w)) with (cleanup_stray_file w).
  enough (E : (try_finally
                 (try_finally (copy_body w (reads resp) 0 (temp_path w)) (sys w SysFdClose) >>
                  try_finally (install w tdir (OsPath.join tdir "tmp") (temp_path w) ne nl)
                    (erase_extracted_dir w (OsPath.join tdir "tmp")))
                 (cleanup_stray_file w (temp_path w)) s4).1
              = (try_finally
                 (try_finally (copy_body w (reads resp) 0 (temp_path w)) (sys w SysFdClose) >>
                  try_finally (install w tdir (OsPath.join tdir "tmp") (temp_path w) ne nl)
                    (erase_extracted_dir (rmtree_succeeds w) (OsPath.join tdir "tmp")))
                 (cleanup_stray_file w (temp_path w)) s4).1)
    by (by rewrite E).
  apply try_finally_same_outcome.
  - apply bind_same_prefix. intros _ s5.
    rewrite !try_finally_quiet; [reflexivity | |].
    + intros s6. apply erase_extracted_dir_quiet. by left.
    + intros s6. apply erase_extracted_dir_quiet. by right.
  - destruct Hul as [Hul | Hul].
    { by rewrite !cleanup_stray_file_quiet. }
    apply cleanup_stray_file_outcome.
    unfold bind. destruct (try_finally (copy_body _ _ _ _) _ s4) as [[u | e] s5]; [|reflexivity].
    unfold try_finally. destruct (install _ _ _ _ _ _ _) as [ri si].
    rewrite (erase_extracted_dir_OSError w _ si Hrm).
    unfold erase_extracted_dir, try_except, rmtree, bind, sys, emit, logger, ret. simpl.
    by rewrite lookup_rmtree.
Qed.

Lemma ensure_latest_rmtree_quiet w td s :
  fails w SysRmtree = Some OSError ->
  fails w SysUnlink = None
  \/ OsPath.is_under (OsPath.join (target_dir_of td) "tmp") (temp_path w) = false ->
  (ensure_latest w td s).1 = (ensure_latest (rmtree_succeeds w) td s).1.
Proof.
  intros Hrm Hul.
  assert (E : forall w, ensure_latest w td =
    (let* etag := load_etag (stream_opener_of w td) in
     let* last_modified := load_last_modified (stream_opener_of w td) in
     let* response := get_epa_updates w etag last_modified in
     if negb (code response =? 304)%Z then fetch_new_data w (target_dir_of td) response
     else logger INFO NOT_MODIFIED_MSG >> ret false)).
  { intros w0. destruct td; reflexivity. }
  rewrite !E. clear E.
  change (stream_opener_of (rmtree_succeeds w) td) with (stream_opener_of w td).
  apply bind_same_prefix. intros etag s1.
  apply bind_same_prefix. intros lm s2.
  change (get_epa_updates (rmtree_succeeds w)) with (get_epa_updates w).
  apply bind_same_prefix. intros resp s3.
  destruct (negb _); [by apply fetch_new_data_rmtree_quiet | reflexivity].
Qed.

(** ** The temporary file *)

Lemma maps_cleanup_gone w (P : gmap string string -> list event -> Prop) :
  fails w SysUnlink = None ->
  maps P (fun m _ => m !! temp_path w = None) (cleanup_stray_file w (temp_path w)).
Proof.
  intros Hul s _.
  unfold cleanup_stray_file, os_path_exists, os_unlink, bind, get_fs, sys, emit, logger, ret.
  destruct (bool_decide (is_Some (fs s !! temp_path w))) eqn:E; simpl.
  - rewrite Hul. simpl. apply lookup_delete_eq.
  - apply bool_decide_eq_false in E.
    destruct (fs s !! temp_path w); [exfalso; eauto | done].
Qed.

Lemma preserves_fetch_temp_gone w tdir resp :
  fails w SysUnlink = None ->
  preserves (fun m _ => m !! temp_path w = None) (fetch_new_data w tdir resp).
Proof.
  intros Hul. unfold fetch_new_data.
  pstep; [pstep|]. pstep; [pstep|]. pstep; [pstep|].
  apply maps_bind_mkstemp; [auto|].
  apply (maps_bind _ _ (fun m _ => m !! temp_path w = None));
    [| auto | intros _; apply preserves_ret].
  apply (maps_try_finally _ _ (fun _ _ => True)); [by intros s _ | by apply maps_cleanup_gone].
Qed.

(** The temporary file is gone whenever [os.unlink] does not fail. *)
Lemma ensure_latest_temp_gone w td m0 r s' :
  ensure_latest w td (start m0) = (r, s') ->
  fails w SysUnlink = None -> m0 !! temp_path w = None ->
  fs s' !! temp_path w = None.
Proof.
  intros Hrun Hul H0.
  destruct (ensure_latest_cases w td m0 r s' Hrun)
    as [(e & _ & Hf & Ht) | (etag & lm & l & _ & _ & H)].
  { by rewrite Hf. }
  cbv zeta in H. destruct (reply w _) as [resp | e].
  2:{ destruct H as (_ & Hf & _). by rewrite Hf. }
  destruct (code resp =? 304)%Z.
  { destruct H as (_ & Hf & _). by rewrite Hf. }
  pose proof (preserves_fetch_temp_gone w (target_dir_of td) resp Hul
                {| fs := m0; trace := [Request (token_headers etag lm)]; log := l |}) as Hs.
  rewrite <- H in Hs. by apply Hs.
Qed.

(** ** The staging directory when nothing was extracted *)

Lemma nothing_extracted_snoc tr e :
  nothing_extracted (tr ++ [e]) -> nothing_extracted tr.
Proof. intros H p Hp. apply (H p), in_or_app. by left. Qed.

Lemma ensure_latest_nothing_staged w td m0 r s' :
  ensure_latest w td (start m0) = (r, s') ->
  staged_only_temp w (target_dir_of td) m0 [] ->
  nothing_extracted (trace s') ->
  staged_only_temp w (target_dir_of td) (fs s') (trace s').
Proof.
  intros Hrun H0 Hne.
  set (tdir := target_dir_of td) in *.
  pose (J := fun (m : gmap string string) (tr : list event) =>
              nothing_extracted tr -> staged_only_temp w tdir m tr).
  assert (Hkept : forall x p, kept_name x ->
            OsPath.is_under (OsPath.join tdir "tmp") p = true -> p <> OsPath.join tdir x).
  { intros x p Hx Hp ->. rewrite kept_not_under_tmp in Hp by done. discriminate. }
  assert (H : J (fs s') (trace s') \/ J (fs s') (trace s')).
  { pose proof (maps_ensure_latest w tdir J J) as Hm.
    change s' with ((r, s').2). rewrite <- Hrun.
    apply Hm; try reflexivity; unfold J; clear - Hkept H0.
    - intros m tr _ H Hn p Hp Hne. rewrite lookup_insert_ne by done.
      by apply (H (nothing_extracted_snoc _ _ Hn)).
    - intros m tr d H Hn p Hp Hne. rewrite lookup_insert_ne by done.
      by apply (H (nothing_extracted_snoc _ _ Hn)).
    - intros m tr arc c _ _ Hn. exfalso.
      apply (Hn (OsPath.join (OsPath.join tdir "tmp") arc)), in_or_app. right. by left.
    - intros m tr H Hn p Hp Hne. apply map_lookup_filter_None. left.
      by apply (H (nothing_extracted_snoc _ _ Hn)).
    - intros m tr H Hn p Hp Hne. rewrite lookup_delete_ne by done.
      by apply (H (nothing_extracted_snoc _ _ Hn)).
    - intros m tr H Hn p Hp Hne. apply map_lookup_filter_None. left.
      by apply (H (nothing_extracted_snoc _ _ Hn)).
    - intros m tr H Hn p Hp Hne. rewrite lookup_delete_ne by done.
      by apply (H (nothing_extracted_snoc _ _ Hn)).
    - intros m tr src c H _ Hn p Hp Hne.
      rewrite lookup_insert_ne by (symmetry; apply (Hkept "vehicles.csv"); [by left | done]).
      destruct (decide (p = src)) as [-> | Hs]; [apply lookup_delete_eq|].
      rewrite lookup_delete_ne by done. by apply (H (nothing_extracted_snoc _ _ Hn)).
    - intros m tr x Hx H Hn p Hp Hne.
      rewrite lookup_insert_ne
        by (symmetry; apply (Hkept x); [destruct Hx as [-> | ->]; unfold kept_name; auto | done]).
      by apply (H (nothing_extracted_snoc _ _ Hn)).
    - intros m tr x d Hx H Hn p Hp Hne.
      rewrite lookup_insert_ne
        by (symmetry; apply (Hkept x); [destruct Hx as [-> | ->]; unfold kept_name; auto | done]).
      by apply (H (nothing_extracted_snoc _ _ Hn)).
    - intros m tr h H Hn. by apply (H (nothing_extracted_snoc _ _ Hn)).
    - intros _. exact H0. }
  destruct H as [H | H]; by apply H.
Qed.

(** ** A failure of [os.unlink] *)

Lemma fetch_new_data_unlink_raises w tdir resp s r s' e :
  fails w SysUnlink = Some e ->
  fetch_new_data w tdir resp s = (r, s') ->
  fs s !! temp_path w = None -> is_Some (fs s' !! temp_path w) ->
  r = Raise e.
Proof.
  intros Hul Hrun H0 Hex. revert Hrun.
  unfold fetch_new_data, bind at 1. cbn [logger].
  unfold bind at 1. rewrite getitem_run.
  destruct (lookup_header (info resp) "ETag") as [ne|].
  2:{ intros [= <- <-]. simpl in Hex. rewrite H0 in Hex. by destruct Hex. }
  unfold bind at 1. rewrite getitem_run.
  destruct (lookup_header (info resp) LAST_MODIFIED) as [nl|].
  2:{ intros [= <- <-]. simpl in Hex. rewrite H0 in Hex. by destruct Hex. }
  unfold bind at 1, Tempfile.mkstemp, bind at 1, sys. cbv zeta. fold (temp_path w).
  destruct (fails w SysMkstemp).
  { intros [= <- <-]. simpl in Hex. rewrite H0 in Hex. by destruct Hex. }
  unfold ret at 1, bind at 1, get_fs. cbn [fs]. rewrite H0.
  unfold bind at 1, emit, ret at 1. cbn [fs trace log].
  unfold bind at 1, try_finally at 1.
  destruct (bind _ _ _) as [rx sx].
  unfold cleanup_stray_file, os_path_exists, bind at 1, get_fs, bind at 1, ret at 1.
  destruct (bool_decide (is_Some (fs sx !! temp_path w))) eqn:E.
  - unfold os_unlink, bind at 1, bind at 1, sys. rewrite Hul. unfold raise.
    by intros [= <- <-].
  - apply bool_decide_eq_false in E. unfold ret at 1.
    destruct rx; unfold ret; intros [= <- <-]; contradiction.
Qed.

(** ** The log of the inner [finally] *)

Lemma copy_body_returns w reads n path body s :
  (forall k, fails w (SysFdWrite k) = None) -> received reads = Ret body ->
  (copy_body w reads n path s).1 = Ret tt.
Proof.
  intros Hw. revert n body s.
  induction reads as [|[e | chunk] reads IH]; intros n body s Hr; simpl in *;
    [reflexivity | discriminate |].
  destruct (0 <? String.length chunk)%nat; [|reflexivity].
  destruct (received reads) as [more | e] eqn:E; [|discriminate].
  unfold bind at 1, sys. rewrite Hw. unfold ret at 1, bind at 1, emit.
  by apply (IH _ more).
Qed.

Lemma cleanup_stray_file_log w path s x :
  In x (log s) -> In x (log (cleanup_stray_file w path s).2).
Proof.
  intros H.
  unfold cleanup_stray_file, os_path_exists, os_unlink, bind, get_fs, sys, emit, logger,
    ret, raise.
  destruct (bool_decide _); [|exact H].
  destruct (fails w SysUnlink); simpl; [exact H|].
  apply in_or_app. by left.
Qed.

Lemma fetch_new_data_logs_rmtree w tdir resp body s r s' :
  fails w SysRmtree = Some OSError ->
  (forall k, fails w (SysFdWrite k) = None) -> fails w SysFdClose = None ->
  received (reads resp) = Ret body ->
  fetch_new_data w tdir resp s = (r, s') ->
  ~ In (Mkstemp (temp_path w)) (trace s) -> In (Mkstemp (temp_path w)) (trace s') ->
  In (ERROR, "Error erasing %s") (log s').
Proof.
  intros Hrm Hw Hc Hb Hrun Hn Hin. revert Hrun.
  unfold fetch_new_data, bind at 1. cbn [logger].
  unfold bind at 1. rewrite getitem_run.
  destruct (lookup_header (info resp) "ETag") as [ne|].
  2:{ intros [= <- <-]. contradiction. }
  unfold bind at 1. rewrite getitem_run.
  destruct (lookup_header (info resp) LAST_MODIFIED) as [nl|].
  2:{ intros [= <- <-]. contradiction. }
  unfold bind at 1, Tempfile.mkstemp, bind at 1, sys. cbv zeta. fold (temp_path w).
  destruct (fails w SysMkstemp).
  { intros [= <- <-]. contradiction. }
  unfold ret at 1, bind at 1, get_fs. cbn [fs].
  destruct (fs s !! temp_path w).
  { intros [= <- <-]. contradiction. }
  unfold bind at 1, emit, ret at 1. cbn [fs trace log].
  unfold bind at 1, try_finally at 1, bind at 1, try_finally at 1.
  pose proof (copy_body_returns w (reads resp) 0 (temp_path w) body
    {| fs := <[temp_path w:=""]> (fs s); trace := trace s ++ [Mkstemp (temp_path w)];
       log := log s ++ [(INFO, "Response code says we have new data")] |} Hw Hb) as Hcb.
  destruct (copy_body _ _ _ _ _) as [rc sc]. simpl in Hcb. subst rc.
  rewrite Hc. unfold ret at 1.
  unfold try_finally at 1.
  destruct (install _ _ _ _ _ _ _) as [ri si].
  rewrite (erase_extracted_dir_OSError w _ si Hrm).
  assert (Hl : In (ERROR, "Error erasing %s")
                 (log (with_log si [(ERROR, "Error erasing %s")]))).
  { simpl. apply in_or_app. right. by left. }
  pose proof (cleanup_stray_file_log w (temp_path w) _ _ Hl) as Hcl.
  destruct (cleanup_stray_file _ _ _) as [[u | e] s6]; simpl in Hcl.
  - destruct ri; unfold ret; by intros [= <- <-].
  - by intros [= <- <-].
Qed.

Lemma ensure_latest_logs_rmtree w td m0 r s' :
  ensure_latest w td (start m0) = (r, s') ->
  fails w SysRmtree = Some OSError -> download_succeeds w ->
  In (Mkstemp (temp_path w)) (trace s') ->
  In (ERROR, "Error erasing %s") (log s').
Proof.
  intros Hrun Hrm (Hw & Hc & Hb) Hin.
  destruct (ensure_latest_cases w td m0 r s' Hrun)
    as [(e & _ & _ & Ht) | (etag & lm & l & _ & _ & H)].
  { rewrite Ht in Hin. destruct Hin. }
  cbv zeta in H. destruct (reply w _) as [resp | e] eqn:Er.
  2:{ destruct H as (_ & _ & Ht). rewrite Ht in Hin. by destruct Hin as [? | []]. }
  destruct (code resp =? 304)%Z.
  { destruct H as (_ & _ & Ht). rewrite Ht in Hin. by destruct Hin as [? | []]. }
  assert (Hr : exists body, received (reads resp) = Ret body).
  { unfold reply in Er. destruct (http w _) as [e0 | resp0] eqn:Eh; [discriminate|].
    destruct (Hb _ _ Eh) as [body Hbody]. exists body.
    destruct (_ && _); [by injection Er as <-|].
    destruct (code resp0 =? 304)%Z; [by injection Er as <- | discriminate]. }
  destruct Hr as [body Hbody].
  apply (fetch_new_data_logs_rmtree w (target_dir_of td) resp body
           {| fs := m0; trace := [Request (token_headers etag lm)]; log := l |} r s');
    try done.
  simpl. by intros [? | []].
Qed.

Lemma ensure_latest_unlink_raises w td m0 r s' e :
  ensure_latest w td (start m0) = (r, s') ->
  m0 !! temp_path w = None ->
  fails w SysUnlink = Some e -> is_Some (fs s' !! temp_path w) ->
  r = Raise e.
Proof.
  intros Hrun H0 Hul Hex.
  assert (Hno : fs s' = m0 -> False).
  { intros Hf. rewrite Hf, H0 in Hex. by destruct Hex. }
  destruct (ensure_latest_cases w td m0 r s' Hrun)
    as [(e0 & _ & Hf & _) | (etag & lm & l & _ & _ & H)]; [by destruct Hno|].
  cbv zeta in H. destruct (reply w _) as [resp | e0].
  2:{ destruct H as (_ & Hf & _). by destruct Hno. }
  destruct (code resp =? 304)%Z.
  { destruct H as (_ & Hf & _). by destruct Hno. }
  by apply (fetch_new_data_unlink_raises w (target_dir_of td) resp
              {| fs := m0; trace := [Request (token_headers etag lm)]; log := l |} r s').
Qed.

(** C9, amended. Take a call started with nothing below the staging
    directory and no file at the temporary path.  Whenever [os.unlink]
    does not fail, the temporary file is gone when the call ends,
    whatever else failed, and nothing is left below the staging
    directory either if [rmtree] did not fail or nothing had been
    extracted.  An OSError of [rmtree] is not escalated: provided
    [os.unlink] does not fail, or the temporary file is not below the
    staging directory, the outcome of the call is the one it has when
    [rmtree] succeeds; it is logged whenever the download was written
    to the temporary file.  A failure of [os.unlink] that leaves the
    temporary file behind is raised to the caller. *)
Theorem staging_cleanup w td m0 r s' :
  ensure_latest w td (start m0) = (r, s') ->
  no_residue w (target_dir_of td) m0 [] ->
  (fails w SysUnlink = None -> fs s' !! temp_path w = None)
  /\ (fails w SysUnlink = None ->
      fails w SysRmtree = None \/ nothing_extracted (trace s') ->
      no_residue w (target_dir_of td) (fs s') (trace s'))
  /\ (fails w SysRmtree = Some OSError ->
      fails w SysUnlink = None
      \/ OsPath.is_under (OsPath.join (target_dir_of td) "tmp") (temp_path w) = false ->
      r = (ensure_latest (rmtree_succeeds w) td (start m0)).1)
  /\ (fails w SysRmtree = Some OSError -> download_succeeds w ->
      In (Mkstemp (temp_path w)) (trace s') ->
      In (ERROR, "Error erasing %s") (log s'))
  /\ (forall e, fails w SysUnlink = Some e -> is_Some (fs s' !! temp_path w) ->
      r = Raise e).
Proof.
  intros Hrun H0. split; [|split; [|split; [|split]]].
  - intros Hul. apply (ensure_latest_temp_gone w td m0 r s' Hrun Hul), H0.
  - intros Hul [Hrm | Hne].
    + destruct (ensure_latest_cases w td m0 r s' Hrun)
        as [(e & _ & Hf & Ht) | (etag & lm & l & _ & _ & H)].
      { rewrite Hf. exact H0. }
      cbv zeta in H. destruct (reply w _) as [resp | e].
      2:{ destruct H as (_ & Hf & _). rewrite Hf. exact H0. }
      destruct (code resp =? 304)%Z.
      { destruct H as (_ & Hf & _). rewrite Hf. exact H0. }
      pose proof (maps_fetch_no_residue w (target_dir_of td) Hrm Hul resp
                    {| fs := m0; trace := [Request (token_headers etag lm)]; log := l |}) as Hs.
      rewrite <- H in Hs. by apply Hs.
    + pose proof (ensure_latest_temp_gone w td m0 r s' Hrun Hul (proj2 H0)) as Ht.
      pose proof (ensure_latest_nothing_staged w td m0 r s' Hrun
                    (no_residue_staged w (target_dir_of td) m0 [] H0) Hne) as Hs.
      split; [|exact Ht].
      intros p Hp. destruct (decide (p = temp_path w)) as [-> | Hd]; [exact Ht | by apply Hs].
  - intros Hrm Hul. rewrite <- (ensure_latest_rmtree_quiet w td (start m0) Hrm Hul).
    by rewrite Hrun.
  - by apply (ensure_latest_logs_rmtree w td m0 r s').
  - intros e Hul Hex. by apply (ensure_latest_unlink_raises w td m0 r s' e Hrun (proj2 H0)).
Qed.

(** The download is not a zip file and [rmtree] raises an OSError: the
    temporary file is gone, nothing is below [/data/tmp], the call
    raises as it does when [rmtree] succeeds, and the OSError is in the
    log. *)
Lemma staging_cleanup_witness :
  let w := Cases.not_a_zip_no_staging in
  let run := ensure_latest w (Some "/data") (start Scenario.files) in
  fs run.2 !! "/tmp/tmpabcdef" = None
  /\ no_residue w "/data" (fs run.2) (trace run.2)
  /\ run.1 = (ensure_latest (rmtree_succeeds w) (Some "/data") (start Scenario.files)).1
  /\ In (ERROR, "Error erasing %s") (log run.2).
Proof.
  intros w run.
  assert (Hrun : ensure_latest w (Some "/data") (start Scenario.files) = (run.1, run.2))
    by (vm_compute; reflexivity).
  assert (Hne : nothing_extracted (trace run.2)).
  { intros p Hp. vm_compute in Hp.
    destruct Hp as [Hp | [Hp | [Hp | [Hp | []]]]]; discriminate. }
  assert (Hd : download_succeeds w).
  { split; [reflexivity|]. split; [reflexivity|].
    intros headers resp [= <-]. by exists "archive". }
  assert (Hin : In (Mkstemp (temp_path w)) (trace run.2))
    by (vm_compute; right; left; reflexivity).
  destruct (staging_cleanup w (Some "/data") Scenario.files run.1 run.2 Hrun
              (files_no_residue w)) as (H1 & H2 & H3 & H4 & _).
  split; [exact (H1 eq_refl)|].
  split; [exact (H2 eq_refl (or_intror Hne))|].
  split; [exact (H3 eq_refl (or_introl eq_refl)) | exact (H4 eq_refl Hd Hin)].
Defined.

(** ** The reply to the conditional request *)

(** [fetch_new_data] sends no request of its own. *)
Lemma fetch_requests w tdir resp s h0 :
  (forall h, In (Request h) (trace s) -> h = h0) ->
  forall h, In (Request h) (trace (fetch_new_data w tdir resp s).2) -> h = h0.
Proof.
  intros H0.
  pose (J := fun (m : gmap string string) (tr : list event) =>
    forall h, In (Request h) tr -> h = h0).
  assert (Hsnoc : forall m m' tr e, is_request e = false -> J m tr -> J m' (tr ++ [e])).
  { intros m m' tr e He H h Hin. apply in_app_or in Hin as [Hin | [Heq | []]]; [by apply H|].
    subst e. discriminate He. }
  assert (H : J (fs (fetch_new_data w tdir resp s).2) (trace (fetch_new_data w tdir resp s).2)
            \/ J (fs (fetch_new_data w tdir resp s).2) (trace (fetch_new_data w tdir resp s).2)).
  { apply (maps_fetch_new_data w tdir J J); try exact H0; clear -Hsnoc;
      intros; (eapply Hsnoc; [reflexivity | eassumption]). }
  by destruct H.
Qed.

(** A call sends at most one request: the one built from the stored
    tokens, and its reply decides how the call goes on. *)
Lemma request_unique w td m0 r s' headers :
  ensure_latest w td (start m0) = (r, s') ->
  In (Request headers) (trace s') ->
  exists etag lm l,
    stored w m0 (stored_path w td "etag") = Ret etag
    /\ stored w m0 (stored_path w td "last_modified") = Ret lm
    /\ headers = token_headers etag lm
    /\ match reply w headers with
       | Raise e => r = Raise e /\ fs s' = m0 /\ trace s' = [Request headers]
       | Ret resp =>
           if (code resp =? 304)%Z
           then r = Ret false /\ fs s' = m0 /\ trace s' = [Request headers]
           else (r, s') = fetch_new_data w (target_dir_of td) resp
                            {| fs := m0; trace := [Request headers]; log := l |}
       end.
Proof.
  intros Hrun Hin.
  destruct (ensure_latest_cases w td m0 r s' Hrun)
    as [(e & _ & _ & Ht) | (etag & lm & l & E1 & E2 & H)].
  { rewrite Ht in Hin. destruct Hin. }
  cbv zeta in H. exists etag, lm, l.
  assert (headers = token_headers etag lm) as ->; [|by rewrite E1, E2].
  destruct (reply w _) as [resp | e].
  2:{ destruct H as (_ & _ & Ht). rewrite Ht in Hin. by destruct Hin as [[= <-] | []]. }
  destruct (code resp =? 304)%Z.
  { destruct H as (_ & _ & Ht). rewrite Ht in Hin. by destruct Hin as [[= <-] | []]. }
  apply (fetch_requests w (target_dir_of td) resp
           {| fs := m0; trace := [Request (token_headers etag lm)]; log := l |}).
  - simpl. intros h [[= <-] | []]. reflexivity.
  - rewrite <- H. exact Hin.
Qed.

(** C2. When the reply to the request of a call has status 304, the
    call returns False, the file system at its end is the one it
    started with, and the request is the only effect of the call: no
    file is created, written, renamed or removed, so neither the
    dataset nor a token file is written. *)
Theorem not_modified_no_writes w td m0 r s' headers resp :
  ensure_latest w td (start m0) = (r, s') ->
  In (Request headers) (trace s') ->
  http w headers = inr resp ->
  code resp = 304%Z ->
  r = Ret false /\ fs s' = m0 /\ trace s' = [Request headers].
Proof.
  intros Hrun Hin Hhttp Hcode.
  destruct (request_unique w td m0 r s' headers Hrun Hin) as (etag & lm & l & _ & _ & _ & H).
  unfold reply in H. rewrite Hhttp, Hcode in H. simpl in H. exact H.
Qed.

Lemma not_modified_no_writes_witness :
  let run := ensure_latest Scenario.not_modified (Some "/data") (start Scenario.files) in
  run.1 = Ret false /\ fs run.2 = Scenario.files
  /\ trace run.2 = [Request (token_headers (Some "abc") None)].
Proof.
  intros run.
  apply (not_modified_no_writes Scenario.not_modified (Some "/data") Scenario.files
           run.1 run.2 (token_headers (Some "abc") None) (Scenario.answer 304)).
  - vm_compute; reflexivity.
  - vm_compute. left. reflexivity.
  - reflexivity.
  - reflexivity.
Defined.

(** The server answers 206: the opener returns the reply as it does
    for every status from 200 to 299, the status is not 304, and the
    body is installed as the new dataset with its tokens. *)
Lemma other_status_counterexample :
  let '(r, s') :=
    ensure_latest Scenario.partial_content (Some "/data") (start Scenario.files) in
  code (Scenario.answer 206) = 206%Z
  /\ r = Ret true
  /\ fs s' !! "/data/vehicles.csv" = Some "new"
  /\ fs s' !! "/data/vehicles.etag" = Some "xyz"
  /\ fs s' !! "/data/vehicles.last_modified" = Some Scenario.EPOCH.
Proof. vm_compute. repeat split. Qed.

(** C5, amended. When the request of a call fails in transport, the
    call raises that failure; when its reply has a status outside
    200-299 other than 304, the call raises [HTTPError] with that
    status.  In both cases the file system at the end is the one the
    call started with and the request is its only effect. *)
Theorem error_reply_raises w td m0 r s' headers :
  ensure_latest w td (start m0) = (r, s') ->
  In (Request headers) (trace s') ->
  (forall e, http w headers = inl e ->
     r = Raise e /\ fs s' = m0 /\ trace s' = [Request headers])
  /\ (forall resp, http w headers = inr resp ->
        (code resp < 200 \/ 300 <= code resp)%Z -> code resp <> 304%Z ->
        r = Raise (HTTPError (code resp)) /\ fs s' = m0 /\ trace s' = [Request headers]).
Proof.
  intros Hrun Hin.
  destruct (request_unique w td m0 r s' headers Hrun Hin) as (etag & lm & l & _ & _ & _ & H).
  unfold reply in H. split.
  - intros e He. rewrite He in H. exact H.
  - intros resp Hr Hc Hn. rewrite Hr in H.
    replace ((200 <=? code resp)%Z && (code resp <? 300)%Z) with false in H.
    2:{ symmetry. apply andb_false_iff.
        destruct Hc; [left; apply Z.leb_gt | right; apply Z.ltb_ge]; lia. }
    replace (code resp =? 304)%Z with false in H by (symmetry; by apply Z.eqb_neq).
    exact H.
Qed.

Lemma error_reply_raises_witness :
  let run := ensure_latest Scenario.not_found (Some "/data") (start Scenario.files) in
  run.1 = Raise (HTTPError 404) /\ fs run.2 = Scenario.files
  /\ trace run.2 = [Request (token_headers (Some "abc") None)].
Proof.
  intros run.
  apply (error_reply_raises Scenario.not_found (Some "/data") Scenario.files
           run.1 run.2 (token_headers (Some "abc") None)) with (resp := Scenario.answer 404).
  - vm_compute; reflexivity.
  - vm_compute. left. reflexivity.
  - reflexivity.
  - right. vm_compute. discriminate.
  - discriminate.
Defined.

(** ** The stored tokens *)

Lemma substring_length n s :
  String.length (String.substring 0 n s) = Nat.min n (String.length s).
Proof.
  revert s. induction n as [|n IH]; intros [|c s]; simpl; try reflexivity. by rewrite IH.
Qed.

Lemma substring_prefix n s : String.prefix (String.substring 0 n s) s = true.
Proof.
  revert s. induction n as [|n IH]; intros [|c s]; simpl; try reflexivity.
  destruct (ascii_dec c c); [apply IH | congruence].
Qed.

Lemma substring_nonempty n s : s <> "" -> String.substring 0 (S n) s <> "".
Proof. destruct s; simpl; [done | discriminate]. Qed.

(** C10. The request of a call carries, for a stored opaque tag and a
    stored last-modified string that can be read and are not empty,
    the first 2048 characters of the file as the value of
    [If-None-Match] and of [If-Modified-Since]: a prefix of the file,
    of length 2048 when the file is longer. *)
Theorem stored_tokens_truncated w td m0 r s' headers :
  ensure_latest w td (start m0) = (r, s') ->
  In (Request headers) (trace s') ->
  (forall c, m0 !! stored_path w td "etag" = Some c ->
     fails w (SysOpen (stored_path w td "etag")) = None -> c <> "" ->
     In (IF_NONE_MATCH, String.substring 0 2048 c) headers)
  /\ (forall c, m0 !! stored_path w td "last_modified" = Some c ->
        fails w (SysOpen (stored_path w td "last_modified")) = None -> c <> "" ->
        In (IF_MODIFIED_SINCE, String.substring 0 2048 c) headers)
  /\ (forall c, String.length (String.substring 0 2048 c) = Nat.min 2048 (String.length c)
                /\ String.prefix (String.substring 0 2048 c) c = true).
Proof.
  intros Hrun Hin.
  destruct (request_unique w td m0 r s' headers Hrun Hin)
    as (etag & lm & l & E1 & E2 & -> & _).
  split; [|split].
  - intros c Hc Hf Hne. unfold stored in E1. rewrite Hf, Hc in E1. injection E1 as <-.
    unfold token_headers, read.
    destruct (String.eqb_spec (String.substring 0 2048 c) "") as [E | _].
    + by apply substring_nonempty in E.
    + by left.
  - intros c Hc Hf Hne. unfold stored in E2. rewrite Hf, Hc in E2. injection E2 as <-.
    unfold token_headers, read. apply in_or_app. right.
    destruct (String.eqb_spec (String.substring 0 2048 c) "") as [E | _].
    + by apply substring_nonempty in E.
    + by left.
  - intros c. split; [apply substring_length | apply substring_prefix].
Qed.

(** A stored tag of 3000 characters is sent cut to 2048. *)
Lemma stored_tokens_truncated_witness :
  let headers := token_headers (Some (String.substring 0 2048 Scenario.long_etag)) None in
  In (IF_NONE_MATCH, String.substring 0 2048 Scenario.long_etag) headers
  /\ String.length (String.substring 0 2048 Scenario.long_etag) = 2048.
Proof.
  intros headers. split; [|vm_compute; reflexivity].
  apply (stored_tokens_truncated Scenario.not_modified (Some "/data") Scenario.files_long_etag
           (Ret false)
           (ensure_latest Scenario.not_modified (Some "/data")
              (start Scenario.files_long_etag)).2 headers).
  - vm_compute; reflexivity.
  - vm_compute. left. reflexivity.
  - vm_compute; reflexivity.
  - reflexivity.
  - discriminate.
Defined.

(** ** The entry of the archive *)

(** C3. An archive whose only entry is named [/etc/motd]: the entry
    is extracted below the staging directory, but the path that is
    renamed over the dataset is [/etc/motd] itself.  Where that file
    exists the call returns True and the dataset holds its content,
    not the entry's; where it does not, the call raises [OSError] and
    the dataset stays as it was. *)
Lemma absolute_single_entry_not_installed :
  let run := ensure_latest Cases.absolute_entry (Some "/data") (start Cases.files_with_motd) in
  let run' := ensure_latest Cases.absolute_entry (Some "/data") (start Scenario.files) in
  unzip Cases.absolute_entry "archive" = Some [("/etc/motd", "entry")]
  /\ run.1 = Ret true
  /\ fs run.2 !! "/data/vehicles.csv" = Some "outside"
  /\ fs run.2 !! "/etc/motd" = None
  /\ run'.1 = Raise OSError
  /\ fs run'.2 !! "/data/vehicles.csv" = Some "old".
Proof. vm_compute. repeat split. Qed.

(** ** Rules for [runs_to] *)

Lemma runs_ret {A} (a : A) F : runs_to (ret a) F (Ret a) F.
Proof. intros s H. split; [reflexivity | exact H]. Qed.

Lemma runs_raise {A} e F : runs_to (@raise A e) F (Raise e) F.
Proof. intros s H. split; [reflexivity | exact H]. Qed.

Lemma runs_bind {A B} (m : M A) (k : A -> M B) F a F1 r F2 :
  runs_to m F (Ret a) F1 -> runs_to (k a) F1 r F2 -> runs_to (bind m k) F r F2.
Proof.
  intros Hm Hk s H. unfold bind. destruct (Hm s H) as [H1 H2].
  destruct (m s) as [r1 s1]. simpl in *. subst r1. by apply Hk.
Qed.

Lemma runs_bind_raise {A B} (m : M A) (k : A -> M B) F e F1 :
  runs_to m F (Raise e) F1 -> runs_to (bind m k) F (Raise e) F1.
Proof.
  intros Hm s H. unfold bind. destruct (Hm s H) as [H1 H2].
  destruct (m s) as [r1 s1]. simpl in *. subst r1. by split.
Qed.

Lemma runs_try_finally {A} (body : M A) (fin : M unit) F r F1 F2 :
  runs_to body F r F1 -> runs_to fin F1 (Ret tt) F2 -> runs_to (try_finally body fin) F r F2.
Proof.
  intros Hb Hf s H. unfold try_finally. destruct (Hb s H) as [H1 H2].
  destruct (body s) as [r1 s1]. simpl in *. destruct (Hf s1 H2) as [H3 H4].
  destruct (fin s1) as [[u | e] s2]; simpl in *; [by split | discriminate].
Qed.

Lemma runs_try_finally_raise {A} (body : M A) (fin : M unit) F r F1 e F2 :
  runs_to body F r F1 -> runs_to fin F1 (Raise e) F2 ->
  runs_to (try_finally body fin) F (Raise e) F2.
Proof.
  intros Hb Hf s H. unfold try_finally. destruct (Hb s H) as [H1 H2].
  destruct (body s) as [r1 s1]. simpl in *. destruct (Hf s1 H2) as [H3 H4].
  destruct (fin s1) as [[u | e'] s2]; simpl in *; [discriminate|].
  injection H3 as ->. by split.
Qed.

Lemma runs_try_except_ret {A} (body : M A) sel (handler : exn -> M A) F a F1 :
  runs_to body F (Ret a) F1 -> runs_to (try_except body sel handler) F (Ret a) F1.
Proof.
  intros Hb s H. unfold try_except. destruct (Hb s H) as [H1 H2].
  destruct (body s) as [r1 s1]. simpl in *. subst r1. by split.
Qed.

Lemma runs_try_except_caught {A} (body : M A) sel (handler : exn -> M A) F e F1 r F2 :
  runs_to body F (Raise e) F1 -> sel e = true -> runs_to (handler e) F1 r F2 ->
  runs_to (try_except body sel handler) F r F2.
Proof.
  intros Hb Hsel Hh s H. unfold try_except. destruct (Hb s H) as [H1 H2].
  destruct (body s) as [r1 s1]. simpl in *. subst r1. rewrite Hsel. by apply Hh.
Qed.

Lemma runs_logger lvl msg F : runs_to (logger lvl msg) F (Ret tt) F.
Proof. intros s H. split; [reflexivity | exact H]. Qed.

Lemma runs_sys w o F : fails w o = None -> runs_to (sys w o) F (Ret tt) F.
Proof. intros Ho s H. unfold sys. rewrite Ho. split; [reflexivity | exact H]. Qed.

Lemma runs_sys_fails w o e F : fails w o = Some e -> runs_to (sys w o) F (Raise e) F.
Proof. intros Ho s H. unfold sys. rewrite Ho. split; [reflexivity | exact H]. Qed.

Lemma runs_get_fs F : runs_to get_fs F (Ret F) F.
Proof. intros s H. split; [simpl; by rewrite H | exact H]. Qed.

Lemma runs_emit ev f F : runs_to (emit ev f) F (Ret tt) (f F).
Proof. intros s H. split; [reflexivity | simpl; by rewrite H]. Qed.

Lemma runs_getitem hs name F :
  runs_to (getitem hs name) F
    (match lookup_header hs name with Some v => Ret v | None => Raise KeyError end) F.
Proof.
  induction hs as [|[k v] hs IH]; simpl; [apply runs_raise|].
  destruct (String.eqb _ _); [apply runs_ret | exact IH].
Qed.

Lemma runs_select_name namelist F :
  runs_to (select_name namelist) F
    (match selected namelist with Some name => Ret name | None => Raise IndexError end) F.
Proof.
  unfold select_name, selected.
  destruct (if negb _ then _ else _); [apply runs_raise | apply runs_ret].
Qed.

(** ** The steps of [ensure_latest] when nothing fails *)

Section Steps.
Context (w : env).
Hypothesis ok : no_failures w.

Lemma runs_mkstemp F :
  F !! temp_path w = None ->
  runs_to (Tempfile.mkstemp w) F (Ret (temp_path w)) (<[temp_path w := ""]> F).
Proof.
  intros Hf. unfold Tempfile.mkstemp. cbv zeta. fold (temp_path w).
  eapply runs_bind; [apply runs_sys, ok|].
  eapply runs_bind; [apply runs_get_fs|]. rewrite Hf.
  eapply runs_bind; [apply runs_emit | apply runs_ret].
Qed.

Lemma append_empty_r (s : string) : s +:+ "" = s.
Proof.
  induction s as [|c s IH]; [reflexivity|].
  change (String c s +:+ "") with (String c (s +:+ "")). by rewrite IH.
Qed.

Lemma runs_copy_body reads n path F old body :
  received reads = Ret body -> F !! path = Some old ->
  runs_to (copy_body w reads n path) F (Ret tt) (<[path := old +:+ body]> F).
Proof.
  revert n F old body. induction reads as [|[e | chunk] reads IH]; intros n F old body Hr Hf.
  - injection Hr as <-. rewrite append_empty_r, insert_id by exact Hf. apply runs_ret.
  - discriminate.
  - simpl in *. destruct (0 <? String.length chunk)%nat.
    + destruct (received reads) as [more|] eqn:E; [|discriminate]. injection Hr as <-.
      eapply runs_bind; [apply runs_sys, ok|].
      eapply runs_bind; [apply runs_emit|]. cbv beta. rewrite Hf. cbn [default from_option].
      replace (<[path := old +:+ (chunk +:+ more)]> F)
        with (<[path := (old +:+ chunk) +:+ more]> (<[path := old +:+ chunk]> F))
        by (by rewrite insert_insert_eq, app_assoc).
      apply IH; [reflexivity | apply lookup_insert_eq].
    + injection Hr as <-. rewrite append_empty_r, insert_id by exact Hf. apply runs_ret.
Qed.

Lemma runs_open_w path F : runs_to (open_w w path) F (Ret tt) (<[path := ""]> F).
Proof. unfold open_w. eapply runs_bind; [apply runs_sys, ok | apply runs_emit]. Qed.

Lemma runs_write path data F old :
  F !! path = Some old -> runs_to (write w path data) F (Ret tt) (<[path := old +:+ data]> F).
Proof.
  intros Hf. unfold write. eapply runs_bind; [apply runs_sys, ok|].
  replace (<[path := old +:+ data]> F)
    with ((fun m : gmap string string => <[path := default "" (m !! path) +:+ data]> m) F)
    by (cbv beta; by rewrite Hf).
  apply (runs_emit _ (fun m => <[path := default "" (m !! path) +:+ data]> m)).
Qed.

Lemma runs_save_tokens tdir ne nl F :
  runs_to (save_tokens w tdir ne nl) F (Ret tt)
    (<[OsPath.join tdir "vehicles.last_modified" := nl]>
       (<[OsPath.join tdir "vehicles.etag" := ne]> F)).
Proof.
  unfold save_tokens. cbv zeta.
  eapply runs_bind; [apply runs_open_w|].
  eapply runs_bind; [apply (runs_write _ _ _ ""), lookup_insert_eq|].
  eapply runs_bind; [apply runs_logger|].
  eapply runs_bind; [apply runs_open_w|].
  eapply runs_bind; [apply (runs_write _ _ _ ""), lookup_insert_eq|].
  rewrite !insert_insert_eq. apply runs_logger.
Qed.

Lemma runs_extract_entry path dir F body entries name content :
  F !! path = Some body -> unzip w body = Some entries ->
  selected (Zipfile.namelist entries) = Some name ->
  Zipfile.getinfo entries name = Some content ->
  OsPath.ends_with_slash name = false -> Zipfile.arcname name <> "" ->
  runs_to (extract_entry w path dir) F (Ret name)
    (<[OsPath.join dir (Zipfile.arcname name) := content]> F).
Proof.
  intros Hf Hz Hsel Hinfo Hslash Harc. unfold extract_entry.
  eapply runs_bind.
  { unfold Zipfile.ZipFile. eapply runs_bind; [apply runs_sys, ok|].
    eapply runs_bind; [apply runs_get_fs|]. cbv beta. rewrite Hf, Hz. apply runs_ret. }
  eapply runs_bind.
  { pose proof (runs_select_name (Zipfile.namelist entries) F) as H.
    rewrite Hsel in H. exact H. }
  eapply runs_bind; [|apply runs_ret].
  unfold Zipfile.extract. rewrite Hinfo.
  eapply runs_bind; [apply runs_sys, ok|]. rewrite Hslash. cbv zeta.
  replace (String.eqb (Zipfile.arcname name) "") with false
    by (symmetry; by apply String.eqb_neq).
  apply runs_emit.
Qed.

Lemma runs_os_rename src dst F c :
  F !! src = Some c ->
  runs_to (os_rename w src dst) F (Ret tt) (<[dst := c]> (delete src F)).
Proof.
  intros Hf. unfold os_rename. eapply runs_bind; [apply runs_sys, ok|].
  eapply runs_bind; [apply runs_get_fs|]. cbv beta. rewrite Hf.
  apply (runs_emit _ (fun m => <[dst := c]> (delete src m))).
Qed.

Lemma runs_erase dir F :
  runs_to (erase_extracted_dir w dir) F (Ret tt)
    (filter (fun kv => OsPath.is_under dir kv.1 = false) F).
Proof.
  unfold erase_extracted_dir. apply runs_try_except_ret.
  eapply runs_bind; [|apply runs_logger].
  unfold rmtree. eapply runs_bind; [apply runs_sys, ok|].
  apply (runs_emit _ (filter (fun kv => OsPath.is_under dir kv.1 = false))).
Qed.

Lemma runs_cleanup path F :
  runs_to (cleanup_stray_file w path) F (Ret tt) (delete path F).
Proof.
  unfold cleanup_stray_file, os_path_exists.
  eapply runs_bind; [eapply runs_bind; [apply runs_get_fs | apply runs_ret]|].
  cbv beta. destruct (bool_decide (is_Some (F !! path))) eqn:E.
  - unfold os_unlink. eapply runs_bind; [|apply runs_logger].
    eapply runs_bind; [apply runs_sys, ok | apply runs_emit].
  - apply bool_decide_eq_false in E.
    rewrite delete_id by (destruct (F !! path); [exfalso; apply E; eauto | reflexivity]).
    apply runs_ret.
Qed.

(** The modified branch, from the new tokens to [return True]. *)
Lemma runs_fetch_new_data tdir resp F ne nl body entries name content c :
  lookup_header (info resp) "ETag" = Some ne ->
  lookup_header (info resp) LAST_MODIFIED = Some nl ->
  F !! temp_path w = None ->
  received (reads resp) = Ret body ->
  unzip w body = Some entries ->
  selected (Zipfile.namelist entries) = Some name ->
  Zipfile.getinfo entries name = Some content ->
  OsPath.ends_with_slash name = false -> Zipfile.arcname name <> "" ->
  <[OsPath.join (OsPath.join tdir "tmp") (Zipfile.arcname name) := content]>
    (<[temp_path w := body]> F) !! OsPath.join (OsPath.join tdir "tmp") name = Some c ->
  runs_to (fetch_new_data w tdir resp) F (Ret true)
    (delete (temp_path w)
       (filter (fun kv => OsPath.is_under (OsPath.join tdir "tmp") kv.1 = false)
          (<[OsPath.join tdir "vehicles.last_modified" := nl]>
             (<[OsPath.join tdir "vehicles.etag" := ne]>
                (<[OsPath.join tdir "vehicles.csv" := c]>
                   (delete (OsPath.join (OsPath.join tdir "tmp") name)
                      (<[OsPath.join (OsPath.join tdir "tmp") (Zipfile.arcname name) := content]>
                         (<[temp_path w := body]> F)))))))).
Proof.
  intros Hne Hnl Hfresh Hbody Hz Hsel Hinfo Hslash Harc Hsrc. unfold fetch_new_data.
  eapply runs_bind; [apply runs_logger|].
  eapply runs_bind; [pose proof (runs_getitem (info resp) "ETag" F) as H;
                     rewrite Hne in H; exact H|].
  eapply runs_bind; [pose proof (runs_getitem (info resp) LAST_MODIFIED F) as H;
                     rewrite Hnl in H; exact H|].
  eapply runs_bind; [by apply runs_mkstemp|].
  eapply runs_bind; [|apply runs_ret].
  eapply runs_try_finally; [|apply runs_cleanup].
  eapply runs_bind.
  { eapply runs_try_finally; [|apply runs_sys, ok].
    apply (runs_copy_body _ _ _ _ "" body Hbody), lookup_insert_eq. }
  change ("" +:+ body) with body. rewrite insert_insert_eq. cbv zeta.
  eapply runs_try_finally; [|apply runs_erase].
  unfold install.
  eapply runs_bind.
  { eapply runs_extract_entry; eauto. apply lookup_insert_eq. }
  cbv zeta.
  eapply runs_bind; [by apply runs_os_rename|].
  apply runs_save_tokens.
Qed.

End Steps.

(** ** A successful update *)

Lemma updated_lookup w tdir name content c ne nl body (F : gmap string string) p :
  delete (temp_path w)
    (filter (fun kv => OsPath.is_under (OsPath.join tdir "tmp") kv.1 = false)
       (<[OsPath.join tdir "vehicles.last_modified" := nl]>
          (<[OsPath.join tdir "vehicles.etag" := ne]>
             (<[OsPath.join tdir "vehicles.csv" := c]>
                (delete (OsPath.join (OsPath.join tdir "tmp") name)
                   (<[OsPath.join (OsPath.join tdir "tmp") (Zipfile.arcname name) := content]>
                      (<[temp_path w := body]> F))))))) !! p
  = updated w tdir (OsPath.join (OsPath.join tdir "tmp") name) c ne nl F p.
Proof.
  unfold updated.
  destruct (decide (p = temp_path w)) as [-> | Htp]; [apply lookup_delete_eq|].
  rewrite lookup_delete_ne by done.
  destruct (OsPath.is_under (OsPath.join tdir "tmp") p) eqn:Hu.
  { apply map_lookup_filter_None. right. intros x _. simpl. rewrite Hu. discriminate. }
  rewrite lookup_rmtree by exact Hu.
  destruct (decide (p = OsPath.join tdir "vehicles.last_modified")) as [-> | Hlm];
    [apply lookup_insert_eq|].
  rewrite lookup_insert_ne by done.
  destruct (decide (p = OsPath.join tdir "vehicles.etag")) as [-> | Het];
    [apply lookup_insert_eq|].
  rewrite lookup_insert_ne by done.
  destruct (decide (p = OsPath.join tdir "vehicles.csv")) as [-> | Hcsv];
    [apply lookup_insert_eq|].
  rewrite lookup_insert_ne by done.
  destruct (decide (p = OsPath.join (OsPath.join tdir "tmp") name)) as [-> | Hsrc];
    [apply lookup_delete_eq|].
  rewrite lookup_delete_ne by done.
  rewrite lookup_insert_ne.
  - by rewrite lookup_insert_ne.
  - intros <-. rewrite is_under_tmp_member in Hu by apply arcname_no_leading_slash.
    discriminate.
Qed.

Lemma stored_no_failures w m path :
  no_failures w -> exists o, stored w m path = Ret o.
Proof. intros ok. unfold stored. rewrite ok. destruct (m !! path); eauto. Qed.

(** Nothing fails, the server answers a 2xx reply with both validators
    and an archive whose selected entry can be extracted, and the path
    the rename takes as its source holds [c] once the entry is
    extracted: the call returns True and leaves the files [updated]. *)
Lemma ensure_latest_updates w td m0 resp ne nl body entries name content c :
  no_failures w ->
  (forall headers, http w headers = inr resp) -> (200 <= code resp < 300)%Z ->
  lookup_header (info resp) "ETag" = Some ne ->
  lookup_header (info resp) LAST_MODIFIED = Some nl ->
  m0 !! temp_path w = None ->
  received (reads resp) = Ret body ->
  unzip w body = Some entries ->
  selected (Zipfile.namelist entries) = Some name ->
  Zipfile.getinfo entries name = Some content ->
  OsPath.ends_with_slash name = false -> Zipfile.arcname name <> "" ->
  <[OsPath.join (OsPath.join (target_dir_of td) "tmp") (Zipfile.arcname name) := content]>
    (<[temp_path w := body]> m0) !! OsPath.join (OsPath.join (target_dir_of td) "tmp") name
  = Some c ->
  (ensure_latest w td (start m0)).1 = Ret true
  /\ forall p,
       fs (ensure_latest w td (start m0)).2 !! p
       = updated w (target_dir_of td) (OsPath.join (OsPath.join (target_dir_of td) "tmp") name)
           c ne nl m0 p.
Proof.
  intros ok Hhttp Hcode Hne Hnl Hfresh Hbody Hz Hsel Hinfo Hslash Harc Hsrc.
  destruct (ensure_latest_run w td (start m0)) as [l Hl]. rewrite Hl. clear Hl.
  destruct (stored_no_failures w (fs (start m0)) (stored_path w td "etag") ok) as [etag ->].
  destruct (stored_no_failures w (fs (start m0)) (stored_path w td "last_modified") ok)
    as [lm ->].
  cbv zeta. unfold reply. rewrite Hhttp.
  replace ((200 <=? code resp)%Z && (code resp <? 300)%Z) with true
    by (symmetry; apply andb_true_iff; split; [apply Z.leb_le | apply Z.ltb_lt]; lia).
  replace (code resp =? 304)%Z with false by (symmetry; apply Z.eqb_neq; lia).
  cbn [negb].
  destruct (runs_fetch_new_data w ok (target_dir_of td) resp m0 ne nl body entries name
              content c Hne Hnl Hfresh Hbody Hz Hsel Hinfo Hslash Harc Hsrc
              (requested (start m0) (token_headers etag lm) l) eq_refl) as [Hr Hf].
  split; [exact Hr|]. intros p. rewrite Hf. apply updated_lookup.
Qed.

(** ** What a successful update leaves *)

Lemma kept_updated w tdir src c ne nl m0 :
  updated w tdir src c ne nl m0 (OsPath.join tdir "vehicles.csv") = Some c
  /\ updated w tdir src c ne nl m0 (OsPath.join tdir "vehicles.etag") = Some ne
  /\ updated w tdir src c ne nl m0 (OsPath.join tdir "vehicles.last_modified") = Some nl.
Proof.
  assert (Ht : forall x, kept_name x -> OsPath.join tdir x <> temp_path w).
  { intros x Hx E. by apply (temp_path_not_kept w tdir x Hx). }
  assert (Hc : kept_name "vehicles.csv") by (unfold kept_name; auto).
  assert (He : kept_name "vehicles.etag") by (unfold kept_name; auto).
  assert (Hl : kept_name "vehicles.last_modified") by (unfold kept_name; auto).
  unfold updated. repeat split.
  - rewrite decide_False by auto. rewrite kept_not_under_tmp by exact Hc.
    rewrite decide_False by (apply kept_distinct; auto; discriminate).
    rewrite decide_False by (apply kept_distinct; auto; discriminate).
    by rewrite decide_True.
  - rewrite decide_False by auto. rewrite kept_not_under_tmp by exact He.
    rewrite decide_False by (apply kept_distinct; auto; discriminate).
    by rewrite decide_True.
  - rewrite decide_False by auto. rewrite kept_not_under_tmp by exact Hl.
    by rewrite decide_True.
Qed.

(** X1. When nothing fails, the server answers a 2xx reply carrying
    [ETag] and [Last-Modified], the temporary name is free, and the
    entry selected from the archive has a name that is its own member
    path (not empty, no empty, [.] or [..] component, no final slash),
    [ensure_latest] returns True and leaves [vehicles.csv] with the
    content of that entry, [vehicles.etag] and [vehicles.last_modified]
    with the two header values, no temporary file, nothing below the
    staging directory, and every other file as it was.  The body is
    what was read before the first empty chunk. *)
Theorem update_installs_entry w td m0 resp ne nl body entries name content :
  no_failures w ->
  (forall headers, http w headers = inr resp) -> (200 <= code resp < 300)%Z ->
  lookup_header (info resp) "ETag" = Some ne ->
  lookup_header (info resp) LAST_MODIFIED = Some nl ->
  m0 !! temp_path w = None ->
  received (reads resp) = Ret body ->
  unzip w body = Some entries ->
  selected (Zipfile.namelist entries) = Some name ->
  Zipfile.getinfo entries name = Some content ->
  Zipfile.arcname name = name -> name <> "" -> OsPath.ends_with_slash name = false ->
  let s' := (ensure_latest w td (start m0)).2 in
  (ensure_latest w td (start m0)).1 = Ret true
  /\ fs s' !! target_path td = Some content
  /\ fs s' !! etag_path td = Some ne
  /\ fs s' !! last_modified_path td = Some nl
  /\ fs s' !! temp_path w = None
  /\ (forall p, OsPath.is_under (OsPath.join (target_dir_of td) "tmp") p = true ->
        fs s' !! p = None)
  /\ (forall p, p <> temp_path w ->
        OsPath.is_under (OsPath.join (target_dir_of td) "tmp") p = false ->
        (forall x, kept_name x -> p <> OsPath.join (target_dir_of td) x) ->
        fs s' !! p = m0 !! p).
Proof.
  intros ok Hhttp Hcode Hne Hnl Hfresh Hbody Hz Hsel Hinfo Harc Hname Hslash s'.
  assert (Hsrc : <[OsPath.join (OsPath.join (target_dir_of td) "tmp") (Zipfile.arcname name)
                     := content]> (<[temp_path w := body]> m0)
                 !! OsPath.join (OsPath.join (target_dir_of td) "tmp") name = Some content).
  { rewrite Harc. apply lookup_insert_eq. }
  destruct (ensure_latest_updates w td m0 resp ne nl body entries name content content
              ok Hhttp Hcode Hne Hnl Hfresh Hbody Hz Hsel Hinfo Hslash
              ltac:(by rewrite Harc) Hsrc) as [Hr Hf].
  fold s' in Hf.
  destruct (kept_updated w (target_dir_of td)
              (OsPath.join (OsPath.join (target_dir_of td) "tmp") name) content ne nl m0)
    as (K1 & K2 & K3).
  split; [exact Hr|].
  unfold target_path, etag_path, last_modified_path. rewrite !Hf.
  split; [exact K1|]. split; [exact K2|]. split; [exact K3|].
  split; [unfold updated; by rewrite decide_True|].
  split.
  - intros p Hp. rewrite Hf. unfold updated. destruct (decide _); [reflexivity|].
    by rewrite Hp.
  - intros p Htp Hu Hk. rewrite Hf. unfold updated.
    rewrite decide_False by exact Htp. rewrite Hu.
    rewrite decide_False by (apply Hk; unfold kept_name; auto).
    rewrite decide_False by (apply Hk; unfold kept_name; auto).
    rewrite decide_False by (apply Hk; unfold kept_name; auto).
    rewrite decide_False; [reflexivity|].
    intros ->. rewrite <- Harc, is_under_tmp_member in Hu by apply arcname_no_leading_slash.
    discriminate.
Qed.

Lemma update_installs_entry_witness :
  let run := ensure_latest Scenario.modified (Some "/data") (start Scenario.files) in
  run.1 = Ret true
  /\ fs run.2 !! "/data/vehicles.csv" = Some "new"
  /\ fs run.2 !! "/data/vehicles.etag" = Some "xyz"
  /\ fs run.2 !! "/data/vehicles.last_modified" = Some Scenario.EPOCH.
Proof.
  intros run.
  assert (H1 : no_failures Scenario.modified) by (intros o; reflexivity).
  assert (H2 : forall headers, http Scenario.modified headers = inr (Scenario.answer 200))
    by reflexivity.
  assert (H3 : (200 <= code (Scenario.answer 200) < 300)%Z) by (simpl; lia).
  assert (H4 : Scenario.files !! temp_path Scenario.modified = None)
    by (vm_compute; reflexivity).
  assert (H5 : Zipfile.arcname "anything.csv" = "anything.csv") by (vm_compute; reflexivity).
  assert (H6 : "anything.csv" <> "") by discriminate.
  destruct (update_installs_entry Scenario.modified (Some "/data") Scenario.files
              (Scenario.answer 200) "xyz" Scenario.EPOCH "archive" [("anything.csv", "new")]
              "anything.csv" "new" H1 H2 H3 eq_refl eq_refl H4 eq_refl eq_refl eq_refl
              eq_refl H5 H6 eq_refl) as (R1 & R2 & R3 & R4 & _).
  exact (conj R1 (conj R2 (conj R3 R4))).
Defined.

(** X2. When the selected entry has an absolute name, the entry is
    extracted below the staging directory but the rename takes the
    absolute name itself as its source: if nothing fails and a file
    stands at that path, outside the staging directory, [ensure_latest]
    returns True, [vehicles.csv] holds the content of that outside file,
    not of the entry, and the outside file is gone. *)
Theorem absolute_entry_renames_outside_file w td m0 resp ne nl body entries name content c :
  no_failures w ->
  (forall headers, http w headers = inr resp) -> (200 <= code resp < 300)%Z ->
  lookup_header (info resp) "ETag" = Some ne ->
  lookup_header (info resp) LAST_MODIFIED = Some nl ->
  m0 !! temp_path w = None ->
  received (reads resp) = Ret body ->
  unzip w body = Some entries ->
  selected (Zipfile.namelist entries) = Some name ->
  Zipfile.getinfo entries name = Some content ->
  OsPath.starts_with_slash name = true ->
  OsPath.ends_with_slash name = false -> Zipfile.arcname name <> "" ->
  m0 !! name = Some c ->
  name <> temp_path w ->
  OsPath.is_under (OsPath.join (target_dir_of td) "tmp") name = false ->
  (forall x, kept_name x -> name <> OsPath.join (target_dir_of td) x) ->
  let s' := (ensure_latest w td (start m0)).2 in
  (ensure_latest w td (start m0)).1 = Ret true
  /\ fs s' !! target_path td = Some c
  /\ fs s' !! name = None.
Proof.
  intros ok Hhttp Hcode Hne Hnl Hfresh Hbody Hz Hsel Hinfo Habs Hslash Harc Hc Htp Hu Hk s'.
  assert (Hj : OsPath.join (OsPath.join (target_dir_of td) "tmp") name = name).
  { unfold OsPath.join at 1. by rewrite Habs. }
  assert (Hsrc : <[OsPath.join (OsPath.join (target_dir_of td) "tmp") (Zipfile.arcname name)
                     := content]> (<[temp_path w := body]> m0)
                 !! OsPath.join (OsPath.join (target_dir_of td) "tmp") name = Some c).
  { rewrite Hj. rewrite lookup_insert_ne.
    - by rewrite lookup_insert_ne.
    - intros E. rewrite <- E, is_under_tmp_member in Hu by apply arcname_no_leading_slash.
      discriminate. }
  destruct (ensure_latest_updates w td m0 resp ne nl body entries name content c
              ok Hhttp Hcode Hne Hnl Hfresh Hbody Hz Hsel Hinfo Hslash Harc Hsrc) as [Hr Hf].
  fold s' in Hf. rewrite Hj in Hf.
  split; [exact Hr|]. split.
  - unfold target_path. rewrite Hf. apply kept_updated.
  - rewrite Hf. unfold updated.
    rewrite decide_False by exact Htp. rewrite Hu.
    rewrite decide_False by (apply Hk; unfold kept_name; auto).
    rewrite decide_False by (apply Hk; unfold kept_name; auto).
    rewrite decide_False by (apply Hk; unfold kept_name; auto).
    by rewrite decide_True.
Qed.

Lemma absolute_entry_renames_outside_file_witness :
  let run := ensure_latest Cases.absolute_entry (Some "/data") (start Cases.files_with_motd) in
  run.1 = Ret true
  /\ fs run.2 !! "/data/vehicles.csv" = Some "outside"
  /\ fs run.2 !! "/etc/motd" = None.
Proof.
  intros run.
  assert (H1 : no_failures Cases.absolute_entry) by (intros o; reflexivity).
  assert (H2 : forall headers, http Cases.absolute_entry headers = inr (Scenario.answer 200))
    by reflexivity.
  assert (H3 : (200 <= code (Scenario.answer 200) < 300)%Z) by (simpl; lia).
  assert (H4 : Cases.files_with_motd !! temp_path Cases.absolute_entry = None)
    by (vm_compute; reflexivity).
  assert (H5 : Zipfile.arcname "/etc/motd" <> "") by (vm_compute; discriminate).
  assert (H6 : Cases.files_with_motd !! "/etc/motd" = Some "outside")
    by (vm_compute; reflexivity).
  assert (H7 : "/etc/motd" <> temp_path Cases.absolute_entry) by (vm_compute; discriminate).
  assert (H8 : OsPath.is_under (OsPath.join (target_dir_of (Some "/data")) "tmp") "/etc/motd"
               = false) by (vm_compute; reflexivity).
  assert (H9 : forall x, kept_name x -> "/etc/motd" <> OsPath.join (target_dir_of (Some "/data")) x)
    by (intros x [-> | [-> | ->]]; vm_compute; discriminate).
  exact (absolute_entry_renames_outside_file Cases.absolute_entry (Some "/data")
           Cases.files_with_motd (Scenario.answer 200) "xyz" Scenario.EPOCH "archive"
           [("/etc/motd", "entry")] "/etc/motd" "entry" "outside"
           H1 H2 H3 eq_refl eq_refl H4 eq_refl eq_refl eq_refl eq_refl eq_refl eq_refl
           H5 H6 H7 H8 H9).
Defined.

(** ** A reply without validators *)


Lemma fetch_new_data_missing_header w tdir resp s :
  lookup_header (info resp) "ETag" = None \/ lookup_header (info resp) LAST_MODIFIED = None ->
  (fetch_new_data w tdir resp s).1 = Raise KeyError
  /\ fs (fetch_new_data w tdir resp s).2 = fs s
  /\ trace (fetch_new_data w tdir resp s).2 = trace s.
Proof.
  intros H. unfold fetch_new_data, bind, logger. rewrite getitem_run.
  destruct (lookup_header (info resp) "ETag") as [ne|]; [|by repeat split].
  rewrite getitem_run. destruct H as [H | H]; [discriminate|]. rewrite H. by repeat split.
Qed.

(** X3. When the reply to the request of a call has a status from
    200 to 299 and lacks the [ETag] or the [Last-Modified] header, the
    call raises [KeyError] before it creates any file: the file system
    is the one it started with and the request is its only effect. *)
Theorem missing_validator_raises_KeyError w td m0 r s' headers resp :
  ensure_latest w td (start m0) = (r, s') ->
  In (Request headers) (trace s') ->
  http w headers = inr resp -> (200 <= code resp < 300)%Z ->
  lookup_header (info resp) "ETag" = None \/ lookup_header (info resp) LAST_MODIFIED = None ->
  r = Raise KeyError /\ fs s' = m0 /\ trace s' = [Request headers].
Proof.
  intros Hrun Hin Hhttp Hcode Hmiss.
  destruct (request_unique w td m0 r s' headers Hrun Hin) as (etag & lm & l & _ & _ & _ & H).
  unfold reply in H. rewrite Hhttp in H.
  replace ((200 <=? code resp)%Z && (code resp <? 300)%Z) with true in H
    by (symmetry; apply andb_true_iff; split; [apply Z.leb_le | apply Z.ltb_lt]; lia).
  replace (code resp =? 304)%Z with false in H by (symmetry; apply Z.eqb_neq; lia).
  destruct (fetch_new_data_missing_header w (target_dir_of td) resp
              {| fs := m0; trace := [Request headers]; log := l |} Hmiss) as (H1 & H2 & H3).
  rewrite <- H in H1, H2, H3. by repeat split.
Qed.

Lemma missing_validator_raises_KeyError_witness :
  let run := ensure_latest Cases.no_etag (Some "/data") (start Scenario.files) in
  run.1 = Raise KeyError /\ fs run.2 = Scenario.files
  /\ trace run.2 = [Request (token_headers (Some "abc") None)].
Proof.
  intros run.
  apply (missing_validator_raises_KeyError Cases.no_etag (Some "/data") Scenario.files
           run.1 run.2 (token_headers (Some "abc") None)
           {| code := 200; info := [("Last-Modified", Scenario.EPOCH)];
              reads := [inr "archive"] |}).
  - vm_compute; reflexivity.
  - vm_compute. left. reflexivity.
  - reflexivity.
  - simpl. lia.
  - left. reflexivity.
Defined.

(** ** The first call on a directory *)

(** X4. When neither token is stored where the call looks for it,
    the request of the call, if it sends one, carries the [User-Agent]
    header only: the download is unconditional, whatever fails while
    the tokens are looked for. *)
Theorem first_call_unconditional w td m0 r s' headers :
  m0 !! stored_path w td "etag" = None ->
  m0 !! stored_path w td "last_modified" = None ->
  ensure_latest w td (start m0) = (r, s') ->
  In (Request headers) (trace s') ->
  headers = [("User-Agent", USER_AGENT)].
Proof.
  intros He Hl Hrun Hin.
  destruct (request_unique w td m0 r s' headers Hrun Hin)
    as (etag & lm & l & E1 & E2 & -> & _).
  assert (Hn : forall x o, m0 !! stored_path w td x = None ->
                 stored w m0 (stored_path w td x) = Ret o -> o = None).
  { intros x o Hx. unfold stored. rewrite Hx.
    destruct (fails w _) as [e|]; [destruct (is_IOError e)|]; congruence. }
  rewrite (Hn _ _ He E1), (Hn _ _ Hl E2). reflexivity.
Qed.

Lemma first_call_unconditional_witness :
  let sent := token_headers None None in
  In (Request sent) (trace (ensure_latest Scenario.modified (Some "/data") (start ∅)).2)
  /\ sent = [("User-Agent", USER_AGENT)].
Proof.
  intros sent.
  assert (Hin : In (Request sent)
                  (trace (ensure_latest Scenario.modified (Some "/data") (start ∅)).2))
    by (vm_compute; left; reflexivity).
  split; [exact Hin|].
  apply (first_call_unconditional Scenario.modified (Some "/data") ∅ (Ret true)
           (ensure_latest Scenario.modified (Some "/data") (start ∅)).2).
  - reflexivity.
  - reflexivity.
  - vm_compute; reflexivity.
  - exact Hin.
Defined.

(** ** What a call leaves alone *)



(** ** The stored validators come back *)

(** X6. After a successful update of the directory [d], the request
    of the next call on [d] carries the validators the server sent,
    each cut to its first 2048 characters, as [If-None-Match] and
    [If-Modified-Since]. *)
Theorem saved_validators_sent_next w w' d m0 resp ne nl body entries name content
    r' s' headers :
  no_failures w ->
  (forall headers, http w headers = inr resp) -> (200 <= code resp < 300)%Z ->
  lookup_header (info resp) "ETag" = Some ne ->
  lookup_header (info resp) LAST_MODIFIED = Some nl ->
  m0 !! temp_path w = None ->
  received (reads resp) = Ret body ->
  unzip w body = Some entries ->
  selected (Zipfile.namelist entries) = Some name ->
  Zipfile.getinfo entries name = Some content ->
  Zipfile.arcname name = name -> name <> "" -> OsPath.ends_with_slash name = false ->
  fails w' (SysOpen (OsPath.join d "vehicles.etag")) = None ->
  fails w' (SysOpen (OsPath.join d "vehicles.last_modified")) = None ->
  ensure_latest w' (Some d) (start (fs (ensure_latest w (Some d) (start m0)).2)) = (r', s') ->
  In (Request headers) (trace s') ->
  headers = token_headers (Some (String.substring 0 2048 ne)) (Some (String.substring 0 2048 nl)).
Proof.
  intros ok Hhttp Hcode Hne Hnl Hfresh Hbody Hz Hsel Hinfo Harc Hname Hslash He Hl Hrun Hin.
  assert (Hsrc : <[OsPath.join (OsPath.join d "tmp") (Zipfile.arcname name) := content]>
                   (<[temp_path w := body]> m0)
                 !! OsPath.join (OsPath.join d "tmp") name = Some content).
  { rewrite Harc. apply lookup_insert_eq. }
  destruct (ensure_latest_updates w (Some d) m0 resp ne nl body entries name content content
              ok Hhttp Hcode Hne Hnl Hfresh Hbody Hz Hsel Hinfo Hslash
              ltac:(by rewrite Harc) Hsrc) as [_ Hf].
  destruct (kept_updated w d (OsPath.join (OsPath.join d "tmp") name) content ne nl m0)
    as (_ & K2 & K3).
  destruct (request_unique w' (Some d) _ r' s' headers Hrun Hin)
    as (etag & lm & l & E1 & E2 & -> & _).
  unfold stored, stored_path in E1, E2.
  change ("vehicles." +:+ "etag") with "vehicles.etag" in E1.
  change ("vehicles." +:+ "last_modified") with "vehicles.last_modified" in E2.
  rewrite He, Hf in E1. rewrite Hl, Hf in E2. simpl target_dir_of in E1, E2.
  rewrite K2 in E1. rewrite K3 in E2. injection E1 as <-. injection E2 as <-. reflexivity.
Qed.

Lemma saved_validators_sent_next_witness :
  let headers :=
    [(IF_NONE_MATCH, "xyz"); (IF_MODIFIED_SINCE, Scenario.EPOCH); ("User-Agent", USER_AGENT)] in
  In (Request headers)
     (trace (ensure_latest Scenario.not_modified (Some "/data")
               (start (fs (ensure_latest Scenario.modified (Some "/data")
                             (start Scenario.files)).2))).2)
  /\ headers = token_headers (Some "xyz") (Some Scenario.EPOCH).
Proof.
  intros headers.
  assert (Hin : In (Request headers)
     (trace (ensure_latest Scenario.not_modified (Some "/data")
               (start (fs (ensure_latest Scenario.modified (Some "/data")
                             (start Scenario.files)).2))).2))
    by (vm_compute; left; reflexivity).
  split; [exact Hin|].
  assert (H1 : no_failures Scenario.modified) by (intros o; reflexivity).
  assert (H2 : forall headers, http Scenario.modified headers = inr (Scenario.answer 200))
    by reflexivity.
  assert (H3 : (200 <= code (Scenario.answer 200) < 300)%Z) by (simpl; lia).
  assert (H4 : Scenario.files !! temp_path Scenario.modified = None)
    by (vm_compute; reflexivity).
  assert (H5 : Zipfile.arcname "anything.csv" = "anything.csv") by (vm_compute; reflexivity).
  assert (H6 : "anything.csv" <> "") by discriminate.
  apply (saved_validators_sent_next Scenario.modified Scenario.not_modified "/data"
           Scenario.files (Scenario.answer 200) "xyz" Scenario.EPOCH "archive"
           [("anything.csv", "new")] "anything.csv" "new" (Ret false)
           (ensure_latest Scenario.not_modified (Some "/data")
              (start (fs (ensure_latest Scenario.modified (Some "/data")
                            (start Scenario.files)).2))).2
           headers H1 H2 H3 eq_refl eq_refl H4 eq_refl eq_refl eq_refl eq_refl H5 H6 eq_refl
           eq_refl eq_refl).
  - vm_compute; reflexivity.
  - exact Hin.
Defined.

(** ** [epa_mmy_lookup] *)

Module LookupFacts.
Import Lookup.

Lemma namedtuple_fields typename field_names x :
  namedtuple typename field_names = Ret x -> x = field_names.
Proof.
  unfold namedtuple. destruct (check_names _); [|discriminate].
  destruct (check_fields _ _); [|discriminate]. by intros [= <-].
Qed.

Lemma load_line_key field_names line k g :
  line_key field_names line = Some k ->
  exists text,
    load_line field_names line g
    = (Ret tt, {| epa_loaded := epa_loaded g;
                  epa_table := <[k := combine field_names line]> (epa_table g);
                  stdout := stdout g ++ [text] |}).
Proof.
  unfold line_key, load_line, new_row.
  destruct (length line =? length field_names)%nat; [|discriminate].
  destruct (getattr _ "make") as [mk|]; [|discriminate].
  destruct (getattr _ "model") as [md|]; [|discriminate].
  destruct (getattr _ "year") as [yr|]; [|discriminate].
  destruct (getattr _ "UCity") as [uc|]; [|discriminate].
  destruct (getattr _ "UHighway") as [uh|]; [|discriminate].
  destruct (getattr _ "co2TailpipeGpm") as [co|]; [|discriminate].
  intros [= <-]. eexists. reflexivity.
Qed.

Lemma load_line_arity field_names line g :
  length line <> length field_names ->
  load_line field_names line g = (Raise TypeError, g).
Proof.
  intros H. unfold load_line, new_row.
  by replace (length line =? length field_names)%nat with false
    by (symmetry; by apply Nat.eqb_neq).
Qed.

(** Loading lines that all have a key, then whatever follows. *)
Lemma load_lines_app field_names lines rest g :
  Forall (fun line => line_key field_names line <> None) lines ->
  exists g',
    load_lines field_names (map inr lines ++ rest) g = load_lines field_names rest g'
    /\ epa_loaded g' = epa_loaded g
    /\ (forall k, epa_table g' !! k = last_with_key field_names k lines (epa_table g !! k))
    /\ length (stdout g') = (length (stdout g) + length lines)%nat.
Proof.
  intros H. revert g. induction H as [|line lines Hl _ IH]; intros g.
  - exists g. repeat split; simpl; lia.
  - destruct (line_key field_names line) as [k0|] eqn:Ek; [|done].
    destruct (load_line_key field_names line k0 g Ek) as [text Ht].
    destruct (IH {| epa_loaded := epa_loaded g;
                    epa_table := <[k0 := combine field_names line]> (epa_table g);
                    stdout := stdout g ++ [text] |}) as (g' & E & Hld & Htab & Hout).
    cbn [epa_loaded epa_table stdout] in Hld, Htab, Hout.
    exists g'. split; [|split; [exact Hld|split]].
    + cbn [map app load_lines]. rewrite Ht. exact E.
    + intros k. rewrite Htab. cbn [last_with_key]. rewrite Ek. f_equal.
      destruct (decide (Some k0 = Some k)) as [[= ->] | Hne].
      * apply lookup_insert_eq.
      * apply lookup_insert_ne. congruence.
    + rewrite Hout, length_app. cbn [length]. lia.
Qed.

End LookupFacts.

(** X7. The first call of [epa_mmy_lookup] on a readable file whose
    header line is accepted and whose lines all load returns the row of
    the last line whose make, model and year give the requested key,
    the row the table already held for it if no line does, and raises
    [KeyError] if there is neither; it sets [epa_loaded], the table
    holds for every key the last line with that key, and one line is
    printed for each line of the file. *)
Theorem lookup_returns_last_line w csv_reader files f headers lines make model year g :
  Lookup.epa_loaded g = false ->
  fails w (SysOpen (resource_filename w "epa/vehicles.csv")) = None ->
  files !! resource_filename w "epa/vehicles.csv" = Some f ->
  csv_reader f = inr headers :: map inr lines ->
  Lookup.namedtuple "Row" headers = Ret headers ->
  Forall (fun line => Lookup.line_key headers line <> None) lines ->
  let k := make +:+ "_" +:+ model +:+ "_" +:+ Lookup.str year in
  let run := Lookup.epa_mmy_lookup w csv_reader files make model year g in
  run.1 = match Lookup.last_with_key headers k lines (Lookup.epa_table g !! k) with
          | Some row => Ret row
          | None => Raise KeyError
          end
  /\ Lookup.epa_loaded run.2 = true
  /\ (forall k', Lookup.epa_table run.2 !! k'
                 = Lookup.last_with_key headers k' lines (Lookup.epa_table g !! k'))
  /\ length (Lookup.stdout run.2) = length (Lookup.stdout g) + length lines.
Proof.
  intros Hg Hopen Hfile Hcsv Hnt Hlines k run. subst run.
  destruct (LookupFacts.load_lines_app headers lines [] g Hlines) as (g' & E & _ & Htab & Hout).
  rewrite app_nil_r in E. cbn [Lookup.load_lines] in E.
  unfold Lookup.epa_mmy_lookup, Lookup.load_table. rewrite Hg. cbv zeta.
  rewrite Hopen, Hfile, Hcsv, Hnt, E. cbn [Lookup.epa_table Lookup.epa_loaded Lookup.stdout].
  fold k. rewrite Htab.
  destruct (Lookup.last_with_key headers k lines (Lookup.epa_table g !! k)); by repeat split.
Qed.

Lemma lookup_returns_last_line_witness :
  (Lookup.epa_mmy_lookup Scenario.modified Table.reader Table.files
     "Honda" "Civic" (Lookup.YearInt 2016) Lookup.fresh).1
  = Ret (combine Table.headers Table.civic_b).
Proof.
  assert (H : Forall (fun line => Lookup.line_key Table.headers line <> None)
                [Table.civic_a; Table.civic_b])
    by (repeat constructor; vm_compute; discriminate).
  exact (proj1 (lookup_returns_last_line Scenario.modified Table.reader
                  Table.files "table" Table.headers
                  [Table.civic_a; Table.civic_b] "Honda" "Civic"
                  (Lookup.YearInt 2016) Lookup.fresh eq_refl eq_refl eq_refl eq_refl eq_refl H)).
Defined.

(** X8. A line that has not as many values as the header has fields,
    a blank line for one, makes the first call raise [TypeError]:
    [epa_loaded] stays unset, while the lines before it have been put
    in the table and printed. *)
Theorem short_line_aborts_load w csv_reader files f headers good bad rest make model year g :
  Lookup.epa_loaded g = false ->
  fails w (SysOpen (resource_filename w "epa/vehicles.csv")) = None ->
  files !! resource_filename w "epa/vehicles.csv" = Some f ->
  csv_reader f = inr headers :: map inr good ++ inr bad :: rest ->
  Lookup.namedtuple "Row" headers = Ret headers ->
  Forall (fun line => Lookup.line_key headers line <> None) good ->
  length bad <> length headers ->
  let run := Lookup.epa_mmy_lookup w csv_reader files make model year g in
  run.1 = Raise Lookup.TypeError
  /\ Lookup.epa_loaded run.2 = false
  /\ (forall k, Lookup.epa_table run.2 !! k
                = Lookup.last_with_key headers k good (Lookup.epa_table g !! k))
  /\ length (Lookup.stdout run.2) = length (Lookup.stdout g) + length good.
Proof.
  intros Hg Hopen Hfile Hcsv Hnt Hgood Hbad run. subst run.
  destruct (LookupFacts.load_lines_app headers good (inr bad :: rest) g Hgood)
    as (g' & E & Hld & Htab & Hout).
  cbn [Lookup.load_lines] in E. rewrite LookupFacts.load_line_arity in E by exact Hbad.
  unfold Lookup.epa_mmy_lookup, Lookup.load_table. rewrite Hg. cbv zeta.
  rewrite Hopen, Hfile, Hcsv, Hnt, E. cbn [fst snd]. rewrite Hld. by repeat split.
Qed.

Lemma short_line_aborts_load_witness :
  let run := Lookup.epa_mmy_lookup Scenario.modified Table.reader_blank
               Table.files "Honda" "Civic" (Lookup.YearInt 2016) Lookup.fresh in
  run.1 = Raise Lookup.TypeError
  /\ Lookup.epa_loaded run.2 = false
  /\ Lookup.epa_table run.2 !! "Honda_Civic_2016"
     = Some (combine Table.headers Table.civic_a).
Proof.
  intros run.
  assert (H : Forall (fun line => Lookup.line_key Table.headers line <> None)
                [Table.civic_a])
    by (repeat constructor; vm_compute; discriminate).
  assert (Hb : length (@nil string) <> length Table.headers) by discriminate.
  destruct (short_line_aborts_load Scenario.modified Table.reader_blank
              Table.files "table" Table.headers [Table.civic_a] []
              [inr Table.civic_b] "Honda" "Civic" (Lookup.YearInt 2016) Lookup.fresh
              eq_refl eq_refl eq_refl eq_refl eq_refl H Hb)
    as (R1 & R2 & R3 & _).
  split; [exact R1|]. split; [exact R2|]. exact (R3 "Honda_Civic_2016").
Defined.

(** X9. Once a call has returned a row, every later call answers
    from the table as it is, whatever the file holds by then, even
    unreadable, and changes neither the table nor what was printed. *)
Theorem loaded_table_is_kept w csv_reader files make model year g row g1 :
  Lookup.epa_mmy_lookup w csv_reader files make model year g = (Ret row, g1) ->
  forall w' csv_reader' files' make' model' year',
    Lookup.epa_mmy_lookup w' csv_reader' files' make' model' year' g1
    = (match Lookup.epa_table g1 !! (make' +:+ "_" +:+ model' +:+ "_" +:+ Lookup.str year') with
       | Some row' => Ret row'
       | None => Raise KeyError
       end, g1).
Proof.
  intros Hrun.
  assert (Hl : Lookup.epa_loaded g1 = true).
  { unfold Lookup.epa_mmy_lookup in Hrun.
    destruct (Lookup.epa_loaded g) eqn:Eg.
    - destruct (Lookup.epa_table g !! _); [|discriminate]. by injection Hrun as _ <-.
    - unfold Lookup.load_table in Hrun.
      destruct (fails w _); [discriminate|].
      destruct (files !! _) as [f|]; [|discriminate].
      destruct (csv_reader f) as [|[e | headers] lines]; [discriminate.. |].
      destruct (Lookup.namedtuple _ _); [|discriminate].
      destruct (Lookup.load_lines _ _ _) as [[u | e] g']; [|discriminate].
      cbn [Lookup.epa_table] in Hrun. destruct (Lookup.epa_table g' !! _); [|discriminate].
      by injection Hrun as _ <-. }
  intros w' csv_reader' files' make' model' year'.
  unfold Lookup.epa_mmy_lookup. rewrite Hl.
  destruct (Lookup.epa_table g1 !! _); reflexivity.
Qed.

Lemma loaded_table_is_kept_witness :
  let g1 := (Lookup.epa_mmy_lookup Scenario.modified Table.reader Table.files
               "Honda" "Civic" (Lookup.YearInt 2016) Lookup.fresh).2 in
  Lookup.epa_mmy_lookup Scenario.modified (fun _ => []) ∅ "Honda" "Civic"
    (Lookup.YearStr "2016") g1
  = (Ret (combine Table.headers Table.civic_b), g1).
Proof.
  intros g1.
  apply (loaded_table_is_kept Scenario.modified Table.reader Table.files
           "Honda" "Civic" (Lookup.YearInt 2016) Lookup.fresh
           (combine Table.headers Table.civic_b) g1).
  vm_compute; reflexivity.
Defined.

(** X10. The key joins make, model and year with underscores, so an
    underscore can be moved between make and model: the lookup of
    [make_part] and [model] is the lookup of [make] and [part_model]. *)
Theorem lookup_key_is_ambiguous w csv_reader files make part model year g :
  Lookup.epa_mmy_lookup w csv_reader files (make +:+ "_" +:+ part) model year g
  = Lookup.epa_mmy_lookup w csv_reader files make (part +:+ "_" +:+ model) year g.
Proof.
  unfold Lookup.epa_mmy_lookup.
  replace ((make +:+ "_" +:+ part) +:+ "_" +:+ model +:+ "_" +:+ Lookup.str year)
    with (make +:+ "_" +:+ (part +:+ "_" +:+ model) +:+ "_" +:+ Lookup.str year);
    [reflexivity|].
  by rewrite !PathFacts.app_assoc.
Qed.

(** ** The default target *)

(** X11. With the default target the tokens are written below
    [libvin/epa] of the working directory and read from the resources
    of the package: unless those paths are the ones written, the call
    after a successful update sends the request it would have sent
    before it. *)
Theorem default_target_not_read_back w w' m0 resp ne nl body entries name content
    r' s' headers etag lm :
  no_failures w ->
  (forall headers, http w headers = inr resp) -> (200 <= code resp < 300)%Z ->
  lookup_header (info resp) "ETag" = Some ne ->
  lookup_header (info resp) LAST_MODIFIED = Some nl ->
  m0 !! temp_path w = None ->
  received (reads resp) = Ret body ->
  unzip w body = Some entries ->
  selected (Zipfile.namelist entries) = Some name ->
  Zipfile.getinfo entries name = Some content ->
  Zipfile.arcname name = name -> name <> "" -> OsPath.ends_with_slash name = false ->
  (forall x, let p := stored_path w' None x in
     p <> temp_path w
     /\ OsPath.is_under (OsPath.join default_target_dir "tmp") p = false
     /\ forall y, kept_name y -> p <> OsPath.join default_target_dir y) ->
  stored w' m0 (stored_path w' None "etag") = Ret etag ->
  stored w' m0 (stored_path w' None "last_modified") = Ret lm ->
  ensure_latest w' None (start (fs (ensure_latest w None (start m0)).2)) = (r', s') ->
  In (Request headers) (trace s') ->
  headers = token_headers etag lm.
Proof.
  intros ok Hhttp Hcode Hne Hnl Hfresh Hbody Hz Hsel Hinfo Harc Hname Hslash Hout
    He Hl Hrun Hin.
  assert (Hsrc : <[OsPath.join (OsPath.join (target_dir_of None) "tmp") (Zipfile.arcname name)
                     := content]> (<[temp_path w := body]> m0)
                 !! OsPath.join (OsPath.join (target_dir_of None) "tmp") name = Some content).
  { rewrite Harc. apply lookup_insert_eq. }
  destruct (ensure_latest_updates w None m0 resp ne nl body entries name content content
              ok Hhttp Hcode Hne Hnl Hfresh Hbody Hz Hsel Hinfo Hslash
              ltac:(by rewrite Harc) Hsrc) as [_ Hf].
  assert (Hsame : forall x, fs (ensure_latest w None (start m0)).2 !! stored_path w' None x
                            = m0 !! stored_path w' None x).
  { intros x. destruct (Hout x) as (H1 & H2 & H3). rewrite Hf. unfold updated.
    simpl target_dir_of.
    rewrite decide_False by exact H1. rewrite H2.
    rewrite decide_False by (apply H3; unfold kept_name; auto).
    rewrite decide_False by (apply H3; unfold kept_name; auto).
    rewrite decide_False by (apply H3; unfold kept_name; auto).
    rewrite decide_False; [reflexivity|].
    intros E. rewrite E, <- Harc, is_under_tmp_member in H2 by apply arcname_no_leading_slash.
    discriminate. }
  destruct (request_unique w' None _ r' s' headers Hrun Hin)
    as (etag' & lm' & l & E1 & E2 & -> & _).
  unfold stored in E1, E2, He, Hl. rewrite Hsame in E1, E2.
  rewrite He in E1. rewrite Hl in E2. by injection E1 as <-; injection E2 as <-.
Qed.

Lemma default_target_not_read_back_witness :
  let headers := [("User-Agent", USER_AGENT)] in
  In (Request headers)
     (trace (ensure_latest Scenario.not_modified None
               (start (fs (ensure_latest Scenario.modified None (start ∅)).2))).2)
  /\ headers = token_headers None None.
Proof.
  intros headers.
  assert (Hin : In (Request headers)
     (trace (ensure_latest Scenario.not_modified None
               (start (fs (ensure_latest Scenario.modified None (start ∅)).2))).2))
    by (vm_compute; left; reflexivity).
  split; [exact Hin|].
  assert (H1 : no_failures Scenario.modified) by (intros o; reflexivity).
  assert (H2 : forall headers, http Scenario.modified headers = inr (Scenario.answer 200))
    by reflexivity.
  assert (H3 : (200 <= code (Scenario.answer 200) < 300)%Z) by (simpl; lia).
  assert (H4 : (∅ : gmap string string) !! temp_path Scenario.modified = None)
    by apply lookup_empty.
  assert (H5 : Zipfile.arcname "anything.csv" = "anything.csv") by (vm_compute; reflexivity).
  assert (H6 : "anything.csv" <> "") by discriminate.
  assert (H7 : forall x, let p := stored_path Scenario.not_modified None x in
            p <> temp_path Scenario.modified
            /\ OsPath.is_under (OsPath.join default_target_dir "tmp") p = false
            /\ forall y, kept_name y -> p <> OsPath.join default_target_dir y).
  { intros x. cbv zeta. split; [|split].
    - vm_compute. discriminate.
    - vm_compute. reflexivity.
    - intros y [-> | [-> | ->]]; vm_compute; discriminate. }
  apply (default_target_not_read_back Scenario.modified Scenario.not_modified ∅
           (Scenario.answer 200) "xyz" Scenario.EPOCH "archive"
           [("anything.csv", "new")] "anything.csv" "new" (Ret false)
           (ensure_latest Scenario.not_modified None
              (start (fs (ensure_latest Scenario.modified None (start ∅)).2))).2
           headers None None H1 H2 H3 eq_refl eq_refl H4 eq_refl eq_refl eq_refl eq_refl
           H5 H6 eq_refl H7 eq_refl eq_refl).
  - vm_compute; reflexivity.
  - exact Hin.
Defined.

(** ** The header line *)

Lemma check_fields_NoDup seen names :
  Lookup.check_fields seen names = Ret tt ->
  NoDup names /\ forall n, In n names -> ~ In n seen.
Proof.
  revert seen. induction names as [|name names IH]; intros seen; simpl.
  - intros _. split; [constructor | intros n []].
  - destruct (match name with String c _ => Ascii.eqb c "_" | EmptyString => false end);
      [discriminate|].
    destruct (existsb (String.eqb name) seen) eqn:E; [discriminate|].
    intros H. destruct (IH _ H) as [Hnd Hseen].
    assert (Hname : ~ In name seen).
    { intros Hin. assert (existsb (String.eqb name) seen = true); [|congruence].
      apply existsb_exists. exists name. split; [exact Hin | apply String.eqb_refl]. }
    split.
    + apply NoDup_cons. split; [|exact Hnd].
      intros Hin. apply list_elem_of_In in Hin. apply (Hseen name Hin). by left.
    + intros n [<- | Hin]; [exact Hname|]. intros Hs. apply (Hseen n Hin). by right.
Qed.

(** X12. A header line in which a column name comes twice is
    refused by [namedtuple]: the first call raises [ValueError], or
    [IndexError] when a column name is empty, and the globals stay as
    they were. *)
Theorem repeated_column_rejected w csv_reader files f headers lines make model year g :
  Lookup.epa_loaded g = false ->
  fails w (SysOpen (resource_filename w "epa/vehicles.csv")) = None ->
  files !! resource_filename w "epa/vehicles.csv" = Some f ->
  csv_reader f = inr headers :: lines ->
  ~ NoDup headers ->
  let run := Lookup.epa_mmy_lookup w csv_reader files make model year g in
  (run.1 = Raise ValueError \/ run.1 = Raise IndexError) /\ run.2 = g.
Proof.
  intros Hg Hopen Hfile Hcsv Hdup run. subst run.
  unfold Lookup.epa_mmy_lookup, Lookup.load_table. rewrite Hg. cbv zeta.
  rewrite Hopen, Hfile, Hcsv. unfold Lookup.namedtuple.
  assert (Hn : forall names e, Lookup.check_names names = Raise e ->
                 e = ValueError \/ e = IndexError).
  { induction names as [|n names IH]; intros e; simpl; [discriminate|].
    destruct (Lookup.check_name n) as [u | e'] eqn:En; [apply IH|].
    intros [= <-]. unfold Lookup.check_name in En.
    destruct (negb _); [injection En as <-; by left|].
    destruct (Lookup.iskeyword n); [injection En as <-; by left|].
    destruct n as [|c n]; [injection En as <-; by right|].
    destruct (Lookup.isdigit c); [injection En as <-; by left | discriminate]. }
  destruct (Lookup.check_names ("Row" :: headers)) as [u | e] eqn:E1.
  - destruct (Lookup.check_fields [] headers) as [[] | e] eqn:E2.
    + destruct (check_fields_NoDup [] headers E2) as [Hnd _]. contradiction.
    + assert (e = ValueError) as ->; [|split; [by left | reflexivity]].
      clear -E2. revert E2. generalize (@nil string).
      induction headers as [|n names IH]; intros seen; simpl; [discriminate|].
      destruct (match n with String c _ => Ascii.eqb c "_" | EmptyString => false end);
        [by intros [= <-]|].
      destruct (existsb _ _); [by intros [= <-] | apply IH].
  - split; [|reflexivity]. simpl. destruct (Hn _ _ E1) as [-> | ->]; auto.
Qed.

Lemma repeated_column_rejected_witness :
  let run := Lookup.epa_mmy_lookup Scenario.modified Table.reader_repeated Table.files
               "Honda" "Civic" (Lookup.YearInt 2016) Lookup.fresh in
  (run.1 = Raise ValueError \/ run.1 = Raise IndexError) /\ run.2 = Lookup.fresh.
Proof.
  intros run.
  assert (H : ~ NoDup ("make" :: Table.headers)).
  { intros Hnd. apply NoDup_cons in Hnd as [Hn _]. apply Hn. by left. }
  exact (repeated_column_rejected Scenario.modified Table.reader_repeated Table.files "table"
           ("make" :: Table.headers) [inr ("Honda" :: Table.civic_a)] "Honda" "Civic"
           (Lookup.YearInt 2016) Lookup.fresh eq_refl eq_refl eq_refl eq_refl H).
Defined.
